(** * py-questdb: the query-response materialization pipeline

    A shallow embedding of [py_questdb/db_types.py] and [py_questdb/db.py]
    (the decoding of a QuestDB [/exec] response, the row materializer, the
    tabular materializer and the construction of the query URL), followed by
    the properties of that code.

    Python objects are modelled by the inductive type [pyval], exceptions by
    the error monad [result].  The collaborators that are not part of the
    repository are interfaces: the text conversions of the Python runtime
    ([PyRuntime]), the JSON tokenizer of msgspec ([Tokenizer]), the two HTTP
    clients ([Transport]) and the pandas operations ([Pandas]). *)

From Stdlib Require Import ZArith Lia List String Ascii Permutation.
From Stdlib Require Import DecimalString Floats.SpecFloat.
From stdpp Require Import base option list gmap strings.

Set Warnings "-register-all".
Local Open Scope string_scope.
Local Open Scope Z_scope.

(** ** Python values, exceptions *)

Module Py.

(** The exceptions that the modelled code can raise. *)
Inductive exn : Type :=
  | KeyError (key : string)
  | ValueError
  | TypeError
  | OverflowError
  | DecodeError          (* msgspec.DecodeError: the buffer is not JSON *)
  | ValidationError      (* msgspec.ValidationError: JSON of the wrong shape *)
  | HTTPError (status : Z).

Inductive result (A : Type) : Type :=
  | Ok (a : A)
  | Raise (e : exn).
Arguments Ok {A} a.
Arguments Raise {A} e.

#[global] Instance result_ret : MRet result := fun A a => Ok a.
#[global] Instance result_bind : MBind result := fun A B f m =>
  match m with
  | Ok a => f a
  | Raise e => Raise e
  end.
#[global] Instance result_fmap : FMap result := fun A B f m =>
  match m with
  | Ok a => Ok (f a)
  | Raise e => Raise e
  end.

(** [datetime.datetime]: the fields of the object; [tzinfo] is [None] for a
    naive value and [Some off] for an aware one, [off] being the UTC offset
    in microseconds. *)
Record datetime : Type := mk_datetime {
  year : Z; month : Z; day : Z;
  hour : Z; minute : Z; second : Z; microsecond : Z;
  tzinfo : option Z
}.

Definition aware (d : datetime) : bool :=
  match tzinfo d with Some _ => true | None => false end.

(** The Python objects that a decoded cell or a coerced cell can be. *)
Inductive pyval : Type :=
  | PNone
  | PBool (b : bool)
  | PInt (z : Z)
  | PFloat (f : spec_float)
  | PStr (s : string)
  | PList (l : list pyval)
  | PDict (d : list (string * pyval))
  | PDatetime (d : datetime).

(** A [dict] with string keys keeps insertion order; assigning an existing
    key replaces the value and keeps the key's position. *)
Definition dict : Type := list (string * pyval).

Fixpoint dict_set (d : dict) (k : string) (v : pyval) : dict :=
  match d with
  | [] => [(k, v)]
  | (k', v') :: d' =>
      if String.eqb k' k then (k', v) :: d' else (k', v') :: dict_set d' k v
  end.

Fixpoint dict_get (d : dict) (k : string) : option pyval :=
  match d with
  | [] => None
  | (k', v') :: d' => if String.eqb k' k then Some v' else dict_get d' k
  end.

Definition dict_keys (d : dict) : list string := map fst d.

(** *** binary64 *)

Definition prec64 : Z := 53.
Definition emax64 : Z := 1024.

(** [float(n)] for an [int]: correctly rounded, [OverflowError] when the
    rounded value is not finite. *)
Definition float_of_int (z : Z) : result spec_float :=
  match binary_normalize prec64 emax64 z 0 false with
  | S754_infinity _ => Raise OverflowError
  | f => Ok f
  end.

(** [int(x)] for a [float]: truncation towards zero. *)
Definition int_of_float (f : spec_float) : result Z :=
  match f with
  | S754_zero _ => Ok 0
  | S754_infinity _ => Raise OverflowError
  | S754_nan => Raise ValueError
  | S754_finite s m e =>
      let a := match e with
               | Z.neg p => Z.shiftr (Z.pos m) (Z.pos p)
               | _ => Z.shiftl (Z.pos m) e
               end in
      Ok (if s then - a else a)
  end.

Definition float_is_zero (f : spec_float) : bool :=
  match f with S754_zero _ => true | _ => false end.

(** The binary64 nearest to [m * 10 ^ e]. *)
Definition float_of_decimal (neg : bool) (m e : Z) : spec_float :=
  if m =? 0 then S754_zero neg
  else
    let sm := if neg then - m else m in
    if 0 <=? e then binary_normalize prec64 emax64 (sm * 10 ^ e) 0 false
    else
      let d := 10 ^ (- e) in
      let sh := Z.log2 d + 64 in
      let q := Z.shiftl m sh / d in
      let sticky := if Z.shiftl m sh mod d =? 0 then 0 else 1 in
      let mq := 2 * q + sticky in
      binary_normalize prec64 emax64 (if neg then - mq else mq) (- sh - 1) false.


(** *** The text conversions of the runtime

    What CPython does outside the forms modelled below is taken from the
    runtime: the text of a number, container or datetime, and the parsing
    of a number. *)
Class PyRuntime : Type := {
  rt_str : pyval -> result string;
  rt_int_of_str : string -> result Z;
  rt_float_of_str : string -> result spec_float
}.

(** *** The builtins named in [TYPE_MAP] *)

(** [str(x)]. *)
Definition py_str `{PyRuntime} (v : pyval) : result pyval :=
  match v with
  | PStr s => Ok (PStr s)
  | PNone => Ok (PStr "None")
  | PBool true => Ok (PStr "True")
  | PBool false => Ok (PStr "False")
  | _ => PStr <$> rt_str v
  end.

(** [bool(x)]: the truth value of the object. *)
Definition py_bool (v : pyval) : result pyval :=
  Ok (PBool match v with
            | PNone => false
            | PBool b => b
            | PInt z => negb (z =? 0)
            | PFloat f => negb (float_is_zero f)
            | PStr s => negb (String.eqb s "")
            | PList l => match l with [] => false | _ => true end
            | PDict d => match d with [] => false | _ => true end
            | PDatetime _ => true
            end).

(** [int(x)]. *)
Definition py_int `{PyRuntime} (v : pyval) : result pyval :=
  match v with
  | PInt z => Ok (PInt z)
  | PBool b => Ok (PInt (if b then 1 else 0))
  | PFloat f => PInt <$> int_of_float f
  | PStr s => PInt <$> rt_int_of_str s
  | _ => Raise TypeError
  end.

(** [float(x)]. *)
Definition py_float `{PyRuntime} (v : pyval) : result pyval :=
  match v with
  | PFloat f => Ok (PFloat f)
  | PInt z => PFloat <$> float_of_int z
  | PBool b => PFloat <$> float_of_int (if b then 1 else 0)
  | PStr s => PFloat <$> rt_float_of_str s
  | _ => Raise TypeError
  end.

(** *** [datetime.datetime.fromisoformat]

    The reading of ISO 8601 text by CPython 3.11 (the functions of
    [Modules/_datetimemodule.c] named below), on the UTF-8 bytes of the
    text: a calendar date or a week date, then, if anything follows, one
    separator character of any kind and a time of day with an optional
    fraction and an optional offset from UTC.  The designator [Z] is read
    as by Python 3.11 and later, which the repository's tests rely on. *)

Definition digit (c : ascii) : option Z :=
  let n := Z.of_N (N_of_ascii c) in
  if (48 <=? n) && (n <=? 57) then Some (n - 48) else None.

Fixpoint digits_from (acc : Z) (l : list ascii) : option Z :=
  match l with
  | [] => Some acc
  | c :: l' => d ← digit c; digits_from (10 * acc + d) l'
  end.

Definition digits (l : list ascii) : option Z := digits_from 0 l.

Definition is_leap (y : Z) : bool :=
  ((y mod 4 =? 0) && negb (y mod 100 =? 0)) || (y mod 400 =? 0).

Definition days_in_month (y m : Z) : Z :=
  if m =? 2 then (if is_leap y then 29 else 28)
  else if (m =? 4) || (m =? 6) || (m =? 9) || (m =? 11) then 30
  else 31.

Definition valid_date (y m d : Z) : bool :=
  (1 <=? y) && (y <=? 9999) && (1 <=? m) && (m <=? 12)
  && (1 <=? d) && (d <=? days_in_month y m).

Definition valid_clock (h mi s : Z) : bool :=
  (h <=? 23) && (mi <=? 59) && (s <=? 59).

Definition is_char (c : ascii) (x : ascii) : bool := Ascii.eqb c x.

Definition NUL : ascii := "000"%char.

(** The byte at an index; past the end of the text the terminator is
    read. *)
Definition byte_at (l : list ascii) (i : nat) : ascii := nth i l NUL.

Definition is_digit (c : ascii) : bool :=
  match digit c with Some _ => true | None => false end.

(** [parse_digits]: exactly [k] decimal digits. *)
Definition parse_digits (k : nat) (l : list ascii) : option (Z * list ascii) :=
  if (length l <? k)%nat then None
  else n ← digits (take k l); Some (n, drop k l).

Fixpoint count_digits (l : list ascii) : nat :=
  match l with
  | c :: l' => if is_digit c then S (count_digits l') else O
  | [] => O
  end.

Definition find_isoformat_datetime_separator (l : list ascii) : option nat :=
  let len := length l in
  if (len =? 7)%nat then Some 7%nat
  else if is_char "-" (byte_at l 4) then
    if is_char "W" (byte_at l 5) then
      if (len <? 8)%nat then None
      else if (8 <? len)%nat && is_char "-" (byte_at l 8) then
        if (len =? 9)%nat then None
        else if (10 <? len)%nat && is_digit (byte_at l 10) then Some 8%nat
        else Some 10%nat
      else Some 8%nat
    else Some 10%nat
  else if is_char "W" (byte_at l 4) then
    let idx := (7 + count_digits (drop 7 l))%nat in
    if (idx <? 9)%nat then Some idx
    else if Nat.even idx then Some 7%nat else Some 8%nat
  else Some 8%nat.

(** The calendar arithmetic of the C module: [/] and [%] truncate. *)
Definition days_before_year (y : Z) : Z :=
  let y' := y - 1 in
  y' * 365 + Z.quot y' 4 - Z.quot y' 100 + Z.quot y' 400.

Definition _days_before_month : list Z :=
  [0; 0; 31; 59; 90; 120; 151; 181; 212; 243; 273; 304; 334].

Definition _days_in_month : list Z :=
  [0; 31; 28; 31; 30; 31; 30; 31; 31; 30; 31; 30; 31].

Definition table (t : list Z) (i : Z) : Z := nth (Z.to_nat i) t 0.

Definition table_days_in_month (y m : Z) : Z :=
  if (m =? 2) && is_leap y then 29 else table _days_in_month m.

Definition days_before_month (y m : Z) : Z :=
  table _days_before_month m + (if (2 <? m) && is_leap y then 1 else 0).

Definition ymd_to_ord (y m d : Z) : Z :=
  days_before_year y + days_before_month y m + d.

Definition weekday (y m d : Z) : Z := Z.rem (ymd_to_ord y m d + 6) 7.

Definition iso_week1_monday (y : Z) : Z :=
  let first_day := ymd_to_ord y 1 1 in
  let first_weekday := Z.rem (first_day + 6) 7 in
  let week1_monday := first_day - first_weekday in
  if 3 <? first_weekday then week1_monday + 7 else week1_monday.

Definition ord_to_ymd (ordinal : Z) : Z * Z * Z :=
  let o := ordinal - 1 in
  let n400 := Z.quot o 146097 in
  let n := Z.rem o 146097 in
  let n100 := Z.quot n 36524 in
  let n := Z.rem n 36524 in
  let n4 := Z.quot n 1461 in
  let n := Z.rem n 1461 in
  let n1 := Z.quot n 365 in
  let n := Z.rem n 365 in
  let y := n400 * 400 + 1 + n100 * 100 + n4 * 4 + n1 in
  if (n1 =? 4) || (n100 =? 4) then (y - 1, 12, 31)
  else
    let leapyear := (n1 =? 3) && (negb (n4 =? 24) || (n100 =? 3)) in
    let m := Z.shiftr (n + 50) 5 in
    let preceding :=
      table _days_before_month m + (if (2 <? m) && leapyear then 1 else 0) in
    if n <? preceding then
      (y, m - 1, n - (preceding - table_days_in_month y (m - 1)) + 1)
    else (y, m, n - preceding + 1).

Definition iso_to_ymd (iso_year iso_week iso_day : Z) : option (Z * Z * Z) :=
  let week_ok :=
    if (iso_week <=? 0) || (53 <=? iso_week) then
      (iso_week =? 53)
      && (let first_weekday := weekday iso_year 1 1 in
          (first_weekday =? 3) || ((first_weekday =? 2) && is_leap iso_year))
    else true in
  if negb week_ok then None
  else if (iso_day <=? 0) || (8 <=? iso_day) then None
  else
    Some (ord_to_ymd (iso_week1_monday iso_year
                      + (iso_week - 1) * 7 + iso_day - 1)).

(** [parse_isoformat_date], on the text before the separator. *)
Definition parse_isoformat_date (t : list ascii) : option (Z * Z * Z) :=
  '(y, r) ← parse_digits 4 t;
  let uses_separator := is_char "-" (hd NUL r) in
  let r1 := if uses_separator then tl r else r in
  if is_char "W" (hd NUL r1) then
    '(w, r2) ← parse_digits 2 (tl r1);
    match r2 with
    | [] => iso_to_ymd y w 1
    | c :: r3 =>
        if uses_separator && negb (is_char "-" c) then None
        else
          '(wd, _) ← parse_digits 1 (if uses_separator then r3 else r2);
          iso_to_ymd y w wd
    end
  else
    '(m, r2) ← parse_digits 2 r1;
    if uses_separator && negb (is_char "-" (hd NUL r2)) then None
    else
      '(d, _) ← parse_digits 2 (if uses_separator then tl r2 else r2);
      Some (y, m, d).

(** The fraction of a second: up to six digits count, further digits are
    skipped; the flag tells that the text does not end there. *)
Fixpoint skip_digits (l : list ascii) : list ascii :=
  match l with
  | c :: l' => if is_digit c then skip_digits l' else l
  | [] => []
  end.

Definition not_nul (c : ascii) : bool := negb (Ascii.eqb c NUL).

Definition parse_fraction (f : list ascii) (next : ascii) : option (bool * Z) :=
  let to_parse := Nat.min (length f) 6 in
  us ← digits (take to_parse f);
  Some (not_nul (hd next (skip_digits (drop to_parse f))),
        us * 10 ^ Z.of_nat (6 - to_parse)).

(** What follows a two-digit component: the end, the next component or
    the fraction. *)
Inductive after : Type :=
  | the_end (more : bool)
  | component (t : list ascii)
  | fraction (t : list ascii)
  | malformed.

Definition after_component (has_separator : bool) (last : bool)
    (t : list ascii) (next : ascii) : after :=
  match t with
  | [] => the_end (not_nul next)
  | [c] => the_end (not_nul c)
  | c :: t' =>
      if has_separator && is_char ":" c then
        if last then fraction t' else component t'
      else if is_char "." c || is_char "," c then fraction t'
      else if negb has_separator then
        if last then fraction t else component t
      else malformed
  end.

(** [parse_hh_mm_ss_ff], on the text [t] that is followed by [next]. *)
Definition parse_hh_mm_ss_ff (t : list ascii) (next : ascii)
  : option (bool * (Z * Z * Z * Z)) :=
  '(h, t1) ← parse_digits 2 t;
  let has_separator := is_char ":" (hd next t1) in
  match after_component has_separator false t1 next with
  | the_end more => Some (more, (h, 0, 0, 0))
  | fraction f => '(more, us) ← parse_fraction f next; Some (more, (h, 0, 0, us))
  | malformed => None
  | component t2 =>
      '(mi, t3) ← parse_digits 2 t2;
      match after_component has_separator false t3 next with
      | the_end more => Some (more, (h, mi, 0, 0))
      | fraction f =>
          '(more, us) ← parse_fraction f next; Some (more, (h, mi, 0, us))
      | malformed => None
      | component t4 =>
          '(s, t5) ← parse_digits 2 t4;
          match after_component has_separator true t5 next with
          | the_end more => Some (more, (h, mi, s, 0))
          | fraction f =>
              '(more, us) ← parse_fraction f next; Some (more, (h, mi, s, us))
          | _ => None
          end
      end
  end.

Definition is_tz_mark (c : ascii) : bool :=
  is_char "Z" c || is_char "+" c || is_char "-" c.

Fixpoint split_at_mark (t : list ascii) : list ascii * list ascii :=
  match t with
  | [] => ([], [])
  | c :: t' =>
      if is_tz_mark c then ([], t)
      else let '(a, b) := split_at_mark t' in (c :: a, b)
  end.

(** [parse_isoformat_time]: the time of day and the offset from UTC, in
    seconds and microseconds. *)
Definition parse_isoformat_time (t : list ascii)
  : option (Z * Z * Z * Z * option (Z * Z)) :=
  let clock := fst (split_at_mark t) in
  let zone := snd (split_at_mark t) in
  match parse_hh_mm_ss_ff clock (hd NUL zone) with
  | None => None
  | Some (more, hmsf) =>
      match zone with
      | [] => if more then None else Some (hmsf, None)
      | mark :: z =>
          if is_char "Z" mark then
            if not_nul (hd NUL z) then None else Some (hmsf, Some (0, 0))
          else
            match parse_hh_mm_ss_ff z NUL with
            | Some (false, (th, tm, ts, tus)) =>
                let sign := if is_char "-" mark then -1 else 1 in
                Some (hmsf,
                      Some (sign * (th * 3600 + tm * 60 + ts), sign * tus))
            | _ => None
            end
      end
  end.

(** The bytes of the character that begins with [c], in UTF-8. *)
Definition utf8_length (c : ascii) : nat :=
  let n := N_of_ascii c in
  if N.eqb (N.land n 128) 0 then 1%nat
  else if N.eqb (N.land n 240) 224 then 3%nat
  else if N.eqb (N.land n 240) 240 then 4%nat
  else 2%nat.

(** [tzinfo_from_isoformat_results] and the check of [timezone]. *)
Definition tzinfo_of (tz : option (Z * Z)) : option (option Z) :=
  match tz with
  | None => Some None
  | Some (seconds, us) =>
      if seconds =? 0 then Some (Some 0)
      else
        let off := seconds * 1000000 + us in
        if (- 86400000000 <? off) && (off <? 86400000000) then Some (Some off)
        else None
  end.

(** The checks of the constructor of [datetime]. *)
Definition new_datetime (y m d h mi s us : Z) (tz : option Z)
  : option datetime :=
  if valid_date y m d && (0 <=? h) && (0 <=? mi) && (0 <=? s)
     && valid_clock h mi s && (0 <=? us) && (us <=? 999999)
  then Some (mk_datetime y m d h mi s us tz) else None.

(** [datetime.fromisoformat] of CPython 3.11, on the UTF-8 bytes of the
    text. *)
Definition isoformat (l : list ascii) : option datetime :=
  if (length l <? 7)%nat then None
  else
    sep ← find_isoformat_datetime_separator l;
    '(y, m, d) ← parse_isoformat_date (take sep l);
    match drop sep l with
    | [] => new_datetime y m d 0 0 0 0 None
    | (c :: _) as rest =>
        '(h, mi, s, us, tz) ← parse_isoformat_time (drop (utf8_length c) rest);
        tzinfo ← tzinfo_of tz;
        new_datetime y m d h mi s us tzinfo
    end.

Definition fromisoformat (v : pyval) : result pyval :=
  match v with
  | PStr s =>
      match isoformat (list_ascii_of_string s) with
      | Some d => Ok (PDatetime d)
      | None => Raise ValueError
      end
  | _ => Raise TypeError
  end.

End Py.
Export Py.

(** ** msgspec: typed decoding of a JSON document *)

Module Msgspec.

(** A JSON document as the tokenizer of [msgspec.json] delivers it; an
    object keeps its members in the order of the text, duplicates
    included. *)
Inductive json : Type :=
  | JNull
  | JBool (b : bool)
  | JInt (z : Z)
  | JFloat (f : spec_float)
  | JString (s : string)
  | JArray (l : list json)
  | JObject (members : list (string * json)).

Definition bytes : Type := string.

Fixpoint foldM {A S : Type} (f : S -> A -> result S) (s : S) (l : list A)
  : result S :=
  match l with
  | [] => Ok s
  | x :: l' => s' ← f s x; foldM f s' l'
  end.

Fixpoint traverse {A B : Type} (f : A -> result B) (l : list A)
  : result (list B) :=
  match l with
  | [] => Ok []
  | x :: l' => y ← f x; ys ← traverse f l'; Ok (y :: ys)
  end.

(** Decoding with no type given ([Any]): a later member of an object
    replaces an earlier one of the same key. *)
Fixpoint decode_any (j : json) : pyval :=
  match j with
  | JNull => PNone
  | JBool b => PBool b
  | JInt z => PInt z
  | JFloat f => PFloat f
  | JString s => PStr s
  | JArray l => PList (map decode_any l)
  | JObject ms =>
      PDict (fold_left (fun d kv => dict_set d (fst kv) (snd kv))
                       (map (fun kv => (fst kv, decode_any (snd kv))) ms) [])
  end.

Definition decode_str (j : json) : result string :=
  match j with JString s => Ok s | _ => Raise ValidationError end.

Definition decode_int (j : json) : result Z :=
  match j with JInt z => Ok z | _ => Raise ValidationError end.

Definition decode_list {A : Type} (elem : json -> result A) (j : json)
  : result (list A) :=
  match j with JArray l => traverse elem l | _ => Raise ValidationError end.

(** The annotation [tuple] without parameters: an array of any length,
    each element decoded as [Any]. *)
Definition decode_tuple (j : json) : result (list pyval) :=
  match j with
  | JArray l => Ok (map decode_any l)
  | _ => Raise ValidationError
  end.

End Msgspec.
Export Msgspec.

(** ** py_questdb/db_types.py *)

Module DbTypes.

(** [TYPE_MAP] maps a declared type to a callable; the callables are named
    here and applied by [call]. *)
Inductive converter : Type :=
  | conv_str
  | conv_bool
  | conv_int
  | conv_float
  | conv_fromisoformat.

Definition call `{PyRuntime} (c : converter) (v : pyval) : result pyval :=
  match c with
  | conv_str => py_str v
  | conv_bool => py_bool v
  | conv_int => py_int v
  | conv_float => py_float v
  | conv_fromisoformat => fromisoformat v
  end.

Definition TYPE_MAP_items : list (string * converter) :=
  [ ("SYMBOL", conv_str);
    ("BOOLEAN", conv_bool);
    ("LONG", conv_int);
    ("DOUBLE", conv_float);
    ("VARCHAR", conv_str);
    ("TIMESTAMP", conv_fromisoformat) ].

Definition TYPE_MAP : gmap string converter := list_to_map TYPE_MAP_items.

(** [class QuestDBColumn(msgspec.Struct)] *)
Record QuestDBColumn : Type := mk_QuestDBColumn {
  name : string;
  type : string
}.

(** [class QuestDBResponse(msgspec.Struct)]; a row of [dataset] is a
    [tuple] of any length. *)
Record QuestDBResponse : Type := mk_QuestDBResponse {
  query : string;
  columns : list QuestDBColumn;
  timestamp : Z;
  dataset : list (list pyval);
  count : Z
}.

(** Decoding a JSON object into a [Struct]: the members are read in order,
    a member whose key is a field is decoded with the field's annotation
    (a repeated key replaces the earlier value), any other member is
    skipped, and every field must have been seen at the end. *)
Definition column_member (st : option string * option string)
    (kv : string * json) : result (option string * option string) :=
  if String.eqb (fst kv) "name" then s ← decode_str (snd kv); Ok (Some s, snd st)
  else if String.eqb (fst kv) "type" then s ← decode_str (snd kv); Ok (fst st, Some s)
  else Ok st.

Definition decode_QuestDBColumn (j : json) : result QuestDBColumn :=
  match j with
  | JObject ms =>
      st ← foldM column_member (None, None) ms;
      match st with
      | (Some n, Some t) => Ok (mk_QuestDBColumn n t)
      | _ => Raise ValidationError
      end
  | _ => Raise ValidationError
  end.

Record response_slots : Type := mk_slots {
  s_query : option string;
  s_columns : option (list QuestDBColumn);
  s_timestamp : option Z;
  s_dataset : option (list (list pyval));
  s_count : option Z
}.

Definition response_member (st : response_slots) (kv : string * json)
  : result response_slots :=
  let k := fst kv in
  let v := snd kv in
  if String.eqb k "query" then
    x ← decode_str v;
    Ok (mk_slots (Some x) (s_columns st) (s_timestamp st) (s_dataset st) (s_count st))
  else if String.eqb k "columns" then
    x ← decode_list decode_QuestDBColumn v;
    Ok (mk_slots (s_query st) (Some x) (s_timestamp st) (s_dataset st) (s_count st))
  else if String.eqb k "timestamp" then
    x ← decode_int v;
    Ok (mk_slots (s_query st) (s_columns st) (Some x) (s_dataset st) (s_count st))
  else if String.eqb k "dataset" then
    x ← decode_list decode_tuple v;
    Ok (mk_slots (s_query st) (s_columns st) (s_timestamp st) (Some x) (s_count st))
  else if String.eqb k "count" then
    x ← decode_int v;
    Ok (mk_slots (s_query st) (s_columns st) (s_timestamp st) (s_dataset st) (Some x))
  else Ok st.

Definition decode_QuestDBResponse (j : json) : result QuestDBResponse :=
  match j with
  | JObject ms =>
      st ← foldM response_member (mk_slots None None None None None) ms;
      match st with
      | mk_slots (Some q) (Some cs) (Some ts) (Some ds) (Some n) =>
          Ok (mk_QuestDBResponse q cs ts ds n)
      | _ => Raise ValidationError
      end
  | _ => Raise ValidationError
  end.

(** *** pandas

    The operations of pandas that [convert_types] and [query_df] call.
    [df_columns] is the frame's column labels. *)
Inductive downcast : Type := downcast_integer | downcast_float.

Class Pandas : Type := {
  frame : Type;
  series : Type;
  pd_DataFrame : list (list pyval) -> list string -> result frame;
  df_columns : frame -> list string;
  df_getitem : frame -> string -> result series;
  df_setitem : frame -> string -> series -> result frame;
  pd_to_datetime : series -> result series;
  pd_to_numeric : series -> downcast -> result series;
  series_astype_str : series -> result series;
  df_set_index : frame -> string -> result frame;
  df_sort_index : frame -> bool -> result frame
}.

Definition type_in (t : string) (l : list string) : bool :=
  existsb (String.eqb t) l.

(** One iteration of the loop of [convert_types]. *)
Definition convert_column `{Pandas} (df : frame) (col : QuestDBColumn)
  : result frame :=
  if String.eqb (type col) "TIMESTAMP" then
    s ← df_getitem df (name col);
    s' ← pd_to_datetime s;
    df_setitem df (name col) s'
  else if type_in (type col) ["BOOLEAN"; "BYTE"; "SHORT"; "INT"; "LONG"] then
    s ← df_getitem df (name col);
    s' ← pd_to_numeric s downcast_integer;
    df_setitem df (name col) s'
  else if type_in (type col) ["FLOAT"; "DOUBLE"] then
    s ← df_getitem df (name col);
    s' ← pd_to_numeric s downcast_float;
    df_setitem df (name col) s'
  else if String.eqb (type col) "STRING" then
    s ← df_getitem df (name col);
    s' ← series_astype_str s;
    df_setitem df (name col) s'
  else Ok df.

Fixpoint convert_types `{Pandas} (df : frame) (columns : list QuestDBColumn)
  : result frame :=
  match columns with
  | [] => Ok df
  | col :: rest => df' ← convert_column df col; convert_types df' rest
  end.

End DbTypes.
Export DbTypes.

(** ** py_questdb/db.py *)

Module Db.

(** The collaborators of the query path: the tokenizer behind
    [msgspec.json.decode], and [aiohttp]'s [session.get] and [requests.get]
    with the bodies they return. *)
Record http_response : Type := mk_http_response {
  status_code : Z;
  content : bytes
}.

Class Tokenizer : Type := {
  json_loads : bytes -> result json
}.

Class Transport : Type := {
  aiohttp_get : string -> list (string * string) -> result http_response;
  requests_get : string -> list (string * string) -> result http_response
}.

(** [aiohttp.ClientResponse.raise_for_status]: raises from status 400. *)
Definition aiohttp_raise_for_status (r : http_response) : result unit :=
  if 400 <=? status_code r
  then Raise (HTTPError (status_code r))
  else Ok tt.

(** [requests.Response.raise_for_status]: raises for a status from 400
    to 599. *)
Definition requests_raise_for_status (r : http_response) : result unit :=
  if (400 <=? status_code r) && (status_code r <? 600)
  then Raise (HTTPError (status_code r))
  else Ok tt.

(** [questdb.ingress.Sender], as constructed by [__init__]. *)
Record Sender : Type := mk_Sender {
  protocol : string;
  sender_host : string;
  sender_port : Z;
  username : option string;
  password : option string;
  auto_flush : bool
}.

Inductive ClientSession : Type := aiohttp_ClientSession.

Record QuestDB : Type := mk_QuestDB {
  url : string;
  client : Sender;
  session : option ClientSession
}.

(** [QuestDB.__init__]: the f-string [f"http://{host}:{9000}"] formats the
    literal [9000]; [port] goes to the [Sender].  ([client.establish()]
    belongs to the write path and is left to the sender.) *)
Definition __init__ (host : string) (port : Z)
    (username password : option string) : QuestDB :=
  {| url := "http://" +:+ host +:+ ":" +:+ "9000";
     client := mk_Sender "http" host port username password true;
     session := None |}.

(** [QuestDB._query]: creates the session when there is none. *)
Definition _query `{Transport} (self : QuestDB) (query_string : string)
  : QuestDB * result bytes :=
  let self' :=
    match session self with
    | None => mk_QuestDB (url self) (client self) (Some aiohttp_ClientSession)
    | Some _ => self
    end in
  (self',
   response ← aiohttp_get (url self' +:+ "/exec") [("query", query_string)];
   _ ← aiohttp_raise_for_status response;
   Ok (content response)).

(** [QuestDB._query_sync] *)
Definition _query_sync `{Transport} (self : QuestDB) (query_string : string)
  : result bytes :=
  response ← requests_get (url self +:+ "/exec") [("query", query_string)];
  _ ← requests_raise_for_status response;
  Ok (content response).

(** [QuestDB.parse_query_response] *)
Definition parse_query_response `{Tokenizer} (response : bytes)
  : result QuestDBResponse :=
  j ← json_loads response; decode_QuestDBResponse j.

(** What iterating a generator to its end shows: the values yielded, then
    [None] when it is exhausted or the exception that ended it. *)
Definition generator (A : Type) : Type := (list A * option exn)%type.

(** A materialized row: the [dict], or the instance built from it. *)
Inductive item (T : Type) : Type :=
  | Row (d : dict)
  | Instance (t : T).
Arguments Row {T} d.
Arguments Instance {T} t.

(** [into_type]: a constructor taking the fields as keyword arguments. *)
Definition shape (T : Type) : Type := option (dict -> result T).

(** [zip(response.columns, type_converter, row)] stops at the shortest. *)
Fixpoint zip3 {A B C : Type} (a : list A) (b : list B) (c : list C)
  : list (A * B * C) :=
  match a, b, c with
  | x :: a', y :: b', z :: c' => (x, y, z) :: zip3 a' b' c'
  | _, _, _ => []
  end.

(** [converter(value) if value is not None else None] *)
Definition convert_value `{PyRuntime} (c : converter) (value : pyval)
  : result pyval :=
  match value with
  | PNone => Ok PNone
  | _ => call c value
  end.

(** The dict comprehension, entries inserted from left to right. *)
Fixpoint converted_row `{PyRuntime} (acc : dict)
    (fields : list (QuestDBColumn * converter * pyval)) : result dict :=
  match fields with
  | [] => Ok acc
  | (field, c, value) :: rest =>
      v ← convert_value c value;
      converted_row (dict_set acc (name field) v) rest
  end.

(** [[TYPE_MAP[col.type] for col in response.columns]] *)
Definition type_converter (cols : list QuestDBColumn)
  : result (list converter) :=
  traverse (fun col =>
              match TYPE_MAP !! type col with
              | Some c => Ok c
              | None => Raise (KeyError (type col))
              end) cols.

Definition make_item {T : Type} (into_type : shape T) (row : dict)
  : result (item T) :=
  match into_type with
  | Some construct => Instance <$> construct row
  | None => Ok (Row row)
  end.

(** The [for row in response.dataset] loop of the generator. *)
Fixpoint yield_rows `{PyRuntime} {T : Type} (cols : list QuestDBColumn)
    (convs : list converter) (into_type : shape T)
    (rows : list (list pyval)) : generator (item T) :=
  match rows with
  | [] => ([], None)
  | row :: rest =>
      match d ← converted_row [] (zip3 cols convs row); make_item into_type d with
      | Ok it =>
          let g := yield_rows cols convs into_type rest in
          (it :: fst g, snd g)
      | Raise e => ([], Some e)
      end
  end.

(** [QuestDB.parse_and_yield_query_response] *)
Definition parse_and_yield_query_response `{PyRuntime} {T : Type}
    (response : QuestDBResponse) (into_type : shape T) : generator (item T) :=
  match type_converter (columns response) with
  | Ok convs => yield_rows (columns response) convs into_type (dataset response)
  | Raise e => ([], Some e)
  end.

(** [for row in gen: yield row] *)
Fixpoint yield_each {A : Type} (items : list A) (fin : option exn)
  : generator A :=
  match items with
  | [] => ([], fin)
  | row :: rest => let g := yield_each rest fin in (row :: fst g, snd g)
  end.

(** [QuestDB.query], an async generator. *)
Definition query `{PyRuntime} `{Tokenizer} `{Transport} {T : Type} (self : QuestDB)
    (query_string : string) (into_type : shape T)
  : QuestDB * generator (item T) :=
  let '(self', fetched) := _query self query_string in
  (self',
   match b ← fetched; parse_query_response b with
   | Ok data =>
       let g := parse_and_yield_query_response data into_type in
       yield_each (fst g) (snd g)
   | Raise e => ([], Some e)
   end).

(** [QuestDB.query_sync]: fetches and decodes when called, and returns the
    generator. *)
Definition query_sync `{PyRuntime} `{Tokenizer} `{Transport} {T : Type} (self : QuestDB)
    (query_string : string) (into_type : shape T)
  : result (generator (item T)) :=
  b ← _query_sync self query_string;
  data ← parse_query_response b;
  Ok (parse_and_yield_query_response data into_type).

(** [next((col.name for col in data.columns if col.type == "TIMESTAMP"), None)] *)
Fixpoint next_timestamp_name (cols : list QuestDBColumn) : option string :=
  match cols with
  | [] => None
  | col :: rest =>
      if String.eqb (type col) "TIMESTAMP" then Some (name col)
      else next_timestamp_name rest
  end.

(** The truth value tested by [if timestamp_col:]: [None] is false, a
    string is true when it is not empty. *)
Definition truthy (timestamp_col : option string) : bool :=
  match timestamp_col with
  | None => false
  | Some s => negb (String.eqb s "")
  end.

(** [QuestDB.query_df] *)
Definition query_df `{Pandas} `{Tokenizer} `{Transport} (self : QuestDB)
    (query_string : string) : QuestDB * result frame :=
  let '(self', fetched) := _query self query_string in
  (self',
   b ← fetched;
   data ← parse_query_response b;
   df0 ← pd_DataFrame (dataset data) (map name (columns data));
   df ← convert_types df0 (columns data);
   let timestamp_col := next_timestamp_name (columns data) in
   if truthy timestamp_col then
     match timestamp_col with
     | Some label => df1 ← df_set_index df label; df_sort_index df1 false
     | None => Ok df
     end
   else Ok df).

(** [QuestDB.query_df_sync] *)
Definition query_df_sync `{Pandas} `{Tokenizer} `{Transport} (self : QuestDB)
    (query_string : string) : result frame :=
  b ← _query_sync self query_string;
  data ← parse_query_response b;
  df0 ← pd_DataFrame (dataset data) (map name (columns data));
  df ← convert_types df0 (columns data);
  let timestamp_col := next_timestamp_name (columns data) in
  if truthy timestamp_col then
    match timestamp_col with
    | Some label => df1 ← df_set_index df label; df_sort_index df1 false
    | None => Ok df
    end
  else Ok df.

End Db.
Export Db.

(** ** Executable collaborators

    Small implementations of the three interfaces, on which the code above
    runs: a runtime for decimal integers, a tokenizer for JSON texts without
    escape sequences, and a list-based pandas.  The properties below
    are stated for every implementation of the interfaces; these ones serve
    to run the code on concrete responses. *)

Module Sample.

Definition decimal (z : Z) : string := NilZero.string_of_int (Z.to_int z).

(** Decimal integers are rendered and read; every other text is refused. *)
Definition runtime : PyRuntime :=
  {| rt_str := fun v =>
       match v with
       | PInt z => Ok (decimal z)
       | _ => Raise ValueError
       end;
     rt_int_of_str := fun s =>
       match NilZero.int_of_string s with
       | Some d => Ok (Z.of_int d)
       | None => Raise ValueError
       end;
     rt_float_of_str := fun _ => Raise ValueError |}.

(** *** A JSON tokenizer *)

Definition dquote : ascii := "034"%char.
Definition backslash : ascii := "092"%char.

Definition is_ws (c : ascii) : bool :=
  is_char " " c || is_char "009" c || is_char "010" c || is_char "013" c.

Fixpoint skip_ws (l : list ascii) : list ascii :=
  match l with
  | c :: l' => if is_ws c then skip_ws l' else l
  | [] => []
  end.

(** The characters of a string up to the closing quote. *)
Fixpoint string_body (l : list ascii) : option (string * list ascii) :=
  match l with
  | [] => None
  | c :: l' =>
      if Ascii.eqb c dquote then Some (EmptyString, l')
      else if Ascii.eqb c backslash || N.ltb (N_of_ascii c) 32 then None
      else '(s, r) ← string_body l'; Some (String c s, r)
  end.

Fixpoint span_digits (l : list ascii) : list ascii * list ascii :=
  match l with
  | c :: l' =>
      match digit c with
      | Some _ => let '(ds, r) := span_digits l' in (c :: ds, r)
      | None => ([], l)
      end
  | [] => ([], [])
  end.

(** A number: an integer when it has neither fraction nor exponent. *)
Definition number (l : list ascii) : option (json * list ascii) :=
  let '(neg, l1) :=
    match l with
    | c :: l' => if is_char "-" c then (true, l') else (false, l)
    | [] => (false, l)
    end in
  let '(ip, l2) := span_digits l1 in
  match ip with
  | [] => None
  | c0 :: ip' =>
      if is_char "0" c0 && negb (length ip' =? 0)%nat then None
      else
        i ← digits ip;
        match l2 with
        | dot :: l3 =>
            if is_char "." dot then
              let '(fp, l4) := span_digits l3 in
              match fp with
              | [] => None
              | _ =>
                  m ← digits (ip ++ fp);
                  Some (JFloat (float_of_decimal neg m (- Z.of_nat (length fp))), l4)
              end
            else Some (JInt (if neg then - i else i), l2)
        | [] => Some (JInt (if neg then - i else i), l2)
        end
  end.

Definition literal (w : string) (l : list ascii) : option (list ascii) :=
  let n := String.length w in
  if String.eqb (string_of_list_ascii (take n l)) w then Some (drop n l) else None.

Fixpoint value (fuel : nat) (l : list ascii) {struct fuel}
  : option (json * list ascii) :=
  match fuel with
  | O => None
  | S n =>
      match skip_ws l with
      | [] => None
      | c :: r =>
          if Ascii.eqb c dquote then
            '(s, r') ← string_body r; Some (JString s, r')
          else if is_char "[" c then
            match skip_ws r with
            | c' :: r' =>
                if is_char "]" c' then Some (JArray [], r')
                else elements n (skip_ws r) []
            | [] => None
            end
          else if is_char "{" c then
            match skip_ws r with
            | c' :: r' =>
                if is_char "}" c' then Some (JObject [], r')
                else members n (skip_ws r) []
            | [] => None
            end
          else if is_char "n" c then r' ← literal "ull" r; Some (JNull, r')
          else if is_char "t" c then r' ← literal "rue" r; Some (JBool true, r')
          else if is_char "f" c then r' ← literal "alse" r; Some (JBool false, r')
          else number (c :: r)
      end
  end
with elements (fuel : nat) (l : list ascii) (acc : list json) {struct fuel}
  : option (json * list ascii) :=
  match fuel with
  | O => None
  | S n =>
      '(v, r) ← value n l;
      match skip_ws r with
      | c :: r' =>
          if is_char "," c then elements n r' (v :: acc)
          else if is_char "]" c then Some (JArray (rev (v :: acc)), r')
          else None
      | [] => None
      end
  end
with members (fuel : nat) (l : list ascii) (acc : list (string * json))
    {struct fuel} : option (json * list ascii) :=
  match fuel with
  | O => None
  | S n =>
      match skip_ws l with
      | q :: r0 =>
          if Ascii.eqb q dquote then
            '(k, r1) ← string_body r0;
            match skip_ws r1 with
            | colon :: r2 =>
                if is_char ":" colon then
                  '(v, r3) ← value n r2;
                  match skip_ws r3 with
                  | c :: r' =>
                      if is_char "," c then members n r' ((k, v) :: acc)
                      else if is_char "}" c then
                        Some (JObject (rev ((k, v) :: acc)), r')
                      else None
                  | [] => None
                  end
                else None
            | [] => None
            end
          else None
      | [] => None
      end
  end.

(** One document, then only white space. *)
Definition loads (b : bytes) : result json :=
  let l := list_ascii_of_string b in
  match value (2 * length l + 2) l with
  | Some (j, r) =>
      match skip_ws r with
      | [] => Ok j
      | _ => Raise DecodeError
      end
  | None => Raise DecodeError
  end.

(** *** A pandas on lists

    A column is a [dtype] and its values, a frame is an optional index and
    the labelled columns in order; labels are taken to be distinct.  Integer
    columns narrow to the smallest signed width, binary64 columns to
    binary32 when every value stays within the tolerance, text columns are
    read as timestamps by [isoformat]. *)

Inductive dtype : Type :=
  | dt_object
  | dt_bool
  | dt_int (bits : Z)
  | dt_float (bits : Z)
  | dt_datetime.

Record Series : Type := mk_Series {
  dtype_of : dtype;
  values : list pyval
}.

Record DataFrame : Type := mk_DataFrame {
  index : option (string * Series);
  data : list (string * Series)
}.

Definition is_int64 (v : pyval) : bool :=
  match v with
  | PInt z => (- 2 ^ 63 <=? z) && (z <? 2 ^ 63)
  | _ => false
  end.
Definition is_bool (v : pyval) : bool :=
  match v with PBool _ => true | _ => false end.
Definition is_float (v : pyval) : bool :=
  match v with PFloat _ => true | _ => false end.
Definition is_datetime (v : pyval) : bool :=
  match v with PDatetime _ => true | _ => false end.

Definition infer (vs : list pyval) : dtype :=
  match vs with
  | [] => dt_object
  | _ =>
      if forallb is_int64 vs then dt_int 64
      else if forallb is_bool vs then dt_bool
      else if forallb is_float vs then dt_float 64
      else if forallb is_datetime vs then dt_datetime
      else dt_object
  end.

Definition cell (i : nat) (row : list pyval) : pyval := nth i row PNone.

Definition width (rows : list (list pyval)) : nat :=
  fold_right (fun row w => Nat.max (length row) w) O rows.

Definition DataFrame_of (rows : list (list pyval)) (labels : list string)
  : result DataFrame :=
  match rows with
  | [] => Ok (mk_DataFrame None (map (fun l => (l, mk_Series dt_object [])) labels))
  | _ =>
      if Nat.eqb (width rows) (length labels) then
        Ok (mk_DataFrame None
              (imap (fun i l => let vs := map (cell i) rows in
                                (l, mk_Series (infer vs) vs)) labels))
      else Raise ValueError
  end.

Fixpoint getitem (cols : list (string * Series)) (label : string)
  : result Series :=
  match cols with
  | [] => Raise (KeyError label)
  | (l, s) :: rest => if String.eqb l label then Ok s else getitem rest label
  end.

Fixpoint setitem (cols : list (string * Series)) (label : string) (s : Series)
  : list (string * Series) :=
  match cols with
  | [] => [(label, s)]
  | (l, s') :: rest =>
      if String.eqb l label then (l, s) :: rest
      else (l, s') :: setitem rest label s
  end.

Definition timestamp_cell (v : pyval) : result pyval :=
  match v with
  | PNone => Ok PNone
  | PDatetime d => Ok (PDatetime d)
  | PStr t =>
      match isoformat (list_ascii_of_string t) with
      | Some d => Ok (PDatetime d)
      | None => Raise ValueError
      end
  | _ => Raise TypeError
  end.

Definition to_datetime (s : Series) : result Series :=
  match dtype_of s with
  | dt_datetime => Ok s
  | dt_object => vs ← traverse timestamp_cell (values s); Ok (mk_Series dt_datetime vs)
  | _ => Raise TypeError
  end.

Definition fits (bits : Z) (v : pyval) : bool :=
  match v with
  | PInt z => (- 2 ^ (bits - 1) <=? z) && (z <? 2 ^ (bits - 1))
  | _ => false
  end.

Definition int_width (vs : list pyval) : Z :=
  if forallb (fits 8) vs then 8
  else if forallb (fits 16) vs then 16
  else if forallb (fits 32) vs then 32
  else 64.

Definition round32 (v : pyval) : pyval :=
  match v with
  | PFloat (S754_finite sg m e) =>
      PFloat (binary_normalize 24 128 (if sg then Z.neg m else Z.pos m) e sg)
  | _ => v
  end.

Definition tolerance : spec_float := float_of_decimal false 5 (-4).

Definition close (a b : pyval) : bool :=
  match a, b with
  | PFloat S754_nan, PFloat S754_nan => true
  | PFloat x, PFloat y =>
      SFeqb x y
      || SFleb (SFabs (SFsub prec64 emax64 x y)) tolerance
  | _, _ => false
  end.

Fixpoint all_close (a b : list pyval) : bool :=
  match a, b with
  | x :: a', y :: b' => close x y && all_close a' b'
  | _, _ => true
  end.

Definition to_numeric (s : Series) (d : downcast) : result Series :=
  match d, dtype_of s with
  | downcast_integer, dt_int _ =>
      Ok (mk_Series (dt_int (int_width (values s))) (values s))
  | downcast_float, dt_float 64 =>
      let r := map round32 (values s) in
      if all_close r (values s) then Ok (mk_Series (dt_float 32) r) else Ok s
  | _, dt_object =>
      match values s with
      | [] => Ok s
      | _ => Raise ValueError
      end
  | _, _ => Ok s
  end.

Definition astype_str (s : Series) : result Series :=
  vs ← traverse (@py_str runtime) (values s); Ok (mk_Series dt_object vs).

Fixpoint drop_label (cols : list (string * Series)) (label : string)
  : list (string * Series) :=
  match cols with
  | [] => []
  | (l, s) :: rest =>
      if String.eqb l label then rest else (l, s) :: drop_label rest label
  end.

Definition set_index (df : DataFrame) (label : string) : result DataFrame :=
  s ← getitem (data df) label;
  Ok (mk_DataFrame (Some (label, s)) (drop_label (data df) label)).

(** Days since 1970-01-01 of a date of the proleptic Gregorian calendar. *)
Definition days_from_civil (y m d : Z) : Z :=
  let y' := if m <=? 2 then y - 1 else y in
  let era := y' / 400 in
  let yoe := y' - era * 400 in
  let mp := (m + 9) mod 12 in
  let doy := (153 * mp + 2) / 5 + d - 1 in
  let doe := yoe * 365 + yoe / 4 - yoe / 100 + doy in
  era * 146097 + doe - 719468.

Definition instant (d : datetime) : Z :=
  ((days_from_civil (year d) (month d) (day d) * 24 + hour d) * 60 + minute d)
  * 60 * 1000000 + second d * 1000000 + microsecond d - default 0 (tzinfo d).

(** The sort key of an index value; a missing value has none. *)
Definition sort_key (v : pyval) : option Z :=
  match v with
  | PInt z => Some z
  | PDatetime d => Some (instant d)
  | _ => None
  end.

Definition keyed : Type := (Z * nat)%type.

(** Insertion after the entries that are not smaller (descending) or not
    greater (ascending): equal keys keep the order of arrival. *)
Fixpoint insert_sorted (ascending : bool) (x : keyed) (l : list keyed)
  : list keyed :=
  match l with
  | [] => [x]
  | y :: l' =>
      if (if ascending then fst x <? fst y else fst y <? fst x)
      then x :: y :: l'
      else y :: insert_sorted ascending x l'
  end.

Definition argsort (keys : list pyval) (ascending : bool) : list nat :=
  let tagged := imap (fun i v => (sort_key v, i)) keys in
  let present := omap (fun p => k ← fst p; Some (k, snd p)) tagged in
  let missing := omap (fun p => match fst p with None => Some (snd p) | Some _ => None end) tagged in
  map snd (fold_left (fun acc x => insert_sorted ascending x acc) present [])
  ++ missing.

Definition reorder (order : list nat) (s : Series) : Series :=
  mk_Series (dtype_of s) (map (fun i => cell i (values s)) order).

Definition sort_index (df : DataFrame) (ascending : bool) : result DataFrame :=
  match index df with
  | Some (label, s) =>
      let order := argsort (values s) ascending in
      Ok (mk_DataFrame (Some (label, reorder order s))
            (map (fun c => (fst c, reorder order (snd c))) (data df)))
  | None =>
      Ok (if ascending then df
          else mk_DataFrame None
                 (map (fun c => (fst c, mk_Series (dtype_of (snd c))
                                          (rev (values (snd c))))) (data df)))
  end.

Definition pandas : Pandas :=
  {| frame := DataFrame;
     series := Series;
     pd_DataFrame := DataFrame_of;
     df_columns := fun df => map fst (data df);
     df_getitem := fun df label => getitem (data df) label;
     df_setitem := fun df label s =>
       Ok (mk_DataFrame (index df) (setitem (data df) label s));
     pd_to_datetime := to_datetime;
     pd_to_numeric := to_numeric;
     series_astype_str := astype_str;
     df_set_index := set_index;
     df_sort_index := sort_index |}.

(** A server that answers every query of either client with the same
    body. *)
Definition tokenizer : Tokenizer := {| json_loads := loads |}.

Definition server (status : Z) (body : bytes) : Transport :=
  {| aiohttp_get := fun _ _ => Ok (mk_http_response status body);
     requests_get := fun _ _ => Ok (mk_http_response status body) |}.

End Sample.

(** ** The vocabulary of the specification *)

Module Spec.

(** [coerce(declaredType, rawValue)]: the converter registered for the
    declared type, applied as the row materializer applies it. *)
Definition coerce `{PyRuntime} (declared : string) (raw : pyval)
  : result pyval :=
  match TYPE_MAP !! declared with
  | Some c => convert_value c raw
  | None => Raise (KeyError declared)
  end.

(** What a consumer of [query_sync] sees: the exception of the call, or the
    run of the generator it returned. *)
Definition drain {A : Type} (r : result (generator A)) : generator A :=
  match r with
  | Ok g => g
  | Raise e => ([], Some e)
  end.

(** The record of one row, as the generator builds it. *)
Definition record_of `{PyRuntime} (cols : list QuestDBColumn)
    (row : list pyval) : result dict :=
  convs ← type_converter cols; converted_row [] (zip3 cols convs row).

(** The field of [d] named after [col] holds the coercion of [v]. *)
Definition field_holds `{PyRuntime} (d : dict) (col : QuestDBColumn)
    (v : pyval) : Prop :=
  exists w, coerce (type col) v = Ok w /\ dict_get d (name col) = Some w.

(** The declared types whose conversion the specification calls the
    identity. *)
Definition identity_types : list string :=
  ["SYMBOL"; "VARCHAR"; "BOOLEAN"; "LONG"; "DOUBLE"].

(** The raw value has the wire type of the declared type. *)
Definition wire_typed (declared : string) (raw : pyval) : bool :=
  match raw with
  | PStr _ => String.eqb declared "SYMBOL" || String.eqb declared "VARCHAR"
  | PBool _ => String.eqb declared "BOOLEAN"
  | PInt _ => String.eqb declared "LONG"
  | PFloat _ => String.eqb declared "DOUBLE"
  | _ => false
  end.

(** The text of a field of [k] decimal digits. *)
Definition digit_char (d : Z) : ascii := ascii_of_N (Z.to_N (48 + d mod 10)).

Fixpoint padded (k : nat) (n : Z) : list ascii :=
  match k with
  | O => []
  | S k' => padded k' (n / 10) ++ [digit_char n]
  end.

(** The text QuestDB emits for a timestamp: [YYYY-MM-DDTHH:MM:SS.ffffffZ];
    [local_text] is the same without the designator. *)
Definition local_text (d : datetime) : list ascii :=
  padded 4 (year d) ++ ["-"%char] ++ padded 2 (month d) ++ ["-"%char]
  ++ padded 2 (day d) ++ ["T"%char] ++ padded 2 (hour d) ++ [":"%char]
  ++ padded 2 (minute d) ++ [":"%char] ++ padded 2 (second d) ++ ["."%char]
  ++ padded 6 (microsecond d).

Definition utc_text (d : datetime) : string :=
  string_of_list_ascii (local_text d ++ ["Z"%char]).

Definition naive_text (d : datetime) : string :=
  string_of_list_ascii (local_text d).

Definition valid_fields (d : datetime) : bool :=
  valid_date (year d) (month d) (day d)
  && (0 <=? hour d) && (0 <=? minute d) && (0 <=? second d)
  && valid_clock (hour d) (minute d) (second d)
  && (0 <=? microsecond d) && (microsecond d <=? 999999).

Definition with_tzinfo (d : datetime) (tz : option Z) : datetime :=
  mk_datetime (year d) (month d) (day d) (hour d) (minute d) (second d)
              (microsecond d) tz.

(** The JSON document of a response with the given columns and rows. *)
Definition column_json (col : QuestDBColumn) : json :=
  JObject [("name", JString (name col)); ("type", JString (type col))].

Definition document (q : string) (cols : list QuestDBColumn) (ts : Z)
    (ds : list json) (n : Z) : json :=
  JObject [("query", JString q);
           ("columns", JArray (map column_json cols));
           ("timestamp", JInt ts);
           ("dataset", JArray ds);
           ("count", JInt n)].

Definition response_json (q : string) (cols : list QuestDBColumn) (ts : Z)
    (rows : list (list json)) (n : Z) : json :=
  document q cols ts (map JArray rows) n.

Definition is_array (j : json) : bool :=
  match j with JArray _ => true | _ => false end.

(** Some row of the response has not as many cells as there are columns. *)
Definition ragged (r : QuestDBResponse) : Prop :=
  exists row, In row (dataset r) /\ length row <> length (columns r).

(** The contract of pandas on frames with distinct labels: a column that
    was assigned is read back, the other columns are not touched, assigning
    what was read changes nothing, and each conversion returns its own
    results unchanged. *)
Record PandasLaws `{Pandas} : Prop := {
  setitem_columns : forall df label s0 s df',
    df_getitem df label = Ok s0 -> df_setitem df label s = Ok df' ->
    df_columns df' = df_columns df;
  getitem_setitem : forall df label s0 s df',
    NoDup (df_columns df) ->
    df_getitem df label = Ok s0 -> df_setitem df label s = Ok df' ->
    df_getitem df' label = Ok s;
  getitem_setitem_other : forall df label s0 s df' other,
    NoDup (df_columns df) ->
    df_getitem df label = Ok s0 -> df_setitem df label s = Ok df' ->
    other <> label -> df_getitem df' other = df_getitem df other;
  setitem_getitem : forall df label s,
    NoDup (df_columns df) ->
    df_getitem df label = Ok s -> df_setitem df label s = Ok df;
  to_datetime_idem : forall s s',
    pd_to_datetime s = Ok s' -> pd_to_datetime s' = Ok s';
  to_numeric_idem : forall s s' d,
    pd_to_numeric s d = Ok s' -> pd_to_numeric s' d = Ok s';
  astype_str_idem : forall s s',
    series_astype_str s = Ok s' -> series_astype_str s' = Ok s'
}.
Arguments PandasLaws _ : clear implicits.

(** The conversion that [convert_types] applies to a column of the
    declared type, if any. *)
Definition narrowing `{Pandas} (declared : string)
  : option (series -> result series) :=
  if String.eqb declared "TIMESTAMP" then Some pd_to_datetime
  else if type_in declared ["BOOLEAN"; "BYTE"; "SHORT"; "INT"; "LONG"]
  then Some (fun s => pd_to_numeric s downcast_integer)
  else if type_in declared ["FLOAT"; "DOUBLE"]
  then Some (fun s => pd_to_numeric s downcast_float)
  else if String.eqb declared "STRING" then Some series_astype_str
  else None.

(** The column of [df] named by [col] is a fixed point of its
    conversion. *)
Definition narrowed `{Pandas} (df : frame) (col : QuestDBColumn) : Prop :=
  match narrowing (type col) with
  | Some conv => exists s, df_getitem df (name col) = Ok s /\ conv s = Ok s
  | None => True
  end.

Definition field_name (f : QuestDBColumn * converter * pyval) : string :=
  name (fst (fst f)).

Definition entry `{PyRuntime} (f : QuestDBColumn * converter * pyval)
  : result (string * pyval) :=
  w ← convert_value (snd (fst f)) (snd f); Ok (field_name f, w).

Definition with_converter (p : QuestDBColumn * pyval)
  : option (QuestDBColumn * converter * pyval) :=
  c ← TYPE_MAP !! type (fst p); Some (fst p, c, snd p).

(** A field of [k] decimal digits that reads [n]. *)
Definition field (k : nat) (t : list ascii) (n : Z) : Prop :=
  length t = k /\ digits t = Some n.

(** The date forms of ISO 8601: the calendar date and the week date, each
    in the extended and in the basic format. *)
Inductive date_text : list ascii -> Z * Z * Z -> Prop :=
  | calendar_extended Y M D y m d :
      field 4 Y y -> field 2 M m -> field 2 D d ->
      date_text (Y ++ "-"%char :: M ++ "-"%char :: D) (y, m, d)
  | calendar_basic Y M D y m d :
      field 4 Y y -> field 2 M m -> field 2 D d ->
      date_text (Y ++ M ++ D) (y, m, d)
  | week_extended Y W y w ymd :
      field 4 Y y -> field 2 W w -> iso_to_ymd y w 1 = Some ymd ->
      date_text (Y ++ "-"%char :: "W"%char :: W) ymd
  | week_day_extended Y W D y w wd ymd :
      field 4 Y y -> field 2 W w -> field 1 D wd ->
      iso_to_ymd y w wd = Some ymd ->
      date_text (Y ++ "-"%char :: "W"%char :: W ++ "-"%char :: D) ymd
  | week_basic Y W y w ymd :
      field 4 Y y -> field 2 W w -> iso_to_ymd y w 1 = Some ymd ->
      date_text (Y ++ "W"%char :: W) ymd
  | week_day_basic Y W D y w wd ymd :
      field 4 Y y -> field 2 W w -> field 1 D wd ->
      iso_to_ymd y w wd = Some ymd ->
      date_text (Y ++ "W"%char :: W ++ D) ymd.

(** The offset of an aware value is less than a day, either way. *)
Definition valid_offset (d : datetime) : Prop :=
  match tzinfo d with
  | Some off => - 86400000000 < off < 86400000000
  | None => True
  end.

(** The text [l] has the shape of an ISO 8601 date and time and [d] is
    what it says: [l] begins with a date in one of the forms above, which
    is the date of [d]; when nothing follows, [d] is midnight of that date
    and naive; what follows is one separator character and a time that
    begins with the two digits of the hour of [d], and [d] is aware exactly
    when a designator [Z], [+] or [-] stands behind the hour. *)
Definition iso_text (l : list ascii) (d : datetime) : Prop :=
  exists date rest,
    l = (date ++ rest)%list
    /\ date_text date (year d, month d, day d)
    /\ match rest with
       | [] => d = mk_datetime (year d) (month d) (day d) 0 0 0 0 None
       | c :: _ =>
           exists HH behind,
             drop (utf8_length c) rest = (HH ++ behind)%list
             /\ field 2 HH (hour d)
             /\ (aware d = true <-> Exists (fun z => is_tz_mark z = true) behind)
       end.

End Spec.
Import Spec.

(** ** Example responses *)

Module Examples.
Import Sample.

Definition quoted (s : string) : string :=
  String dquote (s +:+ String dquote "").

Definition column_text (n t : string) : string :=
  "{" +:+ quoted "name" +:+ ":" +:+ quoted n +:+ ","
  +:+ quoted "type" +:+ ":" +:+ quoted t +:+ "}".

Definition response_text (cols rows : string) : bytes :=
  "{" +:+ quoted "query" +:+ ":" +:+ quoted "select * from t" +:+ ","
  +:+ quoted "columns" +:+ ":[" +:+ cols +:+ "],"
  +:+ quoted "timestamp" +:+ ":1628097600000000,"
  +:+ quoted "dataset" +:+ ":[" +:+ rows +:+ "],"
  +:+ quoted "count" +:+ ":1}".

(** The response of the example of the specification (and of the fixture
    of the repository's tests). *)
Definition body : bytes :=
  response_text
    (column_text "number" "LONG" +:+ "," +:+ column_text "value" "DOUBLE"
     +:+ "," +:+ column_text "label" "VARCHAR" +:+ ","
     +:+ column_text "flag" "BOOLEAN" +:+ "," +:+ column_text "sym" "SYMBOL"
     +:+ "," +:+ column_text "ts" "TIMESTAMP")
    ("[15,3.14159," +:+ quoted "hello" +:+ ",true," +:+ quoted "AAPL" +:+ ","
     +:+ quoted "2023-08-14T12:00:00.000000Z" +:+ "]").

Definition body_response : QuestDBResponse :=
  mk_QuestDBResponse "select * from t"
    [mk_QuestDBColumn "number" "LONG"; mk_QuestDBColumn "value" "DOUBLE";
     mk_QuestDBColumn "label" "VARCHAR"; mk_QuestDBColumn "flag" "BOOLEAN";
     mk_QuestDBColumn "sym" "SYMBOL"; mk_QuestDBColumn "ts" "TIMESTAMP"]
    1628097600000000
    [[PInt 15; PFloat (S754_finite false 7074231776675438 (-51));
      PStr "hello"; PBool true; PStr "AAPL";
      PStr "2023-08-14T12:00:00.000000Z"]]
    1.

Definition db : QuestDB := __init__ "localhost" 9009 None None.

(** One column, a row of two cells and a row of none. *)
Definition ragged_body : bytes :=
  response_text (column_text "a" "LONG") "[1,2],[]".

Definition ragged_response : QuestDBResponse :=
  mk_QuestDBResponse "select * from t" [mk_QuestDBColumn "a" "LONG"]
    1628097600000000 [[PInt 1; PInt 2]; []] 1.

(** A response with a declared type that [TYPE_MAP] does not list. *)
Definition unknown_type_response : QuestDBResponse :=
  mk_QuestDBResponse "select ts, n from t"
    [mk_QuestDBColumn "ts" "TIMESTAMP"; mk_QuestDBColumn "n" "INT"]
    0 [[PStr "not a timestamp"; PInt 1]] 1.

Definition duplicate_name_response : QuestDBResponse :=
  mk_QuestDBResponse "select a, a from t"
    [mk_QuestDBColumn "a" "LONG"; mk_QuestDBColumn "a" "LONG"]
    0 [[PInt 1; PInt 2]] 1.

Definition body_record : dict :=
  [("number", PInt 15);
   ("value", PFloat (S754_finite false 7074231776675438 (-51)));
   ("label", PStr "hello"); ("flag", PBool true); ("sym", PStr "AAPL");
   ("ts", PDatetime (mk_datetime 2023 8 14 12 0 0 0 (Some 0)))].

Definition body_frame : Sample.DataFrame :=
  Eval vm_compute in
    match Sample.DataFrame_of (dataset body_response)
            (map name (columns body_response)) with
    | Ok df => df
    | Raise _ => Sample.mk_DataFrame None []
    end.

Definition body_narrowed : Sample.DataFrame :=
  Eval vm_compute in
    match @convert_types Sample.pandas body_frame (columns body_response) with
    | Ok df => df
    | Raise _ => Sample.mk_DataFrame None []
    end.

Definition unnamed_timestamp_body : bytes :=
  response_text
    (column_text "" "TIMESTAMP" +:+ "," +:+ column_text "n" "LONG")
    ("[" +:+ quoted "2023-08-14T12:00:00.000000Z" +:+ ",1],["
     +:+ quoted "2023-08-15T12:00:00.000000Z" +:+ ",2]").

Definition unnamed_timestamp_response : QuestDBResponse :=
  mk_QuestDBResponse "select * from t"
    [mk_QuestDBColumn "" "TIMESTAMP"; mk_QuestDBColumn "n" "LONG"]
    1628097600000000
    [[PStr "2023-08-14T12:00:00.000000Z"; PInt 1];
     [PStr "2023-08-15T12:00:00.000000Z"; PInt 2]]
    1.

Definition unnamed_timestamp_table : Sample.DataFrame :=
  Sample.mk_DataFrame None
    [("", Sample.mk_Series Sample.dt_datetime
            [PDatetime (mk_datetime 2023 8 14 12 0 0 0 (Some 0));
             PDatetime (mk_datetime 2023 8 15 12 0 0 0 (Some 0))]);
     ("n", Sample.mk_Series (Sample.dt_int 8) [PInt 1; PInt 2])].

End Examples.
Import Examples.

(** ** The write path and the life cycle of the connection *)

Module Ingress.

(** [class QuestDBFields(TypedDict)] *)
Record QuestDBFields : Type := mk_QuestDBFields {
  table_name : string;
  symbols : list (string * option string);
  columns : dict;
  at_ : datetime
}.

(** [class QuestMessage(Protocol)]: an object with a method
    [to_quest_db_format], which may raise. *)
Class QuestMessage (M : Type) : Type := {
  to_quest_db_format : M -> result QuestDBFields
}.

(** The calls that the code makes on [self.client] and [self.session]. *)
Inductive call : Type :=
  | client_row (fields : QuestDBFields)
  | client_flush
  | client_close
  | session_close.

(** The sender and the session are external: whether a call raises is
    theirs to decide, from the calls made before it. *)
Class Peer : Type := {
  raises : list call -> call -> option exn
}.

(** A method body: from the calls made so far to the calls made at its
    end and its outcome. *)
Definition prog (A : Type) : Type := list call -> list call * result A.

#[global] Instance prog_ret : MRet prog := fun A a h => (h, Ok a).
#[global] Instance prog_bind : MBind prog := fun A B f m h =>
  match m h with
  | (h', Ok a) => f a h'
  | (h', Raise e) => (h', Raise e)
  end.

Definition lift {A : Type} (r : result A) : prog A := fun h => (h, r).

Definition perform `{Peer} (c : call) : prog unit := fun h =>
  ((h ++ [c])%list,
   match raises h c with
   | Some e => Raise e
   | None => Ok tt
   end).

(** [for x in xs: body] *)
Fixpoint for_each {A : Type} (xs : list A) (body : A -> prog unit)
  : prog unit :=
  match xs with
  | [] => mret tt
  | x :: rest => body x ;; for_each rest body
  end.

(** [QuestDB.write] *)
Definition write `{Peer} {M : Type} `{QuestMessage M} (self : QuestDB)
    (messages : list M) : prog unit :=
  for_each messages (fun msg =>
    fields ← lift (to_quest_db_format msg); perform (client_row fields)) ;;
  perform client_flush.

(** [QuestDB.write_iter] *)
Definition write_iter `{Peer} {M : Type} `{QuestMessage M} (self : QuestDB)
    (messages : list M) : prog unit :=
  for_each messages (fun msg =>
    fields ← lift (to_quest_db_format msg); perform (client_row fields)) ;;
  perform client_flush.

(** [QuestDB.buffer_write] *)
Definition buffer_write `{Peer} {M : Type} `{QuestMessage M} (self : QuestDB)
    (messages : list M) : prog unit :=
  for_each messages (fun msg =>
    fields ← lift (to_quest_db_format msg); perform (client_row fields)).

(** [QuestDB.buffer_write_iter] *)
Definition buffer_write_iter `{Peer} {M : Type} `{QuestMessage M}
    (self : QuestDB) (messages : list M) : prog unit :=
  for_each messages (fun msg =>
    fields ← lift (to_quest_db_format msg); perform (client_row fields)).

(** [QuestDB.close]: [if self.session] is true for every session object. *)
Definition close `{Peer} (self : QuestDB) : prog unit :=
  match session self with
  | Some _ => perform session_close
  | None => mret tt
  end ;;
  perform client_close.

(** [QuestDB.__aenter__] *)
Definition __aenter__ (self : QuestDB) : QuestDB :=
  match session self with
  | None => mk_QuestDB (url self) (client self) (Some aiohttp_ClientSession)
  | Some _ => self
  end.

(** [QuestDB.__aexit__] *)
Definition __aexit__ `{Peer} (self : QuestDB) : prog unit :=
  match session self with
  | Some _ => close self
  | None => mret tt
  end.

End Ingress.

(** ** py_questdb/log_handler.py: the inner handler *)

Module LogHandler.

(** The attributes of a [logging.LogRecord] that [format_record] reads;
    [getMessage] is the outcome of the method of that name. *)
Record LogRecord : Type := mk_LogRecord {
  levelname : option string;
  name : option string;
  filename : option string;
  funcName : option string;
  module : option string;
  processName : option string;
  threadName : option string;
  pathname : option string;
  getMessage : result string;
  lineno : pyval;
  process : pyval;
  thread : pyval;
  exc_info : pyval;
  stack_info : pyval;
  created : spec_float
}.

(** [datetime.fromtimestamp] *)
Class Clock : Type := {
  fromtimestamp : spec_float -> result datetime
}.

(** [class InnerQuestDBLogHandler(logging.Handler)] *)
Record InnerQuestDBLogHandler : Type := mk_InnerQuestDBLogHandler {
  questdb_client : QuestDB;
  table_name : string
}.

(** [InnerQuestDBLogHandler.format_record]; the entries of a dict display
    are evaluated in order.  (What the method prints is not modelled.) *)
Definition format_record `{Clock} (self : InnerQuestDBLogHandler)
    (record : LogRecord) : result Ingress.QuestDBFields :=
  message ← getMessage record;
  at_ ← fromtimestamp (created record);
  Ok (Ingress.mk_QuestDBFields (table_name self)
        [("level", levelname record);
         ("logger", name record);
         ("filename", filename record);
         ("funcName", funcName record);
         ("module", module record);
         ("processName", processName record);
         ("threadName", threadName record);
         ("pathname", pathname record)]
        [("message", PStr message);
         ("lineno", lineno record);
         ("process", process record);
         ("thread", thread record);
         ("exc_info", exc_info record);
         ("stack_info", stack_info record)]
        at_).

(** [InnerQuestDBLogHandler.emit]: [except Exception] ends the method
    normally. *)
Definition emit `{Clock} `{Ingress.Peer} (self : InnerQuestDBLogHandler)
    (record : LogRecord) : Ingress.prog unit := fun h =>
  match (log_message ← Ingress.lift (format_record self record);
         Ingress.perform (Ingress.client_row log_message)) h with
  | (h', Ok _) => (h', Ok tt)
  | (h', Raise _) => (h', Ok tt)
  end.

End LogHandler.

(** ** tests/test_structs.py *)

Module TestStructs.

(** [class TestMsg(msgspec.Struct)] *)
Record TestMsg : Type := mk_TestMsg {
  number : Z;
  complex : spec_float;
  string_ : string;
  tf : bool;
  some_symbol : string;
  timestamp : option datetime
}.

(** [TestMsg.to_quest_db_format]; [now] is the value of [datetime.now()],
    which is used when the message has no timestamp.  (What the method
    prints is not modelled.) *)
Definition to_quest_db_format (now : datetime) (self : TestMsg)
  : result Ingress.QuestDBFields :=
  Ok (Ingress.mk_QuestDBFields "test_table"
        [("some_symbol", Some (some_symbol self))]
        [("number", PInt (number self));
         ("complex", PFloat (complex self));
         ("string", PStr (string_ self));
         ("tf", PBool (tf self))]
        (match timestamp self with
         | Some t => t
         | None => now
         end)).

End TestStructs.

(** ** More vocabulary *)

Module Terms.

(** The item of one row: its record, passed to the target shape. *)
Definition materialize `{PyRuntime} {T : Type} (cols : list QuestDBColumn)
    (into_type : shape T) (row : list pyval) : result (item T) :=
  d ← record_of cols row; make_item into_type d.

(** The declared types for which [convert_types] converts a column. *)
Definition converted_types : list string :=
  ["TIMESTAMP"; "BOOLEAN"; "BYTE"; "SHORT"; "INT"; "LONG"; "FLOAT"; "DOUBLE";
   "STRING"].

(** The fields of [QuestDBResponse] and of [QuestDBColumn]. *)
Definition response_fields : list string :=
  ["query"; "columns"; "timestamp"; "dataset"; "count"].

Definition column_fields : list string := ["name"; "type"].

(** The calls that a method body adds to those made before it. *)
Definition calls_of {A : Type} (m : Ingress.prog A) (h : list Ingress.call)
  : list Ingress.call :=
  drop (length h) (fst (m h)).

Definition is_row (c : Ingress.call) : bool :=
  match c with Ingress.client_row _ => true | _ => false end.

(** A peer none of whose calls raises. *)
Definition obliging `{Ingress.Peer} : Prop :=
  forall h c, Ingress.raises h c = None.

(** The body of the loop of the four write methods. *)
Definition send `{Ingress.Peer} {M : Type} `{Ingress.QuestMessage M}
    (msg : M) : Ingress.prog unit :=
  fields ← Ingress.lift (Ingress.to_quest_db_format msg);
  Ingress.perform (Ingress.client_row fields).

(** Every slot that is filled has its key among [keys]. *)
Definition slots_seen (st : response_slots) (keys : list string) : Prop :=
  (is_Some (s_query st) -> In "query" keys)
  /\ (is_Some (s_columns st) -> In "columns" keys)
  /\ (is_Some (s_timestamp st) -> In "timestamp" keys)
  /\ (is_Some (s_dataset st) -> In "dataset" keys)
  /\ (is_Some (s_count st) -> In "count" keys).

End Terms.
Import Terms.

(** ** More examples *)

Module Examples2.

Definition noon : datetime := mk_datetime 2023 8 14 12 0 0 0 None.

Definition test_messages : list TestStructs.TestMsg :=
  [TestStructs.mk_TestMsg 15 (S754_finite false 7074231776675438 (-51))
     "hello" true "AAPL" None;
   TestStructs.mk_TestMsg 16 (S754_zero false) "" false "MSFT" (Some noon)].

Definition test_message_format : Ingress.QuestMessage TestStructs.TestMsg :=
  {| Ingress.to_quest_db_format := TestStructs.to_quest_db_format noon |}.

(** A peer that accepts every call. *)
Definition quiet_peer : Ingress.Peer :=
  {| Ingress.raises := fun _ _ => None |}.

(** A peer whose second row is refused. *)
Definition second_row_refused : Ingress.Peer :=
  {| Ingress.raises := fun h c =>
       match c with
       | Ingress.client_row _ =>
           if Nat.eqb (length h) 1 then Some ValueError else None
       | _ => None
       end |}.

(** A response whose second row holds an integer in a TIMESTAMP column. *)
Definition failing_second_row : QuestDBResponse :=
  mk_QuestDBResponse "select ts from t" [mk_QuestDBColumn "ts" "TIMESTAMP"] 0
    [[PStr "2023-08-14T12:00:00.000000Z"]; [PInt 5];
     [PStr "2023-08-16T12:00:00.000000Z"]] 3.

(** A shape that takes the field [number] and needs it to be there. *)
Definition number_shape : dict -> result pyval := fun d =>
  match dict_get d "number" with
  | Some v => Ok v
  | None => Raise TypeError
  end.

(** A response with two TIMESTAMP columns, the second column first. *)
Definition two_timestamps_body : bytes :=
  response_text
    (column_text "n" "LONG" +:+ "," +:+ column_text "opened" "TIMESTAMP"
     +:+ "," +:+ column_text "closed" "TIMESTAMP")
    ("[1," +:+ quoted "2023-08-14T12:00:00.000000Z" +:+ ","
     +:+ quoted "2023-08-19T12:00:00.000000Z" +:+ "],[2,"
     +:+ quoted "2023-08-15T12:00:00.000000Z" +:+ ","
     +:+ quoted "2023-08-18T12:00:00.000000Z" +:+ "]").

Definition two_timestamps_response : QuestDBResponse :=
  mk_QuestDBResponse "select * from t"
    [mk_QuestDBColumn "n" "LONG"; mk_QuestDBColumn "opened" "TIMESTAMP";
     mk_QuestDBColumn "closed" "TIMESTAMP"]
    1628097600000000
    [[PInt 1; PStr "2023-08-14T12:00:00.000000Z";
      PStr "2023-08-19T12:00:00.000000Z"];
     [PInt 2; PStr "2023-08-15T12:00:00.000000Z";
      PStr "2023-08-18T12:00:00.000000Z"]]
    1.

(** The table of that response: indexed by [opened], sorted, narrowed. *)
Definition two_timestamps_table : Sample.DataFrame :=
  Sample.mk_DataFrame
    (Some ("opened",
           Sample.mk_Series Sample.dt_datetime
             [PDatetime (mk_datetime 2023 8 15 12 0 0 0 (Some 0));
              PDatetime (mk_datetime 2023 8 14 12 0 0 0 (Some 0))]))
    [("n", Sample.mk_Series (Sample.dt_int 8) [PInt 2; PInt 1]);
     ("closed",
      Sample.mk_Series Sample.dt_datetime
        [PDatetime (mk_datetime 2023 8 18 12 0 0 0 (Some 0));
         PDatetime (mk_datetime 2023 8 19 12 0 0 0 (Some 0))])].

(** A response whose column type is spelled in lower case. *)
Definition lowercase_timestamp_body : bytes :=
  response_text
    (column_text "ts" "timestamp" +:+ "," +:+ column_text "n" "LONG")
    ("[" +:+ quoted "2023-08-14T12:00:00.000000Z" +:+ ",1],["
     +:+ quoted "2023-08-15T12:00:00.000000Z" +:+ ",2]").

Definition lowercase_timestamp_response : QuestDBResponse :=
  mk_QuestDBResponse "select * from t"
    [mk_QuestDBColumn "ts" "timestamp"; mk_QuestDBColumn "n" "LONG"]
    1628097600000000
    [[PStr "2023-08-14T12:00:00.000000Z"; PInt 1];
     [PStr "2023-08-15T12:00:00.000000Z"; PInt 2]]
    1.

(** The fields of the test messages. *)
Definition test_fields : list Ingress.QuestDBFields :=
  match traverse (@Ingress.to_quest_db_format _ test_message_format)
          test_messages with
  | Ok fs => fs
  | Raise _ => []
  end.

Definition second_message : TestStructs.TestMsg :=
  TestStructs.mk_TestMsg 16 (S754_zero false) EmptyString false "MSFT"
    (Some noon).

End Examples2.
Import Examples2.

(** * Properties *)

(** ** Auxiliary facts *)

Lemma bind_Ok {A B : Type} (a : A) (f : A -> result B) : Ok a ≫= f = f a.
Proof. reflexivity. Qed.

Lemma bind_Raise {A B : Type} (e : exn) (f : A -> result B) :
  Raise e ≫= f = Raise e.
Proof. reflexivity. Qed.

Lemma fmap_Ok {A B : Type} (a : A) (f : A -> B) : f <$> Ok a = Ok (f a).
Proof. reflexivity. Qed.

Lemma fmap_Raise {A B : Type} (e : exn) (f : A -> B) :
  f <$> (Raise e : result A) = Raise e.
Proof. reflexivity. Qed.

Lemma bind_Ok_inv {A B : Type} (m : result A) (f : A -> result B) (b : B) :
  m ≫= f = Ok b -> exists a, m = Ok a /\ f a = Ok b.
Proof. destruct m as [a | e]; [eauto | discriminate]. Qed.

Ltac rsimpl :=
  repeat first
    [ rewrite bind_Ok | rewrite bind_Raise | rewrite fmap_Ok | rewrite fmap_Raise ].

Ltac rsimpl_in H :=
  repeat first
    [ rewrite bind_Ok in H | rewrite bind_Raise in H
    | rewrite fmap_Ok in H | rewrite fmap_Raise in H ].

(** ** Null propagation *)

(** C5. For every declared type that has an entry in [TYPE_MAP], coercing a
    null cell gives null; this holds for every converter and every runtime,
    the test for null coming before the converter is called, and so the
    field of a null cell in a materialized record is null. *)
Theorem null_propagation `{PyRuntime} (declared : string) :
  is_Some (TYPE_MAP !! declared) ->
  coerce declared PNone = Ok PNone
  /\ (forall c, convert_value c PNone = Ok PNone)
  /\ (forall c acc col rest,
        converted_row acc ((col, c, PNone) :: rest)
        = converted_row (dict_set acc (name col) PNone) rest).
Proof.
  intros [c Hc]. split; [| split].
  - unfold coerce. rewrite Hc. reflexivity.
  - intros c'. reflexivity.
  - intros c' acc col rest. reflexivity.
Qed.

Lemma null_propagation_witness :
  is_Some (TYPE_MAP !! "TIMESTAMP")
  /\ @coerce Sample.runtime "TIMESTAMP" PNone = Ok PNone.
Proof.
  assert (Hs : is_Some (TYPE_MAP !! "TIMESTAMP")).
  { exists conv_fromisoformat. reflexivity. }
  split; [exact Hs |].
  exact (proj1 (@null_propagation Sample.runtime "TIMESTAMP" Hs)).
Defined.

(** ** Unknown declared types *)

Lemma type_converter_unknown (cols : list QuestDBColumn) (col : QuestDBColumn) :
  In col cols -> TYPE_MAP !! type col = None ->
  exists pre bad post,
    cols = (pre ++ bad :: post)%list
    /\ Forall (fun c => is_Some (TYPE_MAP !! type c)) pre
    /\ TYPE_MAP !! type bad = None
    /\ type_converter cols = Raise (KeyError (type bad)).
Proof.
  unfold type_converter.
  induction cols as [| c0 cols IH]; intros Hin Hnone; [destruct Hin |].
  cbn [traverse].
  destruct (TYPE_MAP !! type c0) as [cv |] eqn:E0.
  - destruct Hin as [-> | Hin]; [congruence |].
    destruct (IH Hin Hnone) as (pre & bad & post & -> & Hpre & Hbn & Hre).
    exists (c0 :: pre), bad, post. split; [reflexivity |].
    split; [constructor; [by exists cv | done] |]. split; [done |].
    rsimpl. rewrite Hre. reflexivity.
  - exists [], c0, cols. split; [reflexivity |]. split; [constructor |].
    split; [done |]. reflexivity.
Qed.

(** C6. When some column of the response has a declared type without an
    entry in [TYPE_MAP], the row materializer ends with [KeyError] on the
    first such type before it yields any row, whatever the dataset, the
    target shape and the runtime's conversions are: no converter is
    applied and none is substituted. *)
Theorem unknown_column_type `{PyRuntime} {T : Type} (response : QuestDBResponse)
    (into_type : shape T) (col : QuestDBColumn) :
  In col (columns response) -> TYPE_MAP !! type col = None ->
  exists pre bad post,
    columns response = (pre ++ bad :: post)%list
    /\ Forall (fun c => is_Some (TYPE_MAP !! type c)) pre
    /\ TYPE_MAP !! type bad = None
    /\ parse_and_yield_query_response response into_type
       = ([], Some (KeyError (type bad))).
Proof.
  intros Hin Hnone.
  destruct (type_converter_unknown _ _ Hin Hnone)
    as (pre & bad & post & Hc & Hpre & Hbn & Hre).
  exists pre, bad, post. repeat split; try done.
  unfold parse_and_yield_query_response. rewrite Hre. reflexivity.
Qed.

Lemma unknown_column_type_witness :
  In (mk_QuestDBColumn "n" "INT") (columns unknown_type_response)
  /\ TYPE_MAP !! "INT" = None
  /\ exists pre bad post,
       columns unknown_type_response = (pre ++ bad :: post)%list
       /\ Forall (fun c => is_Some (TYPE_MAP !! type c)) pre
       /\ TYPE_MAP !! type bad = None
       /\ @parse_and_yield_query_response Sample.runtime unit
            unknown_type_response None = ([], Some (KeyError (type bad))).
Proof.
  assert (Hin : In (mk_QuestDBColumn "n" "INT") (columns unknown_type_response))
    by (right; left; reflexivity).
  assert (Hno : TYPE_MAP !! type (mk_QuestDBColumn "n" "INT") = None)
    by reflexivity.
  split; [exact Hin |]. split; [exact Hno |].
  exact (@unknown_column_type Sample.runtime unit unknown_type_response None
           _ Hin Hno).
Defined.

(** ** The converters of SYMBOL, VARCHAR, BOOLEAN, LONG and DOUBLE *)

(** The text ["false"] in a BOOLEAN column is coerced to [True]: coercion
    under the five types is not the identity on every non-null value. *)
Lemma coercion_not_identity :
  ~ (forall (rt : PyRuntime) (declared : string) (raw : pyval),
       In declared identity_types -> raw <> PNone ->
       coerce declared raw = Ok raw).
Proof.
  intros Hid.
  specialize (Hid Sample.runtime "BOOLEAN" (PStr "false")).
  assert (Hc : @coerce Sample.runtime "BOOLEAN" (PStr "false") = Ok (PBool true))
    by reflexivity.
  rewrite Hc in Hid.
  assert (Hin : In "BOOLEAN" identity_types) by (cbn; tauto).
  specialize (Hid Hin ltac:(discriminate)). discriminate.
Qed.

(** C7. For every non-null raw value that has the wire type of its declared
    type (text for SYMBOL and VARCHAR, a boolean for BOOLEAN, an integer
    for LONG, a float for DOUBLE), coercion returns the value unchanged. *)
Theorem coercion_identity_on_wire_type `{PyRuntime} (declared : string)
    (raw : pyval) :
  In declared identity_types -> wire_typed declared raw = true ->
  coerce declared raw = Ok raw.
Proof.
  intros Hin Hw. unfold coerce.
  cbn in Hin.
  destruct Hin as [<- | [<- | [<- | [<- | [<- | []]]]]];
    destruct raw; try discriminate Hw; reflexivity.
Qed.

Lemma coercion_identity_on_wire_type_witness :
  In "LONG" identity_types /\ wire_typed "LONG" (PInt 15) = true
  /\ @coerce Sample.runtime "LONG" (PInt 15) = Ok (PInt 15).
Proof.
  assert (Hin : In "LONG" identity_types) by (cbn; tauto).
  split; [exact Hin |]. split; [reflexivity |].
  exact (@coercion_identity_on_wire_type Sample.runtime "LONG" (PInt 15)
           Hin eq_refl).
Defined.

(** ** The query URL *)

Lemma append_assoc (a b c : string) : (a +:+ b) +:+ c = a +:+ (b +:+ c).
Proof.
  induction a as [| x a IH]; [reflexivity |].
  exact (f_equal (String x) IH).
Qed.

(** C10. Whatever host and port the constructor is given, the URL of the
    object ends in the literal port 9000, the synchronous and the
    asynchronous fetch both request [http://host:9000/exec], and the port
    argument reaches only the sender of the write path. *)
Theorem query_url_port_9000 `{Transport} (host : string) (port : Z)
    (user pass : option string) (query_string : string) :
  let db := __init__ host port user pass in
  url db = "http://" +:+ host +:+ ":9000"
  /\ sender_port (client db) = port
  /\ _query_sync db query_string
     = (response ← requests_get ("http://" +:+ host +:+ ":9000/exec")
                                [("query", query_string)];
        _ ← requests_raise_for_status response; Ok (content response))
  /\ snd (_query db query_string)
     = (response ← aiohttp_get ("http://" +:+ host +:+ ":9000/exec")
                               [("query", query_string)];
        _ ← aiohttp_raise_for_status response; Ok (content response)).
Proof.
  assert (Hurl : forall h, ("http://" +:+ h +:+ ":" +:+ "9000") +:+ "/exec"
                           = "http://" +:+ h +:+ ":9000/exec").
  { intros h. rewrite !append_assoc. reflexivity. }
  cbn zeta. repeat split.
  - unfold _query_sync, __init__. cbn [url]. rewrite Hurl. reflexivity.
  - unfold _query, __init__. cbn [url session snd]. rewrite Hurl. reflexivity.
Qed.

(** ** Synchronous and asynchronous entry points *)

Lemma yield_each_id {A : Type} (items : list A) (fin : option exn) :
  yield_each items fin = (items, fin).
Proof.
  induction items as [| x items IH]; [reflexivity |].
  cbn [yield_each]. rewrite IH. reflexivity.
Qed.

Lemma query_runs_generator `{PyRuntime} `{Tokenizer} `{Transport} {T : Type}
    (self : QuestDB) (q : string) (into_type : shape T) :
  snd (query self q into_type)
  = match b ← snd (_query self q); parse_query_response b with
    | Ok data => parse_and_yield_query_response data into_type
    | Raise e => ([], Some e)
    end.
Proof.
  unfold query. destruct (_query self q) as [self' fetched]. cbn [snd].
  destruct (b ← fetched; parse_query_response b) as [data | e]; [| reflexivity].
  rewrite yield_each_id. by destruct (parse_and_yield_query_response data into_type).
Qed.

(** C1. When the asynchronous and the synchronous fetch decode to the same
    response, iterating [query] and iterating the result of [query_sync]
    give the same records and end the same way, both being the run of the
    row materializer on that response, and [query_df] and [query_df_sync]
    return the same table or raise the same exception. *)
Theorem sync_async_equivalence `{PyRuntime} `{Tokenizer} `{Transport} `{Pandas} {T : Type}
    (self : QuestDB) (q : string) (into_type : shape T)
    (data : QuestDBResponse) :
  (b ← snd (_query self q); parse_query_response b) = Ok data ->
  (b ← _query_sync self q; parse_query_response b) = Ok data ->
  snd (query self q into_type) = drain (query_sync self q into_type)
  /\ snd (query self q into_type)
     = parse_and_yield_query_response data into_type
  /\ snd (query_df self q) = query_df_sync self q.
Proof.
  intros Ha Hs.
  assert (Hq : snd (query self q into_type)
               = parse_and_yield_query_response data into_type).
  { rewrite query_runs_generator, Ha. reflexivity. }
  split; [| split; [exact Hq |]].
  - rewrite Hq. unfold query_sync.
    destruct (bind_Ok_inv _ _ _ Hs) as (b & Hb & Hp).
    rewrite Hb. rsimpl. rewrite Hp. rsimpl. reflexivity.
  - unfold query_df, query_df_sync.
    destruct (_query self q) as [self' fetched]. cbn [snd] in *.
    destruct (bind_Ok_inv _ _ _ Ha) as (b & Hb & Hp).
    destruct (bind_Ok_inv _ _ _ Hs) as (b' & Hb' & Hp').
    rewrite Hb, Hb'. rsimpl. rewrite Hp, Hp'. reflexivity.
Qed.

Lemma sync_async_equivalence_witness :
  (b ← snd (@_query (Sample.server 200 body) db "select * from t");
   @parse_query_response Sample.tokenizer b) = Ok body_response
  /\ (b ← @_query_sync (Sample.server 200 body) db "select * from t";
      @parse_query_response Sample.tokenizer b) = Ok body_response
  /\ snd (@query Sample.runtime Sample.tokenizer (Sample.server 200 body) unit db
            "select * from t" None)
     = drain (@query_sync Sample.runtime Sample.tokenizer (Sample.server 200 body) unit db
                "select * from t" None)
  /\ snd (@query Sample.runtime Sample.tokenizer (Sample.server 200 body) unit db
            "select * from t" None)
     = @parse_and_yield_query_response Sample.runtime unit body_response None
  /\ snd (@query_df Sample.pandas Sample.tokenizer (Sample.server 200 body) db "select * from t")
     = @query_df_sync Sample.pandas Sample.tokenizer (Sample.server 200 body) db "select * from t".
Proof.
  assert (Ha : (b ← snd (@_query (Sample.server 200 body) db "select * from t");
                @parse_query_response Sample.tokenizer b)
               = Ok body_response) by (vm_compute; reflexivity).
  assert (Hs : (b ← @_query_sync (Sample.server 200 body) db "select * from t";
                @parse_query_response Sample.tokenizer b)
               = Ok body_response) by (vm_compute; reflexivity).
  split; [exact Ha |]. split; [exact Hs |].
  exact (@sync_async_equivalence Sample.runtime Sample.tokenizer (Sample.server 200 body)
           Sample.pandas unit db "select * from t" None body_response Ha Hs).
Defined.

(** ** Records *)

Lemma dict_get_set_eq (d : dict) (k : string) (v : pyval) :
  dict_get (dict_set d k v) k = Some v.
Proof.
  induction d as [| [k' v'] d IH]; cbn [dict_set dict_get].
  - by rewrite String.eqb_refl.
  - destruct (String.eqb k' k) eqn:E; cbn [dict_get]; rewrite E; done.
Qed.

Lemma dict_get_set_ne (d : dict) (k k' : string) (v : pyval) :
  k' <> k -> dict_get (dict_set d k v) k' = dict_get d k'.
Proof.
  intros Hne.
  induction d as [| [k0 v0] d IH]; cbn [dict_set dict_get].
  - destruct (String.eqb k k') eqn:E; [| done].
    apply String.eqb_eq in E. congruence.
  - destruct (String.eqb k0 k) eqn:E; cbn [dict_get]; [| by rewrite IH].
    apply String.eqb_eq in E. subst k0.
    destruct (String.eqb k k') eqn:E'; [| done].
    apply String.eqb_eq in E'. congruence.
Qed.

Lemma dict_keys_set (d : dict) (k : string) (v : pyval) (k' : string) :
  In k' (dict_keys (dict_set d k v)) <-> k' = k \/ In k' (dict_keys d).
Proof.
  unfold dict_keys.
  induction d as [| [k0 v0] d IH]; cbn [dict_set map fst In].
  - split; [intros [<- | []]; by left | intros [-> | []]; by left].
  - destruct (String.eqb k0 k) eqn:E; cbn [map fst In].
    + apply String.eqb_eq in E. subst k0. split; [tauto |].
      intros [-> | H]; [by left | done].
    + rewrite IH. tauto.
Qed.

(** A fresh key is appended at the end. *)
Lemma dict_set_fresh (d : dict) (k : string) (v : pyval) :
  ~ In k (dict_keys d) -> dict_set d k v = (d ++ [(k, v)])%list.
Proof.
  unfold dict_keys.
  induction d as [| [k0 v0] d IH]; intros Hn; [reflexivity |].
  cbn [dict_set]. cbn [map fst In] in Hn.
  destruct (String.eqb k0 k) eqn:E.
  - apply String.eqb_eq in E. tauto.
  - rewrite IH; [reflexivity | tauto].
Qed.

Lemma converted_row_other `{PyRuntime}
    (fields : list (QuestDBColumn * converter * pyval)) (acc d : dict)
    (k : string) :
  converted_row acc fields = Ok d ->
  ~ In k (map field_name fields) ->
  dict_get d k = dict_get acc k.
Proof.
  revert acc.
  induction fields as [| [[col0 c0] v0] fields IH]; intros acc Hrun Hk.
  - cbn in Hrun. by injection Hrun as <-.
  - cbn [converted_row] in Hrun.
    destruct (bind_Ok_inv _ _ _ Hrun) as (w0 & Hw0 & Hrest).
    cbn [map In] in Hk. unfold field_name at 1 in Hk. cbn [fst] in Hk.
    rewrite (IH _ Hrest) by tauto.
    apply dict_get_set_ne. intros E. apply Hk. by left.
Qed.

(** The field of a key is written by the last entry of that name. *)
Lemma converted_row_last `{PyRuntime}
    (pre : list (QuestDBColumn * converter * pyval)) :
  forall (acc d : dict) col c v post,
    converted_row acc (pre ++ (col, c, v) :: post)%list = Ok d ->
    ~ In (name col) (map field_name post) ->
    exists w, convert_value c v = Ok w /\ dict_get d (name col) = Some w.
Proof.
  induction pre as [| [[col0 c0] v0] pre IH]; intros acc d col c v post Hrun Hlast.
  - cbn [app converted_row] in Hrun.
    destruct (bind_Ok_inv _ _ _ Hrun) as (w & Hw & Hrest).
    exists w. split; [done |].
    rewrite (converted_row_other _ _ _ _ Hrest Hlast).
    apply dict_get_set_eq.
  - cbn [app converted_row] in Hrun.
    destruct (bind_Ok_inv _ _ _ Hrun) as (w0 & Hw0 & Hrest).
    exact (IH _ _ _ _ _ _ Hrest Hlast).
Qed.

Lemma converted_row_keys `{PyRuntime}
    (fields : list (QuestDBColumn * converter * pyval)) (acc d : dict)
    (k : string) :
  converted_row acc fields = Ok d ->
  In k (dict_keys d) <-> In k (dict_keys acc) \/ In k (map field_name fields).
Proof.
  revert acc.
  induction fields as [| [[col0 c0] v0] fields IH]; intros acc Hrun.
  - cbn in Hrun. injection Hrun as <-. cbn. tauto.
  - cbn [converted_row] in Hrun.
    destruct (bind_Ok_inv _ _ _ Hrun) as (w0 & Hw0 & Hrest).
    rewrite (IH _ Hrest), dict_keys_set.
    cbn [map In]. unfold field_name at 2. cbn [fst]. intuition congruence.
Qed.

Lemma type_converter_Forall2 (cols : list QuestDBColumn) :
  forall convs, type_converter cols = Ok convs ->
  Forall2 (fun col c => TYPE_MAP !! type col = Some c) cols convs.
Proof.
  unfold type_converter.
  induction cols as [| col cols IH]; intros convs Hc.
  - cbn in Hc. injection Hc as <-. constructor.
  - cbn [traverse] in Hc.
    destruct (bind_Ok_inv _ _ _ Hc) as (c & Hl & Hrest).
    destruct (bind_Ok_inv _ _ _ Hrest) as (cs & Hcs & Hret).
    rsimpl_in Hret. injection Hret as <-.
    constructor; [| by apply IH].
    destruct (TYPE_MAP !! type col); [congruence | discriminate].
Qed.

Lemma type_converter_known (cols : list QuestDBColumn) :
  Forall (fun col => is_Some (TYPE_MAP !! type col)) cols ->
  exists convs, type_converter cols = Ok convs.
Proof.
  unfold type_converter.
  intros HF. induction HF as [| col cols Hk _ IH]; [by exists [] |].
  destruct Hk as [c Hc]. destruct IH as [convs IH].
  exists (c :: convs). cbn [traverse].
  destruct (TYPE_MAP !! type col) as [c' |]; [| discriminate].
  injection Hc as ->. rsimpl. rewrite IH. reflexivity.
Qed.

Lemma omap_cons_eq {A B : Type} (f : A -> option B) (x : A) (l : list A) :
  omap f (x :: l)
  = match f x with Some y => y :: omap f l | None => omap f l end.
Proof. reflexivity. Qed.

Lemma zip3_with_converter (cols : list QuestDBColumn) :
  forall convs row,
    Forall2 (fun col c => TYPE_MAP !! type col = Some c) cols convs ->
    zip3 cols convs row = omap with_converter (zip cols row).
Proof.
  induction cols as [| col cols IH]; intros convs row HF.
  - by inversion HF.
  - inversion HF as [| ? c ? cs Hc HF']; subst.
    destruct row as [| v row]; [reflexivity |].
    cbn [zip3 zip zip_with]. rewrite omap_cons_eq.
    unfold with_converter at 1. cbn [fst snd]. rewrite Hc.
    change (Some c ≫= _) with (Some (col, c, v)). cbv beta iota.
    f_equal. by apply IH.
Qed.

Lemma zip3_split {A B C : Type} (i : nat) :
  forall (a : list A) (b : list B) (c : list C) x y z,
    a !! i = Some x -> b !! i = Some y -> c !! i = Some z ->
    zip3 a b c
    = (zip3 (take i a) (take i b) (take i c)
       ++ (x, y, z) :: zip3 (drop (S i) a) (drop (S i) b) (drop (S i) c))%list.
Proof.
  induction i as [| i IH]; intros [| x0 a] [| y0 b] [| z0 c] x y z Ha Hb Hc;
    try discriminate.
  - cbn in Ha, Hb, Hc. injection Ha as ->. injection Hb as ->. injection Hc as ->.
    reflexivity.
  - cbn in Ha, Hb, Hc. cbn [take drop zip3 app].
    f_equal. by apply IH.
Qed.

Lemma zip3_names (cols : list QuestDBColumn) :
  forall (convs : list converter) (row : list pyval) k,
    In k (map field_name (zip3 cols convs row)) -> In k (map name cols).
Proof.
  induction cols as [| col cols IH]; intros [| c convs] [| v row] k Hin;
    try destruct Hin.
  - left. done.
  - right. by eapply IH.
Qed.

Lemma NoDup_later_names (cols : list QuestDBColumn) (i : nat) (col : QuestDBColumn) :
  NoDup (map name cols) -> cols !! i = Some col ->
  ~ In (name col) (map name (drop (S i) cols)).
Proof.
  intros Hnd Hi.
  rewrite <- (take_drop_middle cols i col Hi) in Hnd.
  rewrite map_app in Hnd. cbn [map] in Hnd.
  apply NoDup_app in Hnd as (_ & _ & Hnd).
  apply NoDup_cons in Hnd as [Hnot _].
  intros Hin. apply Hnot. by apply list_elem_of_In.
Qed.

(** A field whose name no later column of the row repeats holds the
    coercion of its own cell. *)
Lemma record_field `{PyRuntime} (cols : list QuestDBColumn) (row : list pyval)
    (d : dict) (i : nat) (col : QuestDBColumn) (v : pyval) :
  record_of cols row = Ok d ->
  cols !! i = Some col -> row !! i = Some v ->
  ~ In (name col) (map name (drop (S i) cols)) ->
  field_holds d col v.
Proof.
  unfold record_of. intros Hrec Hc Hv Hlate.
  destruct (bind_Ok_inv _ _ _ Hrec) as (convs & Hconvs & Hrun).
  pose proof (type_converter_Forall2 _ _ Hconvs) as HF.
  destruct (Forall2_lookup_l _ _ _ _ _ HF Hc) as (c & Hci & Htm).
  rewrite (zip3_split i _ _ _ _ _ _ Hc Hci Hv) in Hrun.
  destruct (converted_row_last _ _ _ _ _ _ _ Hrun) as (w & Hw & Hget).
  { intros Hin. apply Hlate. by eapply zip3_names. }
  exists w. split; [| done]. unfold coerce. by rewrite Htm.
Qed.

(** Each item that the generator yields is built from the record of the
    row at the same position. *)
Lemma yielded_item `{PyRuntime} {T : Type} (response : QuestDBResponse)
    (into_type : shape T) (r : nat) (it : item T) :
  fst (parse_and_yield_query_response response into_type) !! r = Some it ->
  exists row d,
    dataset response !! r = Some row
    /\ record_of (columns response) row = Ok d
    /\ make_item into_type d = Ok it.
Proof.
  unfold parse_and_yield_query_response, record_of.
  destruct (type_converter (columns response)) as [convs | e]; [| done].
  generalize (dataset response) as rows. intros rows. revert r.
  induction rows as [| row rows IH]; intros r Hr; [done |].
  cbn [yield_rows] in Hr.
  destruct (converted_row [] (zip3 (columns response) convs row)) as [d | e] eqn:Ed;
    rsimpl_in Hr; [| done].
  destruct (make_item into_type d) as [it0 | e] eqn:Ei; [| done].
  cbn [fst] in Hr. destruct r as [| r].
  - injection Hr as <-. exists row, d. rsimpl. done.
  - cbn in Hr. destruct (IH r Hr) as (row' & d' & Hrow & Hd & Hi).
    exists row', d'. done.
Qed.

Lemma converted_row_entries `{PyRuntime}
    (fields : list (QuestDBColumn * converter * pyval)) :
  forall acc : dict,
    NoDup (dict_keys acc ++ map field_name fields) ->
    converted_row acc fields
    = (es ← traverse entry fields; Ok (acc ++ es)%list).
Proof.
  induction fields as [| [[col c] v] fields IH]; intros acc Hnd.
  - cbn. by rewrite app_nil_r.
  - cbn [converted_row traverse].
    change (entry (col, c, v)) with (w ← convert_value c v; Ok (name col, w)).
    destruct (convert_value c v) as [w | e]; rsimpl; [| done].
    cbn [map] in Hnd. unfold field_name at 1 in Hnd. cbn [fst] in Hnd.
    assert (Hfresh : ~ In (name col) (dict_keys acc)).
    { apply NoDup_app in Hnd as (_ & Hdis & _).
      intros Hin. apply (Hdis (name col)); [by apply list_elem_of_In | left]. }
    rewrite (dict_set_fresh _ _ _ Hfresh).
    rewrite IH.
    + destruct (traverse entry fields) as [es | e]; rsimpl; [| done].
      by rewrite <- app_assoc.
    + unfold dict_keys in *. rewrite map_app. cbn [map fst].
      rewrite <- app_assoc. exact Hnd.
Qed.

Lemma traverse_entry_Permutation `{PyRuntime}
    (fields fields' : list (QuestDBColumn * converter * pyval)) :
  fields ≡ₚ fields' ->
  forall es, traverse entry fields = Ok es ->
  exists es', traverse entry fields' = Ok es' /\ es ≡ₚ es'.
Proof.
  induction 1 as [| f l l' Hp IH | f g l | l l' l'' Hp IH Hp' IH']; intros es Hes.
  - exists es. done.
  - cbn [traverse] in Hes |- *.
    destruct (entry f) as [e0 |]; rsimpl_in Hes; [| done].
    destruct (traverse entry l) as [es0 |] eqn:El; rsimpl_in Hes; [| done].
    injection Hes as <-. destruct (IH _ eq_refl) as (es' & -> & Hperm).
    exists (e0 :: es'). rsimpl. split; [done | by constructor].
  - cbn [traverse] in Hes |- *.
    destruct (entry g) as [e0 |]; rsimpl_in Hes; [| done].
    destruct (entry f) as [e1 |]; rsimpl_in Hes; [| done].
    destruct (traverse entry l) as [es0 |]; rsimpl_in Hes; [| done].
    injection Hes as <-. exists (e1 :: e0 :: es0). rsimpl.
    split; [done | constructor].
  - destruct (IH _ Hes) as (es1 & H1 & Hp1).
    destruct (IH' _ H1) as (es2 & H2 & Hp2).
    exists es2. split; [done | by etrans].
Qed.

Lemma traverse_entry_names `{PyRuntime}
    (fields : list (QuestDBColumn * converter * pyval)) :
  forall es, traverse entry fields = Ok es ->
  dict_keys es = map field_name fields.
Proof.
  induction fields as [| f fields IH]; intros es Hes.
  - cbn in Hes. by injection Hes as <-.
  - cbn [traverse] in Hes.
    change (entry f) with (w ← convert_value (snd (fst f)) (snd f);
                           Ok (field_name f, w)) in Hes.
    destruct (convert_value (snd (fst f)) (snd f)) as [w |]; rsimpl_in Hes; [| done].
    destruct (traverse entry fields) as [es0 |]; rsimpl_in Hes; [| done].
    injection Hes as <-. cbn. f_equal. by apply IH.
Qed.

Lemma dict_get_In (d : dict) (k : string) (v : pyval) :
  NoDup (dict_keys d) -> (dict_get d k = Some v <-> In (k, v) d).
Proof.
  unfold dict_keys.
  induction d as [| [k0 v0] d IH]; intros Hnd; cbn [dict_get In].
  - split; [done | tauto].
  - cbn [map fst] in Hnd. apply NoDup_cons in Hnd as [Hnot Hnd].
    destruct (String.eqb k0 k) eqn:E.
    + apply String.eqb_eq in E. subst k0. split.
      * intros [= ->]. by left.
      * intros [[= ->] | Hin]; [done |].
        exfalso. apply Hnot. apply list_elem_of_In.
        apply in_map_iff. by exists (k, v).
    + apply String.eqb_neq in E. rewrite (IH Hnd).
      split; [tauto | intros [[= ? ?] | ?]; [congruence | done]].
Qed.

Lemma dict_get_Permutation (d d' : dict) (k : string) :
  NoDup (dict_keys d) -> d ≡ₚ d' -> dict_get d' k = dict_get d k.
Proof.
  intros Hnd Hp.
  assert (Hnd' : NoDup (dict_keys d')).
  { unfold dict_keys in *. by rewrite <- Hp. }
  destruct (dict_get d k) as [v |] eqn:E.
  - apply dict_get_In; [done |]. apply (dict_get_In _ _ _ Hnd) in E.
    apply list_elem_of_In. rewrite <- Hp. by apply list_elem_of_In.
  - destruct (dict_get d' k) as [v' |] eqn:E'; [| done].
    apply (dict_get_In _ _ _ Hnd') in E'.
    assert (In (k, v') d).
    { apply list_elem_of_In. rewrite Hp. by apply list_elem_of_In. }
    apply (dict_get_In _ _ _ Hnd) in H. congruence.
Qed.

Lemma zip3_names_prefix (cols : list QuestDBColumn) :
  forall (convs : list converter) (row : list pyval),
  exists rest,
    map name cols = (map field_name (zip3 cols convs row) ++ rest)%list.
Proof.
  induction cols as [| col cols IH]; intros convs row; [by exists [] |].
  destruct convs as [| c convs]; [by eexists |].
  destruct row as [| v row]; [by eexists |].
  destruct (IH convs row) as [rest Hrest].
  exists rest. cbn [zip3 map app]. unfold field_name at 1. cbn [fst].
  by rewrite Hrest.
Qed.

Lemma record_single `{PyRuntime} (q : string) (cols : list QuestDBColumn)
    (ts : Z) (row : list pyval) (n : Z) (d : dict) :
  record_of cols row = Ok d ->
  parse_and_yield_query_response (mk_QuestDBResponse q cols ts [row] n)
    (None : shape unit) = ([Row d], None).
Proof.
  unfold record_of, parse_and_yield_query_response. cbn [columns dataset].
  intros Hrec. destruct (bind_Ok_inv _ _ _ Hrec) as (convs & -> & Hrun).
  cbn [yield_rows]. rewrite Hrun. reflexivity.
Qed.

(** Permuting the columns and the cells of a row alike permutes the
    fields of its record. *)
Lemma record_permuted `{PyRuntime} (cols cols' : list QuestDBColumn)
    (row row' : list pyval) (d : dict) :
  NoDup (map name cols) ->
  length row = length cols -> length row' = length cols' ->
  zip cols row ≡ₚ zip cols' row' ->
  record_of cols row = Ok d ->
  exists d', record_of cols' row' = Ok d' /\ d ≡ₚ d'
             /\ forall k, dict_get d' k = dict_get d k.
Proof.
  intros Hnd Hlen Hlen' Hperm Hrec. unfold record_of in *.
  destruct (bind_Ok_inv _ _ _ Hrec) as (convs & Hconvs & Hrun).
  pose proof (type_converter_Forall2 _ _ Hconvs) as HF.
  assert (Hnames : NoDup (map field_name (zip3 cols convs row))).
  { destruct (zip3_names_prefix cols convs row) as [rest Hrest].
    rewrite Hrest in Hnd. by apply NoDup_app in Hnd as (? & _ & _). }
  rewrite converted_row_entries in Hrun by exact Hnames.
  destruct (bind_Ok_inv _ _ _ Hrun) as (es & Hes & Hret).
  cbn [app] in Hret. injection Hret as <-.
  assert (Hcols : cols ≡ₚ cols').
  { rewrite <- (fst_zip cols row) by lia.
    rewrite <- (fst_zip cols' row') by lia. by rewrite Hperm. }
  assert (Hknown : Forall (fun col => is_Some (TYPE_MAP !! type col)) cols').
  { rewrite <- Hcols. clear -HF.
    induction HF as [| col c cols convs Hc _ IH]; constructor; [by exists c | done]. }
  destruct (type_converter_known _ Hknown) as [convs' Hconvs'].
  pose proof (type_converter_Forall2 _ _ Hconvs') as HF'.
  rewrite Hconvs'. rsimpl.
  assert (Hfields : zip3 cols convs row ≡ₚ zip3 cols' convs' row').
  { rewrite (zip3_with_converter _ _ _ HF), (zip3_with_converter _ _ _ HF').
    by rewrite Hperm. }
  destruct (traverse_entry_Permutation _ _ Hfields _ Hes) as (es' & Hes' & Hp).
  assert (Hnames' : NoDup (map field_name (zip3 cols' convs' row'))).
  { by rewrite <- Hfields. }
  exists es'. rewrite converted_row_entries by exact Hnames'.
  rewrite Hes'. rsimpl. split; [done |]. split; [done |].
  intros k. apply dict_get_Permutation; [| done].
  by rewrite (traverse_entry_names _ _ Hes).
Qed.

(** With two columns of the same name the record has one field, holding
    the coercion of the last cell: the field named after the first column
    does not hold the coercion of the first cell. *)
Lemma positional_integrity_fails_on_repeated_name :
  ~ (forall (rt : PyRuntime) (response : QuestDBResponse) (r : nat) (d : dict),
       fst (parse_and_yield_query_response response (None : shape unit)) !! r
       = Some (Row d) ->
       exists row,
         dataset response !! r = Some row
         /\ forall i col v,
              columns response !! i = Some col -> row !! i = Some v ->
              field_holds d col v).
Proof.
  intros Hall.
  destruct (Hall Sample.runtime duplicate_name_response 0%nat
              [("a", PInt 2)] eq_refl) as (row & Hrow & Hfields).
  cbn in Hrow. injection Hrow as <-.
  destruct (Hfields 0%nat (mk_QuestDBColumn "a" "LONG") (PInt 1) eq_refl eq_refl)
    as (w & Hw & Hget).
  vm_compute in Hw, Hget. congruence.
Qed.

(** C4. In a response whose column names are pairwise distinct, the record
    yielded for a row has, for every position [i] that the row has, a field
    named [columns[i].name] holding the coercion of the row's [i]-th cell
    under [columns[i]]'s declared type; and permuting the columns and the
    cells of the row (as many cells as columns) by the same permutation
    gives a record with the same fields in permuted order, each with the
    same value. *)
Theorem positional_integrity `{PyRuntime} (response : QuestDBResponse)
    (r : nat) (d : dict) :
  NoDup (map name (columns response)) ->
  fst (parse_and_yield_query_response response (None : shape unit)) !! r
  = Some (Row d) ->
  exists row,
    dataset response !! r = Some row
    /\ (forall i col v,
          columns response !! i = Some col -> row !! i = Some v ->
          field_holds d col v)
    /\ (forall cols' row',
          length row = length (columns response) ->
          length row' = length cols' ->
          zip (columns response) row ≡ₚ zip cols' row' ->
          exists d',
            parse_and_yield_query_response
              (mk_QuestDBResponse (DbTypes.query response) cols' (timestamp response)
                 [row'] (count response)) (None : shape unit)
            = ([Row d'], None)
            /\ d ≡ₚ d' /\ forall k, dict_get d' k = dict_get d k).
Proof.
  intros Hnd Hit.
  destruct (yielded_item _ _ _ _ Hit) as (row & d0 & Hrow & Hrec & Hmk).
  cbn in Hmk. injection Hmk as ->.
  exists row. split; [done |]. split.
  - intros i col v Hc Hv.
    apply (record_field _ _ _ i col v Hrec Hc Hv).
    by apply NoDup_later_names.
  - intros cols' row' Hlen Hlen' Hperm.
    destruct (record_permuted _ _ _ _ _ Hnd Hlen Hlen' Hperm Hrec)
      as (d' & Hrec' & Hp & Hget).
    exists d'. split; [by apply record_single | done].
Qed.

Lemma positional_integrity_witness :
  NoDup (map name (columns body_response))
  /\ fst (@parse_and_yield_query_response Sample.runtime unit body_response None)
       !! 0%nat = Some (Row body_record)
  /\ exists row,
       dataset body_response !! 0%nat = Some row
       /\ (forall i col v,
             columns body_response !! i = Some col -> row !! i = Some v ->
             @field_holds Sample.runtime body_record col v)
       /\ (forall cols' row',
             length row = length (columns body_response) ->
             length row' = length cols' ->
             zip (columns body_response) row ≡ₚ zip cols' row' ->
             exists d',
               @parse_and_yield_query_response Sample.runtime unit
                 (mk_QuestDBResponse (DbTypes.query body_response) cols'
                    (timestamp body_response) [row'] (count body_response))
                 None
               = ([Row d'], None)
               /\ body_record ≡ₚ d'
               /\ forall k, dict_get d' k = dict_get body_record k).
Proof.
  assert (Hnd : NoDup (map name (columns body_response))).
  { apply (bool_decide_unpack _). vm_compute. exact I. }
  assert (Hit : fst (@parse_and_yield_query_response Sample.runtime unit
                       body_response None) !! 0%nat = Some (Row body_record)).
  { vm_compute. reflexivity. }
  split; [exact Hnd |]. split; [exact Hit |].
  exact (@positional_integrity Sample.runtime body_response 0%nat body_record
           Hnd Hit).
Defined.

(** ** Decoding *)

Lemma decode_column_json (col : QuestDBColumn) :
  decode_QuestDBColumn (column_json col) = Ok col.
Proof. destruct col as [n t]. reflexivity. Qed.

Lemma traverse_columns (cols : list QuestDBColumn) :
  traverse decode_QuestDBColumn (map column_json cols) = Ok cols.
Proof.
  induction cols as [| col cols IH]; [reflexivity |].
  cbn [map traverse]. rewrite decode_column_json. rsimpl. rewrite IH.
  reflexivity.
Qed.

Lemma traverse_rows (rows : list (list json)) :
  traverse decode_tuple (map JArray rows) = Ok (map (map decode_any) rows).
Proof.
  induction rows as [| row rows IH]; [reflexivity |].
  cbn [map traverse].
  change (decode_tuple (JArray row)) with (Ok (map decode_any row)).
  rsimpl. rewrite IH.
  reflexivity.
Qed.

Lemma decode_response_json (q : string) (cols : list QuestDBColumn) (ts : Z)
    (rows : list (list json)) (n : Z) :
  decode_QuestDBResponse (response_json q cols ts rows n)
  = Ok (mk_QuestDBResponse q cols ts (map (map decode_any) rows) n).
Proof.
  unfold decode_QuestDBResponse, response_json, document.
  cbn [foldM].
  cbv [response_member fst snd String.eqb Ascii.eqb Bool.eqb decode_list
       decode_str decode_int].
  rsimpl. rewrite traverse_columns. rsimpl. rewrite traverse_rows. rsimpl.
  reflexivity.
Qed.

Lemma traverse_not_array (ds : list json) (x : json) :
  In x ds -> is_array x = false ->
  traverse decode_tuple ds = Raise ValidationError.
Proof.
  induction ds as [| y ds IH]; intros Hin Hx; [destruct Hin |].
  cbn [traverse].
  destruct y as [| ? | ? | ? | ? | l | ?]; try reflexivity.
  change (decode_tuple (JArray l)) with (Ok (map decode_any l)). rsimpl.
  destruct Hin as [<- | Hin]; [discriminate |].
  rewrite (IH Hin Hx). reflexivity.
Qed.

Lemma decode_document_not_array (q : string) (cols : list QuestDBColumn)
    (ts : Z) (ds : list json) (n : Z) (x : json) :
  In x ds -> is_array x = false ->
  decode_QuestDBResponse (document q cols ts ds n) = Raise ValidationError.
Proof.
  intros Hin Hx. unfold decode_QuestDBResponse, document.
  cbn [foldM].
  cbv [response_member fst snd String.eqb Ascii.eqb Bool.eqb decode_list
       decode_str decode_int].
  rsimpl. rewrite traverse_columns. rsimpl.
  rewrite (traverse_not_array _ _ Hin Hx). reflexivity.
Qed.

Lemma zip3_field_names (cols : list QuestDBColumn) :
  forall (convs : list converter) (row : list pyval),
    length convs = length cols ->
    map field_name (zip3 cols convs row) = map name (take (length row) cols).
Proof.
  induction cols as [| col cols IH]; intros [| c convs] [| v row] Hlen;
    try discriminate; try reflexivity.
  cbn [zip3 map length take]. unfold field_name at 1. cbn [fst].
  f_equal. apply IH. cbn in Hlen. lia.
Qed.

(** The fields of a record are named after the columns that have a
    cell. *)
Lemma record_keys `{PyRuntime} (cols : list QuestDBColumn) (row : list pyval)
    (d : dict) (k : string) :
  record_of cols row = Ok d ->
  In k (dict_keys d) <-> In k (map name (take (length row) cols)).
Proof.
  unfold record_of. intros Hrec.
  destruct (bind_Ok_inv _ _ _ Hrec) as (convs & Hconvs & Hrun).
  rewrite (converted_row_keys _ _ _ k Hrun).
  rewrite zip3_field_names.
  - cbn. tauto.
  - symmetry. eapply Forall2_length, type_converter_Forall2, Hconvs.
Qed.

(** The decoder accepts a dataset whose rows have not as many cells as
    there are columns, and the row materializer then yields records with
    fewer fields than columns, or drops cells. *)
Lemma ragged_dataset_decodes :
  @parse_query_response Sample.tokenizer ragged_body
  = Ok ragged_response
  /\ ragged ragged_response
  /\ @parse_and_yield_query_response Sample.runtime unit ragged_response None
     = ([Row [("a", PInt 1)]; Row []], None).
Proof.
  split; [vm_compute; reflexivity |]. split; [| vm_compute; reflexivity].
  exists []. split; [right; left; reflexivity | discriminate].
Qed.

(** C2. Decoding checks the shape of the document and not the length of
    the rows: a document with the five fields, whose dataset is an array of
    arrays of any lengths, decodes to the response holding those rows as
    they are; a dataset with an element that is not an array fails with
    [ValidationError]; and the record of a row has the names of the
    columns up to the row's length, cells beyond the columns being left
    out. *)
Theorem decode_keeps_row_lengths `{PyRuntime} `{Tokenizer} (b : bytes)
    (q : string) (cols : list QuestDBColumn) (ts : Z)
    (rows : list (list json)) (n : Z) :
  json_loads b = Ok (response_json q cols ts rows n) ->
  parse_query_response b
  = Ok (mk_QuestDBResponse q cols ts (map (map decode_any) rows) n)
  /\ (forall b' ds x,
        json_loads b' = Ok (document q cols ts ds n) ->
        In x ds -> is_array x = false ->
        parse_query_response b' = Raise ValidationError)
  /\ (forall row d k,
        record_of cols row = Ok d ->
        In k (dict_keys d) <-> In k (map name (take (length row) cols))).
Proof.
  intros Hb. split; [| split].
  - unfold parse_query_response. rewrite Hb. rsimpl.
    apply decode_response_json.
  - intros b' ds x Hb' Hin Hx. unfold parse_query_response. rewrite Hb'.
    rsimpl. by eapply decode_document_not_array.
  - intros row d k. apply record_keys.
Qed.

Lemma decode_keeps_row_lengths_witness :
  @json_loads Sample.tokenizer ragged_body
  = Ok (response_json "select * from t" [mk_QuestDBColumn "a" "LONG"]
          1628097600000000 [[JInt 1; JInt 2]; []] 1)
  /\ @parse_query_response Sample.tokenizer ragged_body
     = Ok (mk_QuestDBResponse "select * from t" [mk_QuestDBColumn "a" "LONG"]
             1628097600000000
             (map (map decode_any) [[JInt 1; JInt 2]; []]) 1).
Proof.
  assert (Hb : @json_loads Sample.tokenizer ragged_body
               = Ok (response_json "select * from t"
                       [mk_QuestDBColumn "a" "LONG"]
                       1628097600000000 [[JInt 1; JInt 2]; []] 1))
    by (vm_compute; reflexivity).
  split; [exact Hb |].
  exact (proj1 (@decode_keeps_row_lengths Sample.runtime
                  Sample.tokenizer ragged_body _ _ _ _ _ Hb)).
Defined.

(** ** Timestamps *)

Lemma digit_digit_char (d : Z) : digit (digit_char d) = Some (d mod 10).
Proof.
  unfold digit, digit_char.
  pose proof (Z.mod_pos_bound d 10 ltac:(lia)) as Hb.
  rewrite N_ascii_embedding by lia.
  rewrite Z2N.id by lia.
  replace (48 <=? 48 + d mod 10) with true by (symmetry; apply Z.leb_le; lia).
  replace (48 + d mod 10 <=? 57) with true by (symmetry; apply Z.leb_le; lia).
  cbn [andb]. f_equal. lia.
Qed.

Lemma digits_from_app (l1 l2 : list ascii) :
  forall acc, digits_from acc (l1 ++ l2) = (a ← digits_from acc l1; digits_from a l2).
Proof.
  induction l1 as [| c l1 IH]; intros acc; [reflexivity |].
  cbn [app digits_from]. destruct (digit c) as [d |]; [| reflexivity].
  cbn. apply IH.
Qed.

Lemma digits_from_padded (k : nat) :
  forall n acc, 0 <= n ->
    digits_from acc (padded k n) = Some (acc * 10 ^ Z.of_nat k + n mod 10 ^ Z.of_nat k).
Proof.
  induction k as [| k IH]; intros n acc Hn.
  - cbn [padded digits_from]. f_equal. rewrite Z.pow_0_r, Z.mod_1_r. lia.
  - cbn [padded]. rewrite digits_from_app.
    rewrite IH by (apply Z.div_pos; lia).
    cbn [mbind option_bind digits_from]. rewrite digit_digit_char.
    cbn [mbind option_bind]. f_equal.
    rewrite Nat2Z.inj_succ, Z.pow_succ_r by lia.
    rewrite (Z.rem_mul_r n 10 (10 ^ Z.of_nat k)) by lia.
    lia.
Qed.

Lemma digits_padded (k : nat) (n : Z) :
  0 <= n < 10 ^ Z.of_nat k -> digits (padded k n) = Some n.
Proof.
  intros Hn. unfold digits. rewrite digits_from_padded by lia.
  f_equal. rewrite Z.mod_small by lia. lia.
Qed.

Lemma parse_digits_field (k : nat) (l r : list ascii) (n : Z) :
  parse_digits k l = Some (n, r) ->
  exists t, l = (t ++ r)%list /\ field k t n.
Proof.
  unfold parse_digits. destruct (length l <? k)%nat eqn:El; [discriminate |].
  apply Nat.ltb_ge in El.
  destruct (digits (take k l)) as [m |] eqn:Ed; [| discriminate].
  cbn. intros [= <- <-]. exists (take k l).
  split; [by rewrite take_drop |]. split; [| exact Ed].
  rewrite length_take. lia.
Qed.

Lemma find_separator_cases (l : list ascii) (sep : nat) :
  find_isoformat_datetime_separator l = Some sep ->
  sep = 7%nat \/ sep = 8%nat
  \/ (sep = 10%nat /\ is_char "-" (byte_at l 4) = true).
Proof.
  unfold find_isoformat_datetime_separator.
  repeat match goal with
         | |- context [if ?b then _ else _] => destruct b eqn:?
         end; intros [= <-]; try tauto.
  all: match goal with
       | H : (_ <? 9)%nat = true |- _ => apply Nat.ltb_lt in H; lia
       end.
Qed.

Lemma is_char_eq (c x : ascii) : is_char c x = true -> x = c.
Proof. unfold is_char. intros E. apply Ascii.eqb_eq in E. by subst. Qed.

Lemma byte_at_field (k : nat) (Y r : list ascii) (y : Z) :
  field k Y y -> byte_at (Y ++ r) k = hd NUL r.
Proof.
  intros [Hl _]. unfold byte_at. rewrite app_nth2 by lia.
  rewrite Hl, Nat.sub_diag. by destruct r.
Qed.

Lemma length_zero_nil {A : Type} (l : list A) : (length l <= 0)%nat -> l = [].
Proof. destruct l; cbn; [done | lia]. Qed.

Ltac field_lengths :=
  repeat match goal with
         | H : field _ _ _ |- _ =>
             let Hl := fresh "Hl" in
             pose proof (proj1 H) as Hl; revert H
         end; intros.

Lemma parse_isoformat_date_text (t : list ascii) (ymd : Z * Z * Z) :
  (length t <= 8)%nat
  \/ ((length t <= 10)%nat /\ is_char "-" (byte_at t 4) = true) ->
  parse_isoformat_date t = Some ymd -> date_text t ymd.
Proof.
  intros Hlen. unfold parse_isoformat_date.
  destruct (parse_digits 4 t) as [[y r] |] eqn:Ey; [| discriminate].
  destruct (parse_digits_field _ _ _ _ Ey) as (Y & -> & HY).
  rewrite (byte_at_field 4 Y r y HY) in Hlen.
  cbn [mbind option_bind].
  destruct (is_char "-" (hd NUL r)) eqn:Esep.
  - (* extended *)
    destruct r as [| c r]; [discriminate |]. cbn [hd tl] in *.
    apply is_char_eq in Esep as ->.
    destruct (is_char "W" (hd NUL r)) eqn:Ew.
    + destruct r as [| c r]; [discriminate |]. cbn [hd tl] in *.
      apply is_char_eq in Ew as ->.
      destruct (parse_digits 2 r) as [[w r2] |] eqn:E2; [| discriminate].
      destruct (parse_digits_field _ _ _ _ E2) as (W & -> & HW).
      cbn [mbind option_bind].
      destruct r2 as [| c r3].
      * intros Hy. rewrite app_nil_r. by eapply week_extended.
      * cbn [andb]. destruct (is_char "-" c) eqn:Ec; [| discriminate].
        apply is_char_eq in Ec as ->. cbn [negb].
        destruct (parse_digits 1 r3) as [[wd left] |] eqn:E3; [| discriminate].
        destruct (parse_digits_field _ _ _ _ E3) as (D & -> & HD).
        cbn [mbind option_bind]. intros Hy.
        assert (left = []) as ->.
        { apply length_zero_nil. field_lengths.
          rewrite !length_app in Hlen. cbn [length] in Hlen.
          rewrite !length_app in Hlen. cbn [length] in Hlen.
          rewrite !length_app in Hlen. lia. }
        rewrite app_nil_r. by eapply week_day_extended.
    + destruct (parse_digits 2 r) as [[m r2] |] eqn:E2; [| discriminate].
      destruct (parse_digits_field _ _ _ _ E2) as (M & -> & HM).
      cbn [mbind option_bind andb].
      destruct (is_char "-" (hd NUL r2)) eqn:Ec; [| discriminate].
      destruct r2 as [| c r3]; [discriminate |]. cbn [hd tl negb] in *.
      apply is_char_eq in Ec as ->.
      destruct (parse_digits 2 r3) as [[d left] |] eqn:E3; [| discriminate].
      destruct (parse_digits_field _ _ _ _ E3) as (D & -> & HD).
      cbn [mbind option_bind]. intros [= <-].
      assert (left = []) as ->.
      { apply length_zero_nil. field_lengths.
        rewrite !length_app in Hlen. cbn [length] in Hlen.
        rewrite !length_app in Hlen. cbn [length] in Hlen.
        rewrite !length_app in Hlen. lia. }
      rewrite app_nil_r. by eapply calendar_extended.
  - (* basic *)
    assert (Hshort : (length (Y ++ r) <= 8)%nat) by (destruct Hlen as [| []]; [done | discriminate]).
    clear Hlen.
    destruct (is_char "W" (hd NUL r)) eqn:Ew.
    + destruct r as [| c r]; [discriminate |]. cbn [hd tl] in *.
      apply is_char_eq in Ew as ->.
      destruct (parse_digits 2 r) as [[w r2] |] eqn:E2; [| discriminate].
      destruct (parse_digits_field _ _ _ _ E2) as (W & -> & HW).
      cbn [mbind option_bind].
      destruct r2 as [| c r3].
      * intros Hy. rewrite app_nil_r. by eapply week_basic.
      * cbn [andb].
        destruct (parse_digits 1 (c :: r3)) as [[wd left] |] eqn:E3;
          [| discriminate].
        destruct (parse_digits_field _ _ _ _ E3) as (D & HD' & HD).
        rewrite HD' in *.
        cbn [mbind option_bind]. intros Hy.
        assert (left = []) as ->.
        { apply length_zero_nil. field_lengths.
          rewrite !length_app in Hshort. cbn [length] in Hshort.
          rewrite !length_app in Hshort. lia. }
        rewrite app_nil_r. by eapply week_day_basic.
    + destruct (parse_digits 2 r) as [[m r2] |] eqn:E2; [| discriminate].
      destruct (parse_digits_field _ _ _ _ E2) as (M & -> & HM).
      cbn [mbind option_bind andb].
      destruct (parse_digits 2 r2) as [[d left] |] eqn:E3; [| discriminate].
      destruct (parse_digits_field _ _ _ _ E3) as (D & -> & HD).
      cbn [mbind option_bind]. intros [= <-].
      assert (left = []) as ->.
      { apply length_zero_nil. field_lengths.
        rewrite !length_app in Hshort. lia. }
      rewrite app_nil_r. by eapply calendar_basic.
Qed.

Lemma split_at_mark_app (t : list ascii) :
  t = (fst (split_at_mark t) ++ snd (split_at_mark t))%list.
Proof.
  induction t as [| c t IH]; [reflexivity |]. cbn [split_at_mark].
  destruct (is_tz_mark c); [reflexivity |].
  destruct (split_at_mark t) as [a b]. cbn [fst snd app] in *. by f_equal.
Qed.

Lemma split_at_mark_clock (t : list ascii) :
  Forall (fun c => is_tz_mark c = false) (fst (split_at_mark t)).
Proof.
  induction t as [| c t IH]; [constructor |]. cbn [split_at_mark].
  destruct (is_tz_mark c) eqn:E; [constructor |].
  destruct (split_at_mark t) as [a b]. cbn [fst] in *. by constructor.
Qed.

Lemma split_at_mark_zone (t z : list ascii) (c : ascii) :
  snd (split_at_mark t) = c :: z -> is_tz_mark c = true.
Proof.
  induction t as [| x t IH]; [discriminate |]. cbn [split_at_mark].
  destruct (is_tz_mark x) eqn:E.
  - cbn. by intros [= <- <-].
  - destruct (split_at_mark t) as [a b]. cbn [snd] in *. exact IH.
Qed.

(** The hour that [parse_hh_mm_ss_ff] returns is read from the first two
    characters. *)
Lemma parse_hh_mm_ss_ff_hour (clock : list ascii) (next : ascii) (more : bool)
    (h mi s us : Z) :
  parse_hh_mm_ss_ff clock next = Some (more, (h, mi, s, us)) ->
  exists HH t1, clock = (HH ++ t1)%list /\ field 2 HH h.
Proof.
  unfold parse_hh_mm_ss_ff.
  destruct (parse_digits 2 clock) as [[h0 t1] |] eqn:E; [| discriminate].
  destruct (parse_digits_field _ _ _ _ E) as (HH & -> & HHH).
  cbn [mbind option_bind]. intros Hres.
  exists HH, t1. split; [reflexivity |].
  assert (h0 = h) as <-; [| exact HHH].
  clear E HHH.
  repeat match type of Hres with
         | context [mbind _ ?m] =>
             destruct m as [[? ?] |]; cbn [mbind option_bind] in Hres
         | context [match ?x with _ => _ end] => destruct x
         end; congruence.
Qed.

Lemma byte_at_take (l : list ascii) (n i : nat) :
  (i < n)%nat -> byte_at (take n l) i = byte_at l i.
Proof.
  unfold byte_at. revert n i.
  induction l as [| c l IH]; intros n i Hi.
  - rewrite take_nil. reflexivity.
  - destruct n as [| n]; [lia |]. destruct i as [| i]; [reflexivity |].
    cbn. apply IH. lia.
Qed.

Lemma new_datetime_fields (y m d h mi s us : Z) (tz : option Z) (dt : datetime) :
  new_datetime y m d h mi s us tz = Some dt ->
  dt = mk_datetime y m d h mi s us tz /\ valid_fields dt = true.
Proof.
  unfold new_datetime.
  destruct (valid_date y m d && (0 <=? h) && (0 <=? mi) && (0 <=? s)
            && valid_clock h mi s && (0 <=? us) && (us <=? 999999)) eqn:E;
    [| discriminate].
  intros [= <-]. split; [reflexivity |]. exact E.
Qed.

Lemma tzinfo_of_offset (tz : option (Z * Z)) (tzinfo : option Z) :
  tzinfo_of tz = Some tzinfo ->
  (tz = None <-> tzinfo = None)
  /\ match tzinfo with
     | Some off => - 86400000000 < off < 86400000000
     | None => True
     end.
Proof.
  unfold tzinfo_of. destruct tz as [[seconds us] |].
  - destruct (seconds =? 0).
    + intros [= <-]. split; [split; discriminate | lia].
    + destruct ((- 86400000000 <? seconds * 1000000 + us)
                && (seconds * 1000000 + us <? 86400000000)) eqn:E;
        [| discriminate].
      intros [= <-]. split; [split; discriminate | lia].
  - intros [= <-]. done.
Qed.

(** What [parse_isoformat_time] returns: the hour is read from the first
    two characters, and an offset is returned exactly when a designator
    stands behind them. *)
Lemma parse_isoformat_time_hour (t : list ascii) (h mi s us : Z)
    (tz : option (Z * Z)) :
  parse_isoformat_time t = Some (h, mi, s, us, tz) ->
  exists HH behind,
    t = (HH ++ behind)%list /\ field 2 HH h
    /\ (tz <> None <-> Exists (fun z => is_tz_mark z = true) behind).
Proof.
  unfold parse_isoformat_time.
  pose proof (split_at_mark_app t) as Happ.
  pose proof (split_at_mark_clock t) as Hclock.
  pose proof (split_at_mark_zone t) as Hzone.
  destruct (split_at_mark t) as [clock zone]. cbn [fst snd] in *.
  destruct (parse_hh_mm_ss_ff clock (hd NUL zone))
    as [[more [[[h0 mi0] s0] us0]] |] eqn:E; [| discriminate].
  destruct (parse_hh_mm_ss_ff_hour _ _ _ _ _ _ _ E) as (HH & t1 & -> & HHH).
  intros Hres. exists HH, (t1 ++ zone)%list.
  split; [by rewrite Happ, <- app_assoc |].
  apply Forall_app in Hclock as [_ Ht1].
  destruct zone as [| mark z].
  - destruct more; [discriminate |]. injection Hres as <- <- <- <- <-.
    split; [exact HHH |]. rewrite app_nil_r. split; [done |].
    intros Hex. apply Exists_exists in Hex as (c & Hin & Hc).
    rewrite Forall_forall in Ht1. rewrite (Ht1 c Hin) in Hc. discriminate.
  - assert (h0 = h /\ tz <> None) as [<- Htz].
    { repeat match type of Hres with
             | context [match ?x with _ => _ end] => destruct x
             end; try discriminate; by injection Hres as <- <- <- <- <-. }
    split; [exact HHH |]. split; [| done]. intros _.
    apply Exists_app. right. constructor. by eapply Hzone.
Qed.

(** Every text that [isoformat] reads has the shape of an ISO 8601 date
    and time, and the value returned is what the text says. *)
Lemma isoformat_iso_text (l : list ascii) (d : datetime) :
  isoformat l = Some d ->
  iso_text l d /\ valid_fields d = true /\ valid_offset d.
Proof.
  unfold isoformat. destruct (length l <? 7)%nat eqn:El; [discriminate |].
  apply Nat.ltb_ge in El.
  destruct (find_isoformat_datetime_separator l) as [sep |] eqn:Esep;
    [| discriminate].
  cbn [mbind option_bind].
  destruct (parse_isoformat_date (take sep l)) as [[[y m] dd] |] eqn:Edate;
    [| discriminate].
  cbn [mbind option_bind].
  assert (Hdate : date_text (take sep l) (y, m, dd)).
  { apply parse_isoformat_date_text; [| exact Edate].
    destruct (find_separator_cases _ _ Esep) as [-> | [-> | [-> Hdash]]].
    - left. rewrite length_take. lia.
    - left. rewrite length_take. lia.
    - right. split; [rewrite length_take; lia |].
      rewrite byte_at_take by lia. exact Hdash. }
  pose proof (take_drop sep l) as Hl.
  destruct (drop sep l) as [| c rest'] eqn:Erest.
  - intros Hnew. destruct (new_datetime_fields _ _ _ _ _ _ _ _ _ Hnew) as [-> Hv].
    split; [| split; [exact Hv | exact I]].
    exists (take sep l), []. by rewrite Hl.
  - destruct (parse_isoformat_time (drop (utf8_length c) (c :: rest')))
      as [[[[[h mi] s] us] tz] |] eqn:Etime; [| discriminate].
    cbn [mbind option_bind].
    destruct (tzinfo_of tz) as [tzinfo |] eqn:Etz; [| discriminate].
    cbn [mbind option_bind]. intros Hnew.
    destruct (new_datetime_fields _ _ _ _ _ _ _ _ _ Hnew) as [-> Hv].
    destruct (tzinfo_of_offset _ _ Etz) as [Hnone Hoff].
    split; [| split; [exact Hv | exact Hoff]].
    exists (take sep l), (c :: rest'). split; [by rewrite Hl |].
    split; [exact Hdate |].
    destruct (parse_isoformat_time_hour _ _ _ _ _ _ Etime)
      as (HH & behind & Ht & HHH & Hmark).
    exists HH, behind. split; [exact Ht |]. split; [exact HHH |].
    rewrite <- Hmark. unfold aware. cbn [Py.tzinfo].
    destruct tzinfo as [off |], tz as [p |].
    + split; [discriminate | reflexivity].
    + by pose proof (proj1 Hnone eq_refl).
    + by pose proof (proj2 Hnone eq_refl).
    + split; [discriminate | intros Hne; by destruct Hne].
Qed.

Lemma is_char_digit_char (c : ascii) (e : Z) :
  digit c = None -> is_char c (digit_char e) = false.
Proof.
  intros Hc. unfold is_char. destruct (Ascii.eqb c (digit_char e)) eqn:E;
    [| reflexivity].
  apply Ascii.eqb_eq in E. subst c. rewrite digit_digit_char in Hc.
  discriminate.
Qed.

Lemma is_tz_mark_digit_char (e : Z) : is_tz_mark (digit_char e) = false.
Proof.
  unfold is_tz_mark. by rewrite !is_char_digit_char.
Qed.

Lemma padded_length (k : nat) (n : Z) : length (padded k n) = k.
Proof.
  revert n. induction k as [| k IH]; intros n; [reflexivity |].
  cbn [padded]. rewrite length_app, IH. cbn. lia.
Qed.

Lemma parse_digits_padded (k : nat) (n : Z) (r : list ascii) :
  0 <= n < 10 ^ Z.of_nat k ->
  parse_digits k (padded k n ++ r) = Some (n, r).
Proof.
  intros Hn. unfold parse_digits.
  rewrite length_app, padded_length.
  replace (k + length r <? k)%nat with false
    by (symmetry; apply Nat.ltb_ge; lia).
  rewrite take_app_length' by (by rewrite padded_length).
  rewrite drop_app_length' by (by rewrite padded_length).
  by rewrite digits_padded.
Qed.

Lemma find_separator_calendar (c0 c1 c2 c3 c5 : ascii) (rest : list ascii) :
  is_char "W" c5 = false -> length rest <> 1%nat ->
  find_isoformat_datetime_separator
    (c0 :: c1 :: c2 :: c3 :: "-"%char :: c5 :: rest) = Some 10%nat.
Proof.
  intros Hw Hlen. unfold find_isoformat_datetime_separator.
  cbn [length byte_at nth].
  replace (S (S (S (S (S (S (length rest)))))) =? 7)%nat with false
    by (symmetry; apply Nat.eqb_neq; lia).
  change (is_char "-" "-") with true. cbv iota. by rewrite Hw.
Qed.

Lemma parse_isoformat_date_calendar (y m d : Z) :
  valid_date y m d = true ->
  parse_isoformat_date
    (padded 4 y ++ "-"%char :: padded 2 m ++ "-"%char :: padded 2 d)
  = Some (y, m, d).
Proof.
  intros Hv.
  assert (Hr : 1 <= y <= 9999 /\ 1 <= m <= 12 /\ 1 <= d <= 31).
  { unfold valid_date, days_in_month in Hv.
    repeat match type of Hv with
           | context [if ?b then _ else _] => destruct b
           end; lia. }
  unfold parse_isoformat_date.
  rewrite parse_digits_padded by (cbn; lia).
  cbn [mbind option_bind hd tl]. change (is_char "-" "-") with true.
  cbv iota.
  replace (is_char "W" (hd NUL (padded 2 m ++ "-"%char :: padded 2 d)))
    with false
    by (cbn [padded app hd]; by rewrite is_char_digit_char).
  rewrite parse_digits_padded by (cbn; lia).
  cbn [mbind option_bind hd tl andb negb]. change (is_char "-" "-") with true.
  cbn [negb]. rewrite <- (app_nil_r (padded 2 d)).
  rewrite parse_digits_padded by (cbn; lia). reflexivity.
Qed.

Lemma split_at_mark_clock_zone (clock zone : list ascii) :
  Forall (fun c => is_tz_mark c = false) clock ->
  is_tz_mark (hd "Z"%char zone) = true ->
  split_at_mark (clock ++ zone) = (clock, zone).
Proof.
  intros Hclock Hzone.
  induction Hclock as [| c clock Hc _ IH]; cbn [app split_at_mark].
  - destruct zone as [| z zone]; [reflexivity |]. cbn [hd] in Hzone.
    cbn [split_at_mark]. by rewrite Hzone.
  - by rewrite Hc, IH.
Qed.

Lemma parse_hh_mm_ss_ff_clock (h mi s us : Z) (next : ascii) :
  0 <= h < 100 -> 0 <= mi < 100 -> 0 <= s < 100 -> 0 <= us <= 999999 ->
  parse_hh_mm_ss_ff
    (padded 2 h ++ ":"%char :: padded 2 mi ++ ":"%char :: padded 2 s
     ++ "."%char :: padded 6 us) next
  = Some (not_nul next, (h, mi, s, us)).
Proof.
  intros Hh Hmi Hs Hus. unfold parse_hh_mm_ss_ff.
  rewrite parse_digits_padded by (cbn; lia).
  cbn [mbind option_bind hd]. change (is_char ":" ":") with true.
  replace (after_component true false
             (":"%char :: padded 2 mi ++ ":"%char :: padded 2 s
              ++ "."%char :: padded 6 us) next)
    with (component (padded 2 mi ++ ":"%char :: padded 2 s
                     ++ "."%char :: padded 6 us))
    by reflexivity.
  rewrite parse_digits_padded by (cbn; lia).
  cbn [mbind option_bind].
  replace (after_component true false
             (":"%char :: padded 2 s ++ "."%char :: padded 6 us) next)
    with (component (padded 2 s ++ "."%char :: padded 6 us))
    by reflexivity.
  rewrite parse_digits_padded by (cbn; lia).
  cbn [mbind option_bind].
  replace (after_component true true ("."%char :: padded 6 us) next)
    with (fraction (padded 6 us)) by reflexivity.
  unfold parse_fraction. rewrite padded_length. cbn [Nat.min].
  rewrite firstn_all2 by (rewrite padded_length; lia).
  rewrite digits_padded by (cbn; lia).
  rewrite drop_ge by (rewrite padded_length; lia).
  cbn [mbind option_bind skip_digits hd]. do 3 f_equal. cbn. lia.
Qed.

(** The text that QuestDB emits for a timestamp is read back to the
    value it was made from, aware with the designator and naive without. *)
Lemma isoformat_local_text (d : datetime) (suffix : list ascii)
    (tz : option Z) :
  valid_fields d = true ->
  (suffix = [] /\ tz = None) \/ (suffix = ["Z"%char] /\ tz = Some 0) ->
  isoformat (local_text d ++ suffix) = Some (with_tzinfo d tz).
Proof.
  intros Hv Hsuffix. pose proof Hv as Hv0. unfold valid_fields in Hv.
  apply andb_prop in Hv as [Hv Hus2]. apply andb_prop in Hv as [Hv Hus1].
  apply andb_prop in Hv as [Hv Hclock]. apply andb_prop in Hv as [Hv Hs].
  apply andb_prop in Hv as [Hv Hmi]. apply andb_prop in Hv as [Hdate Hh].
  assert (Hr : hour d <= 23 /\ minute d <= 59 /\ second d <= 59)
    by (unfold valid_clock in Hclock; lia).
  set (date := (padded 4 (year d) ++ "-"%char :: padded 2 (month d)
                ++ "-"%char :: padded 2 (day d))%list).
  set (clock := (padded 2 (hour d) ++ ":"%char :: padded 2 (minute d)
                 ++ ":"%char :: padded 2 (second d)
                 ++ "."%char :: padded 6 (microsecond d))%list).
  assert (Htext : (local_text d ++ suffix)%list
                  = (date ++ "T"%char :: clock ++ suffix)%list).
  { unfold local_text. subst date clock. cbn [app].
    repeat (rewrite <- ?app_assoc; cbn [app]). reflexivity. }
  rewrite Htext.
  assert (Hlen : length date = 10%nat) by reflexivity.
  assert (Hclen : length clock = 15%nat) by reflexivity.
  unfold isoformat.
  replace (length (date ++ "T"%char :: clock ++ suffix) <? 7)%nat with false
    by (symmetry; apply Nat.ltb_ge; rewrite length_app, Hlen; lia).
  assert (Hsep : find_isoformat_datetime_separator
                   (date ++ "T"%char :: clock ++ suffix) = Some 10%nat).
  { subst date. cbn [padded app].
    apply find_separator_calendar; [by apply is_char_digit_char |].
    cbn [length]. lia. }
  rewrite Hsep. cbn [mbind option_bind].
  rewrite take_app_length' by exact Hlen.
  rewrite drop_app_length' by exact Hlen.
  subst date. rewrite parse_isoformat_date_calendar by exact Hdate.
  cbn [mbind option_bind]. change (utf8_length "T") with 1%nat.
  cbn [drop]. rewrite drop_0. unfold parse_isoformat_time.
  rewrite split_at_mark_clock_zone; cycle 1.
  { subst clock. cbn [padded app].
    repeat (constructor; [first [apply is_tz_mark_digit_char | reflexivity] |]).
    constructor. }
  { by destruct Hsuffix as [[-> _] | [-> _]]. }
  cbn [fst snd]. subst clock.
  rewrite parse_hh_mm_ss_ff_clock by lia.
  assert (Hfin : new_datetime (year d) (month d) (day d) (hour d) (minute d)
                   (second d) (microsecond d) tz = Some (with_tzinfo d tz)).
  { unfold new_datetime. unfold valid_fields in Hv0. by rewrite Hv0. }
  destruct Hsuffix as [[-> ->] | [-> ->]]; cbn; exact Hfin.
Qed.

(** The text [2023-08-14T12:00:00], which carries no designator, is
    coerced to a naive value: the result of coercion under TIMESTAMP is not
    always timezone-aware. *)
Lemma timestamp_not_always_aware :
  ~ (forall (rt : PyRuntime) (raw w : pyval),
       raw <> PNone -> coerce "TIMESTAMP" raw = Ok w ->
       exists d, w = PDatetime d /\ aware d = true).
Proof.
  intros Hall.
  destruct (Hall Sample.runtime (PStr "2023-08-14T12:00:00")
              (PDatetime (mk_datetime 2023 8 14 12 0 0 0 None))
              ltac:(discriminate) eq_refl) as (d & Hd & Ha).
  injection Hd as <-. discriminate Ha.
Qed.

Lemma coerce_timestamp `{PyRuntime} (raw : pyval) :
  coerce "TIMESTAMP" raw = convert_value conv_fromisoformat raw.
Proof. reflexivity. Qed.

(** The text [2023-08-14x12:00:00], whose separator is no [T], is read all
    the same: [datetime.fromisoformat] takes any one character there. *)
Lemma fromisoformat_separator_is_free :
  @coerce Sample.runtime "TIMESTAMP" (PStr "2023-08-14x12:00:00")
  = Ok (PDatetime (mk_datetime 2023 8 14 12 0 0 0 None)).
Proof. reflexivity. Qed.

Lemma coerce_timestamp_text `{PyRuntime} (s : string) :
  coerce "TIMESTAMP" (PStr s)
  = match isoformat (list_ascii_of_string s) with
    | Some d => Ok (PDatetime d)
    | None => Raise ValueError
    end.
Proof. reflexivity. Qed.

(** C8. A non-null cell of a TIMESTAMP column is handed to
    [datetime.fromisoformat].  Text of the form
    [YYYY-MM-DDTHH:MM:SS.ffffffZ] with fields in range gives the aware
    value with these fields and offset zero, and the same text without the
    designator gives the naive value with these fields.  Text that has not
    the shape of an ISO 8601 date and time, and more generally every text
    that [isoformat] does not read, raises [ValueError]; a cell that is not
    text raises [TypeError].  A value that is returned is the datetime read
    from a text cell: the text has the shape of an ISO 8601 date and time,
    the value has the date and the hour written there, it is aware exactly
    when the text carries a designator, and its fields and its offset are
    in range. *)
Theorem timestamp_coercion `{PyRuntime} (d : datetime) :
  valid_fields d = true ->
  coerce "TIMESTAMP" (PStr (utc_text d))
  = Ok (PDatetime (with_tzinfo d (Some 0)))
  /\ coerce "TIMESTAMP" (PStr (naive_text d))
     = Ok (PDatetime (with_tzinfo d None))
  /\ (forall s, (forall d', ~ iso_text (list_ascii_of_string s) d') ->
        coerce "TIMESTAMP" (PStr s) = Raise ValueError)
  /\ (forall s, isoformat (list_ascii_of_string s) = None ->
        coerce "TIMESTAMP" (PStr s) = Raise ValueError)
  /\ (forall raw, raw <> PNone -> (forall s, raw <> PStr s) ->
        coerce "TIMESTAMP" raw = Raise TypeError)
  /\ (forall raw w, raw <> PNone -> coerce "TIMESTAMP" raw = Ok w ->
        exists s d',
          raw = PStr s /\ w = PDatetime d'
          /\ isoformat (list_ascii_of_string s) = Some d'
          /\ iso_text (list_ascii_of_string s) d'
          /\ valid_fields d' = true /\ valid_offset d').
Proof.
  intros Hv. repeat split.
  - rewrite coerce_timestamp_text. unfold utc_text.
    rewrite list_ascii_of_string_of_list_ascii.
    rewrite (isoformat_local_text d ["Z"%char] (Some 0) Hv); [done |].
    by right.
  - rewrite coerce_timestamp_text. unfold naive_text.
    rewrite list_ascii_of_string_of_list_ascii.
    rewrite <- (app_nil_r (local_text d)).
    rewrite (isoformat_local_text d [] None Hv); [done |]. by left.
  - intros s Hshape. rewrite coerce_timestamp_text.
    destruct (isoformat (list_ascii_of_string s)) as [d' |] eqn:E; [| done].
    destruct (Hshape d'). by apply isoformat_iso_text.
  - intros s Hs. rewrite coerce_timestamp_text. by rewrite Hs.
  - intros raw Hn Hs. rewrite coerce_timestamp.
    destruct raw; try reflexivity; [done | by destruct (Hs s)].
  - intros raw w Hn Hw. rewrite coerce_timestamp in Hw.
    destruct raw; try discriminate Hw; [done |].
    exists s. change (convert_value conv_fromisoformat (PStr s))
      with (coerce "TIMESTAMP" (PStr s)) in Hw.
    rewrite coerce_timestamp_text in Hw.
    destruct (isoformat (list_ascii_of_string s)) as [d' |] eqn:E;
      [| discriminate].
    injection Hw as <-. exists d'.
    destruct (isoformat_iso_text _ _ E) as (Hshape & Hfields & Hoff).
    done.
Qed.

Lemma timestamp_coercion_witness :
  valid_fields (mk_datetime 2023 8 14 12 0 0 0 None) = true
  /\ @coerce Sample.runtime "TIMESTAMP" (PStr "2023-08-14T12:00:00.000000Z")
     = Ok (PDatetime (mk_datetime 2023 8 14 12 0 0 0 (Some 0)))
  /\ @coerce Sample.runtime "TIMESTAMP" (PStr "2023-08-14T12:00:00.000000")
     = Ok (PDatetime (mk_datetime 2023 8 14 12 0 0 0 None))
  /\ @coerce Sample.runtime "TIMESTAMP" (PStr "not a timestamp")
     = Raise ValueError
  /\ @coerce Sample.runtime "TIMESTAMP" (PInt 1628097600) = Raise TypeError.
Proof.
  assert (Hv : valid_fields (mk_datetime 2023 8 14 12 0 0 0 None) = true)
    by reflexivity.
  split; [exact Hv |].
  destruct (@timestamp_coercion Sample.runtime _ Hv)
    as (Hu & Hn & _ & Hbad & Htype & _).
  split; [exact Hu |]. split; [exact Hn |]. split.
  - apply Hbad. reflexivity.
  - apply Htype; [discriminate | intros s; discriminate].
Defined.

(** ** Narrowing *)

Section Narrowing.
Context `{Pandas}.
Hypothesis laws : PandasLaws _.

(** The loop body, by the conversion of the declared type. *)
Lemma convert_column_narrowing (df : frame) (col : QuestDBColumn) :
  convert_column df col
  = match narrowing (type col) with
    | Some conv =>
        s ← df_getitem df (name col); s' ← conv s; df_setitem df (name col) s'
    | None => Ok df
    end.
Proof.
  unfold convert_column, narrowing.
  repeat match goal with
         | |- context [if ?b then _ else _] => destruct b
         end; reflexivity.
Qed.

Lemma narrowing_idem (declared : string) (conv : series -> result series)
    (s s' : series) :
  narrowing declared = Some conv -> conv s = Ok s' -> conv s' = Ok s'.
Proof.
  unfold narrowing. intros Hn Hc.
  repeat match type of Hn with
         | context [if ?b then _ else _] => destruct b
         end; try discriminate; injection Hn as <-.
  - by eapply to_datetime_idem.
  - by eapply to_numeric_idem.
  - by eapply to_numeric_idem.
  - by eapply astype_str_idem.
Qed.

(** A step keeps the labels, leaves its column narrowed and does not touch
    the columns of other names. *)
Lemma convert_column_step (df df' : frame) (col : QuestDBColumn) :
  NoDup (df_columns df) ->
  convert_column df col = Ok df' ->
  df_columns df' = df_columns df
  /\ narrowed df' col
  /\ forall other, name other <> name col -> narrowed df other ->
                   narrowed df' other.
Proof.
  intros Hnd. rewrite convert_column_narrowing. unfold narrowed.
  destruct (narrowing (type col)) as [conv |] eqn:En.
  - intros Hstep.
    destruct (bind_Ok_inv _ _ _ Hstep) as (s & Hget & Hstep').
    destruct (bind_Ok_inv _ _ _ Hstep') as (s' & Hconv & Hset).
    split; [by eapply setitem_columns |]. split.
    + exists s'. split; [by eapply getitem_setitem |].
      by eapply narrowing_idem.
    + intros other Hne. destruct (narrowing (type other)); [| done].
      intros (t & Ht & Hfix). exists t. split; [| done].
      by rewrite (getitem_setitem_other laws df (name col) s s' df' (name other) Hnd Hget Hset Hne).
  - intros [= <-]. done.
Qed.

Lemma convert_column_fixed (df : frame) (col : QuestDBColumn) :
  NoDup (df_columns df) -> narrowed df col -> convert_column df col = Ok df.
Proof.
  intros Hnd. rewrite convert_column_narrowing. unfold narrowed.
  destruct (narrowing (type col)) as [conv |]; [| done].
  intros (s & Hget & Hfix). rewrite Hget. rsimpl. rewrite Hfix. rsimpl.
  by apply setitem_getitem.
Qed.

Lemma convert_types_narrows (columns : list QuestDBColumn) :
  forall df df',
    NoDup (df_columns df) -> NoDup (map name columns) ->
    convert_types df columns = Ok df' ->
    df_columns df' = df_columns df
    /\ (forall col, In col columns -> narrowed df' col)
    /\ (forall other, ~ In (name other) (map name columns) ->
                      narrowed df other -> narrowed df' other).
Proof.
  induction columns as [| col columns IH]; intros df df' Hnd Hnames Hrun.
  - cbn in Hrun. injection Hrun as <-. split; [done |]. split; [| done].
    intros col [].
  - cbn [convert_types] in Hrun.
    destruct (bind_Ok_inv _ _ _ Hrun) as (df1 & Hstep & Hrest).
    cbn [map] in Hnames. apply NoDup_cons in Hnames as [Hfresh Hnames].
    destruct (convert_column_step _ _ _ Hnd Hstep) as (Hl1 & Hn1 & Ho1).
    destruct (IH df1 df' ltac:(by rewrite Hl1) Hnames Hrest) as (Hl & Hn & Ho).
    split; [by rewrite Hl |]. split.
    + intros c [<- | Hin]; [| by apply Hn].
      apply Ho; [| done]. intros Hin. apply Hfresh. by apply list_elem_of_In.
    + intros other Hnot Hnar. cbn [map In] in Hnot.
      apply Ho; [tauto |]. apply Ho1; [| done]. intros E. apply Hnot. by left.
Qed.

Lemma convert_types_fixed (columns : list QuestDBColumn) (df : frame) :
  NoDup (df_columns df) ->
  (forall col, In col columns -> narrowed df col) ->
  convert_types df columns = Ok df.
Proof.
  intros Hnd. induction columns as [| col columns IH]; intros Hall; [done |].
  cbn [convert_types]. rewrite convert_column_fixed; [| done | apply Hall; by left].
  rsimpl. apply IH. intros c Hin. apply Hall. by right.
Qed.

End Narrowing.


(** *** The list-based pandas satisfies the contract *)

Lemma sample_setitem_labels (cols : list (string * Sample.Series))
    (label : string) (s0 s : Sample.Series) :
  Sample.getitem cols label = Ok s0 ->
  map fst (Sample.setitem cols label s) = map fst cols.
Proof.
  induction cols as [| [l s'] cols IH]; intros Hget; [discriminate |].
  cbn [Sample.getitem Sample.setitem] in *.
  destruct (String.eqb l label); [reflexivity |].
  cbn [map fst]. f_equal. by apply IH.
Qed.

Lemma sample_getitem_setitem (cols : list (string * Sample.Series))
    (label : string) (s : Sample.Series) :
  Sample.getitem (Sample.setitem cols label s) label = Ok s.
Proof.
  induction cols as [| [l s'] cols IH]; cbn [Sample.getitem Sample.setitem].
  - by rewrite String.eqb_refl.
  - destruct (String.eqb l label) eqn:E; cbn [Sample.getitem]; by rewrite E.
Qed.

Lemma sample_getitem_setitem_other (cols : list (string * Sample.Series))
    (label other : string) (s : Sample.Series) :
  other <> label ->
  Sample.getitem (Sample.setitem cols label s) other
  = Sample.getitem cols other.
Proof.
  intros Hne.
  induction cols as [| [l s'] cols IH]; cbn [Sample.getitem Sample.setitem].
  - destruct (String.eqb label other) eqn:E; [| reflexivity].
    apply String.eqb_eq in E. congruence.
  - destruct (String.eqb l label) eqn:E; cbn [Sample.getitem]; [| by rewrite IH].
    apply String.eqb_eq in E. subst l.
    destruct (String.eqb label other) eqn:E'; [| reflexivity].
    apply String.eqb_eq in E'. congruence.
Qed.

Lemma sample_setitem_getitem (cols : list (string * Sample.Series))
    (label : string) (s : Sample.Series) :
  Sample.getitem cols label = Ok s -> Sample.setitem cols label s = cols.
Proof.
  induction cols as [| [l s'] cols IH]; intros Hget; [discriminate |].
  cbn [Sample.getitem Sample.setitem] in *.
  destruct (String.eqb l label); [by injection Hget as -> |].
  f_equal. by apply IH.
Qed.

Lemma py_str_fixed `{PyRuntime} (v w : pyval) :
  py_str v = Ok w -> py_str w = Ok w.
Proof.
  intros Hv.
  assert (exists s, w = PStr s) as [s ->]; [| reflexivity].
  destruct v as [| [] | | | | | |]; cbn in Hv;
    try (injection Hv as <-; by eexists);
    destruct (rt_str _) as [s |]; try discriminate;
    injection Hv as <-; by eexists.
Qed.

Lemma traverse_fixed {A : Type} (f : A -> result A) (l l' : list A) :
  (forall x y, f x = Ok y -> f y = Ok y) ->
  traverse f l = Ok l' -> traverse f l' = Ok l'.
Proof.
  intros Hf. revert l'.
  induction l as [| x l IH]; intros l' Hl.
  - cbn in Hl. by injection Hl as <-.
  - cbn [traverse] in Hl.
    destruct (f x) as [y |] eqn:Ex; rsimpl_in Hl; [| discriminate].
    destruct (traverse f l) as [ys |]; rsimpl_in Hl; [| discriminate].
    injection Hl as <-. cbn [traverse].
    rewrite (Hf _ _ Ex). rsimpl. rewrite (IH _ eq_refl). reflexivity.
Qed.

Lemma sample_pandas_laws : PandasLaws Sample.pandas.
Proof.
  split.
  - intros df label s0 s df' Hget [= <-]. cbn in *.
    by eapply sample_setitem_labels.
  - intros df label s0 s df' _ _ [= <-]. cbn.
    apply sample_getitem_setitem.
  - intros df label s0 s df' other _ _ [= <-] Hne. cbn.
    by apply sample_getitem_setitem_other.
  - intros [idx cols] label s _ Hget. cbn in *.
    by rewrite (sample_setitem_getitem _ _ _ Hget).
  - intros [dt vs] s'. cbn. unfold Sample.to_datetime. cbn [Sample.dtype_of].
    destruct dt; try discriminate.
    + cbn [Sample.values].
      destruct (traverse Sample.timestamp_cell vs) as [vs' |]; [| discriminate].
      intros [= <-]. reflexivity.
    + intros [= <-]. reflexivity.
  - intros [dt vs] s' d. cbn. unfold Sample.to_numeric.
    cbn [Sample.dtype_of Sample.values].
    destruct d, dt as [| | bits | bits |]; try (intros [= <-]; reflexivity).
    + destruct vs; [intros [= <-]; reflexivity | discriminate].
    + destruct vs; [intros [= <-]; reflexivity | discriminate].
    + destruct bits as [| p | p]; try (intros [= <-]; reflexivity).
      do 7 (destruct p as [p | p |]; try (intros [= <-]; reflexivity)).
      destruct (Sample.all_close (map Sample.round32 vs) vs) eqn:E;
        intros [= <-]; [reflexivity |].
      cbn [Sample.dtype_of Sample.values]. by rewrite E.
  - intros [dt vs] s'. cbn. unfold Sample.astype_str. cbn [Sample.values].
    destruct (traverse py_str vs) as [vs' |] eqn:E; [| discriminate].
    intros [= <-]. cbn [Sample.values].
    rewrite (traverse_fixed _ _ _ (@py_str_fixed Sample.runtime) E).
    reflexivity.
Qed.


(** ** The index of the table *)

Lemma next_timestamp_name_first (cols : list QuestDBColumn) (label : string) :
  next_timestamp_name cols = Some label <->
  exists pre col post,
    cols = (pre ++ col :: post)%list
    /\ Forall (fun c => type c <> "TIMESTAMP") pre
    /\ type col = "TIMESTAMP" /\ name col = label.
Proof.
  induction cols as [| c cols IH]; cbn [next_timestamp_name].
  - split; [discriminate |]. intros (pre & col & post & Heq & _).
    destruct pre; discriminate.
  - destruct (String.eqb (type c) "TIMESTAMP") eqn:E.
    + apply String.eqb_eq in E. split.
      * intros [= <-]. exists [], c, cols. repeat split; [constructor | done].
      * intros (pre & col & post & Heq & Hpre & Ht & Hn).
        destruct pre as [| p pre]; cbn in Heq; injection Heq as -> ->.
        -- by rewrite Hn.
        -- apply Forall_cons in Hpre as [Hp _]. congruence.
    + apply String.eqb_neq in E. rewrite IH. split.
      * intros (pre & col & post & -> & Hpre & Ht & Hn).
        exists (c :: pre), col, post. repeat split; try done. by constructor.
      * intros (pre & col & post & Heq & Hpre & Ht & Hn).
        destruct pre as [| p pre]; cbn in Heq; injection Heq as -> ->.
        -- congruence.
        -- apply Forall_cons in Hpre as [_ Hpre]. by exists pre, col, post.
Qed.

Lemma next_timestamp_name_none (cols : list QuestDBColumn) :
  next_timestamp_name cols = None <->
  Forall (fun c => type c <> "TIMESTAMP") cols.
Proof.
  induction cols as [| c cols IH]; cbn [next_timestamp_name].
  - split; [constructor | done].
  - destruct (String.eqb (type c) "TIMESTAMP") eqn:E.
    + apply String.eqb_eq in E. split; [discriminate |].
      intros HF. apply Forall_cons in HF as [Hc _]. congruence.
    + apply String.eqb_neq in E. rewrite IH. split.
      * by constructor.
      * intros HF. by apply Forall_cons in HF as [_ ?].
Qed.

(** With a first TIMESTAMP column of a non-empty name, the table is the
    converted frame with that column as index, sorted by index in
    descending order; without a TIMESTAMP column it is the converted
    frame. *)
Lemma query_df_sync_indexed `{Pandas} `{Tokenizer} `{Transport} (self : QuestDB)
    (q : string) (data : QuestDBResponse) :
  (b ← _query_sync self q; parse_query_response b) = Ok data ->
  query_df_sync self q
  = (df0 ← pd_DataFrame (dataset data) (map name (columns data));
     df ← convert_types df0 (columns data);
     match next_timestamp_name (columns data) with
     | Some label =>
         if String.eqb label "" then Ok df
         else df1 ← df_set_index df label; df_sort_index df1 false
     | None => Ok df
     end).
Proof.
  intros Hd. unfold query_df_sync.
  destruct (bind_Ok_inv _ _ _ Hd) as (b & Hb & Hp).
  rewrite Hb. rsimpl. rewrite Hp. rsimpl.
  destruct (pd_DataFrame _ _) as [df0 |]; rsimpl; [| done].
  destruct (convert_types df0 _) as [df |]; rsimpl; [| done].
  destruct (next_timestamp_name (columns data)) as [label |]; [| done].
  cbn [truthy]. by destruct (String.eqb label "").
Qed.

(** C3, at a response whose first TIMESTAMP column has the empty name: the
    test [if timestamp_col:] is false for the empty string, so both
    tabular entry points return the converted frame as it is; [set_index]
    and [sort_index] are not called, although a TIMESTAMP column exists. *)
Theorem empty_timestamp_name_not_indexed `{Pandas} `{Tokenizer} `{Transport}
    (self : QuestDB) (q : string) (data : QuestDBResponse) :
  (b ← _query_sync self q; parse_query_response b) = Ok data ->
  (b ← snd (_query self q); parse_query_response b) = Ok data ->
  next_timestamp_name (columns data) = Some "" ->
  query_df_sync self q
  = (df0 ← pd_DataFrame (dataset data) (map name (columns data));
     convert_types df0 (columns data))
  /\ snd (query_df self q)
     = (df0 ← pd_DataFrame (dataset data) (map name (columns data));
        convert_types df0 (columns data)).
Proof.
  intros Hs Ha Hts. split.
  - rewrite (query_df_sync_indexed _ _ _ Hs), Hts. cbn.
    destruct (pd_DataFrame _ _) as [df0 |]; rsimpl; [| done].
    by destruct (convert_types df0 _).
  - unfold query_df. destruct (_query self q) as [self' fetched].
    cbn [snd] in *. destruct (bind_Ok_inv _ _ _ Ha) as (b & Hb & Hp).
    rewrite Hb. rsimpl. rewrite Hp. rsimpl.
    rewrite Hts. cbn.
    destruct (pd_DataFrame _ _) as [df0 |]; rsimpl; [| done].
    by destruct (convert_types df0 _).
Qed.

Lemma empty_timestamp_name_not_indexed_witness :
  (b ← @_query_sync (Sample.server 200 unnamed_timestamp_body) db "select * from t";
   @parse_query_response Sample.tokenizer b)
  = Ok unnamed_timestamp_response
  /\ (b ← snd (@_query (Sample.server 200 unnamed_timestamp_body) db "select * from t");
      @parse_query_response Sample.tokenizer b)
     = Ok unnamed_timestamp_response
  /\ next_timestamp_name (columns unnamed_timestamp_response) = Some ""
  /\ @query_df_sync Sample.pandas Sample.tokenizer (Sample.server 200 unnamed_timestamp_body)
       db "select * from t" = Ok unnamed_timestamp_table
  /\ snd (@query_df Sample.pandas Sample.tokenizer (Sample.server 200 unnamed_timestamp_body)
            db "select * from t") = Ok unnamed_timestamp_table.
Proof.
  assert (Hs : (b ← @_query_sync (Sample.server 200 unnamed_timestamp_body) db
                      "select * from t";
                @parse_query_response Sample.tokenizer b)
               = Ok unnamed_timestamp_response) by (vm_compute; reflexivity).
  assert (Ha : (b ← snd (@_query (Sample.server 200 unnamed_timestamp_body) db
                           "select * from t");
                @parse_query_response Sample.tokenizer b)
               = Ok unnamed_timestamp_response) by (vm_compute; reflexivity).
  assert (Hts : next_timestamp_name (columns unnamed_timestamp_response)
                = Some "") by reflexivity.
  split; [exact Hs |]. split; [exact Ha |]. split; [exact Hts |].
  destruct (@empty_timestamp_name_not_indexed Sample.pandas
              Sample.tokenizer (Sample.server 200 unnamed_timestamp_body) db "select * from t"
              unnamed_timestamp_response Hs Ha Hts) as [H1 H2].
  rewrite H1, H2. split; vm_compute; reflexivity.
Defined.

(** * Further properties *)

(** ** The run of the row materializer *)

Lemma materialize_step `{PyRuntime} {T : Type} (cols : list QuestDBColumn)
    (convs : list converter) (into_type : shape T) (row : list pyval) :
  type_converter cols = Ok convs ->
  materialize cols into_type row
  = (d ← converted_row [] (zip3 cols convs row); make_item into_type d).
Proof. intros Hc. unfold materialize, record_of. rewrite Hc. reflexivity. Qed.

Lemma yield_rows_all `{PyRuntime} {T : Type} (cols : list QuestDBColumn)
    (convs : list converter) (into_type : shape T) (rows : list (list pyval)) :
  forall items,
    traverse (fun row => d ← converted_row [] (zip3 cols convs row);
                         make_item into_type d) rows = Ok items ->
    yield_rows cols convs into_type rows = (items, None).
Proof.
  induction rows as [| row rows IH]; intros items Ht.
  - cbn in Ht. by injection Ht as <-.
  - cbn [traverse] in Ht. cbn [yield_rows].
    destruct (d ← converted_row [] (zip3 cols convs row); make_item into_type d)
      as [it |]; rsimpl_in Ht; [| discriminate].
    destruct (traverse _ rows) as [its |]; rsimpl_in Ht; [| discriminate].
    injection Ht as <-. by rewrite (IH its eq_refl).
Qed.

Lemma yield_rows_stop `{PyRuntime} {T : Type} (cols : list QuestDBColumn)
    (convs : list converter) (into_type : shape T)
    (pre : list (list pyval)) (bad : list pyval) (post : list (list pyval))
    (e : exn) :
  forall items,
    traverse (fun row => d ← converted_row [] (zip3 cols convs row);
                         make_item into_type d) pre = Ok items ->
    (d ← converted_row [] (zip3 cols convs bad); make_item into_type d)
    = Raise e ->
    yield_rows cols convs into_type (pre ++ bad :: post) = (items, Some e).
Proof.
  induction pre as [| row pre IH]; intros items Ht Hbad.
  - cbn in Ht. injection Ht as <-. cbn [app yield_rows]. by rewrite Hbad.
  - cbn [traverse] in Ht. cbn [app yield_rows].
    destruct (d ← converted_row [] (zip3 cols convs row); make_item into_type d)
      as [it |]; rsimpl_in Ht; [| discriminate].
    destruct (traverse _ pre) as [its |]; rsimpl_in Ht; [| discriminate].
    injection Ht as <-. by rewrite (IH its eq_refl Hbad).
Qed.

Lemma traverse_ext {A B : Type} (f g : A -> result B) (l : list A) :
  (forall x, f x = g x) -> traverse f l = traverse g l.
Proof.
  intros Hfg. induction l as [| x l IH]; [reflexivity |].
  cbn [traverse]. by rewrite Hfg, IH.
Qed.

(** X1. When every declared type is registered and every row of the
    dataset materializes, the generator yields the items of all rows, in
    the order of the dataset, and is then exhausted. *)
Theorem materializer_complete `{PyRuntime} {T : Type}
    (response : QuestDBResponse) (into_type : shape T)
    (convs : list converter) (items : list (item T)) :
  type_converter (columns response) = Ok convs ->
  traverse (materialize (columns response) into_type) (dataset response)
  = Ok items ->
  parse_and_yield_query_response response into_type = (items, None)
  /\ length items = length (dataset response).
Proof.
  intros Hc Ht. split.
  - unfold parse_and_yield_query_response. rewrite Hc.
    apply yield_rows_all. rewrite <- Ht. apply traverse_ext.
    intros row. symmetry. by apply materialize_step.
  - clear Hc. revert items Ht.
    induction (dataset response) as [| row rows IH]; intros items Ht.
    + cbn in Ht. by injection Ht as <-.
    + cbn [traverse] in Ht.
      destruct (materialize _ _ row) as [it |]; rsimpl_in Ht; [| discriminate].
      destruct (traverse _ rows) as [its |]; rsimpl_in Ht; [| discriminate].
      injection Ht as <-. cbn. f_equal. by apply IH.
Qed.

Lemma materializer_complete_witness :
  type_converter (columns body_response)
  = Ok [conv_int; conv_float; conv_str; conv_bool; conv_str; conv_fromisoformat]
  /\ traverse (@materialize Sample.runtime unit (columns body_response) None)
       (dataset body_response) = Ok [Row body_record]
  /\ @parse_and_yield_query_response Sample.runtime unit body_response None
     = ([Row body_record], None).
Proof.
  assert (Hc : type_converter (columns body_response)
               = Ok [conv_int; conv_float; conv_str; conv_bool; conv_str;
                     conv_fromisoformat]) by (vm_compute; reflexivity).
  assert (Ht : traverse (@materialize Sample.runtime unit
                           (columns body_response) None)
                 (dataset body_response) = Ok [Row body_record])
    by (vm_compute; reflexivity).
  split; [exact Hc |]. split; [exact Ht |].
  exact (proj1 (@materializer_complete Sample.runtime unit body_response None
                  _ _ Hc Ht)).
Defined.

(** X2. The generator stops at the first row that does not materialize: it
    has yielded the items of the rows before it, it ends with that row's
    exception, and the rows after it play no part. *)
Theorem materializer_stops_at_first_failure `{PyRuntime} {T : Type}
    (response : QuestDBResponse) (into_type : shape T)
    (pre : list (list pyval)) (bad : list pyval) (post : list (list pyval))
    (items : list (item T)) (e : exn) :
  dataset response = (pre ++ bad :: post)%list ->
  traverse (materialize (columns response) into_type) pre = Ok items ->
  materialize (columns response) into_type bad = Raise e ->
  parse_and_yield_query_response response into_type = (items, Some e).
Proof.
  intros Hd Ht Hbad. unfold parse_and_yield_query_response.
  destruct (type_converter (columns response)) as [convs | e0] eqn:Hc.
  - rewrite Hd. apply yield_rows_stop.
    + rewrite <- Ht. apply traverse_ext. intros row. symmetry.
      by apply materialize_step.
    + rewrite <- Hbad. symmetry. by apply materialize_step.
  - assert (Hfail : forall row, materialize (columns response) into_type row
                                = Raise e0).
    { intros row. unfold materialize, record_of. rewrite Hc. reflexivity. }
    rewrite Hfail in Hbad. injection Hbad as ->.
    destruct pre as [| row pre].
    + cbn in Ht. by injection Ht as <-.
    + cbn [traverse] in Ht. rewrite Hfail in Ht. discriminate.
Qed.

Lemma materializer_stops_at_first_failure_witness :
  dataset failing_second_row
  = ([[PStr "2023-08-14T12:00:00.000000Z"]] ++ [PInt 5]
     :: [[PStr "2023-08-16T12:00:00.000000Z"]])%list
  /\ @parse_and_yield_query_response Sample.runtime unit failing_second_row None
     = ([Row [("ts", PDatetime (mk_datetime 2023 8 14 12 0 0 0 (Some 0)))]],
        Some TypeError).
Proof.
  split; [reflexivity |].
  apply (@materializer_stops_at_first_failure Sample.runtime unit
           failing_second_row None
           [[PStr "2023-08-14T12:00:00.000000Z"]] [PInt 5]
           [[PStr "2023-08-16T12:00:00.000000Z"]]).
  - reflexivity.
  - vm_compute. reflexivity.
  - vm_compute. reflexivity.
Defined.

(** ** Target shapes *)

Lemma yield_rows_shape `{PyRuntime} {T : Type} (cols : list QuestDBColumn)
    (convs : list converter) (construct : dict -> result T)
    (rows : list (list pyval)) :
  forall (ds : list dict) (fin : option exn),
    yield_rows cols convs (None : shape T) rows = (map Row ds, fin) ->
    (forall ts, traverse construct ds = Ok ts ->
       yield_rows cols convs (Some construct) rows = (map Instance ts, fin))
    /\ (forall ds1 d ds2 ts e,
          ds = (ds1 ++ d :: ds2)%list -> traverse construct ds1 = Ok ts ->
          construct d = Raise e ->
          yield_rows cols convs (Some construct) rows
          = (map Instance ts, Some e)).
Proof.
  induction rows as [| row rows IH]; intros ds fin Hrun.
  - cbn in Hrun. injection Hrun as Hds <-.
    destruct ds; [| discriminate]. split.
    + intros ts Ht. cbn in Ht. by injection Ht as <-.
    + intros ds1 d ds2 ts e Heq. by destruct ds1.
  - cbn [yield_rows] in Hrun |- *.
    destruct (converted_row [] (zip3 cols convs row)) as [d0 | e0];
      rsimpl_in Hrun; rsimpl.
    + cbn [make_item] in Hrun |- *.
      destruct (yield_rows cols convs None rows) as [its fin0] eqn:Erest.
      cbn [fst snd] in Hrun. injection Hrun as Hds ->.
      destruct ds as [| d ds]; [discriminate |].
      cbn [map] in Hds. injection Hds as Hd0 Hits. subst d0 its.
      destruct (IH ds fin eq_refl) as [IHok IHfail]. split.
      * intros ts Ht. cbn [traverse] in Ht.
        destruct (construct d) as [t |]; rsimpl_in Ht; [| discriminate].
        destruct (traverse construct ds) as [ts0 |]; rsimpl_in Ht; [| discriminate].
        injection Ht as <-. rsimpl. by rewrite (IHok ts0 eq_refl).
      * intros ds1 d' ds2 ts e Heq Ht Hd.
        destruct ds1 as [| d1 ds1]; cbn [app] in Heq; injection Heq as <- ->.
        -- cbn in Ht. injection Ht as <-. rewrite Hd. reflexivity.
        -- cbn [traverse] in Ht.
           destruct (construct d) as [t |]; rsimpl_in Ht; [| discriminate].
           destruct (traverse construct ds1) as [ts0 |] eqn:E1; rsimpl_in Ht;
             [| discriminate].
           injection Ht as <-. rsimpl.
           by rewrite (IHfail ds1 d' ds2 ts0 e eq_refl E1 Hd).
    + injection Hrun as Hds <-. destruct ds; [| discriminate]. split.
      * intros ts Ht. cbn in Ht. by injection Ht as <-.
      * intros ds1 d ds2 ts e Heq. by destruct ds1.
Qed.

(** X3. A target shape changes only the wrapping of the records.  If the
    run without shape yields the dicts [ds] and ends with [fin], then the
    run with a shape whose constructor accepts all of [ds] yields the
    instances built from them and ends with [fin]; and when the constructor
    refuses one of them, the run yields the instances of the dicts before
    it and ends with the constructor's exception. *)
Theorem shape_wraps_records `{PyRuntime} {T : Type}
    (response : QuestDBResponse) (construct : dict -> result T)
    (ds : list dict) (fin : option exn) :
  parse_and_yield_query_response response (None : shape T)
  = (map Row ds, fin) ->
  (forall ts, traverse construct ds = Ok ts ->
     parse_and_yield_query_response response (Some construct)
     = (map Instance ts, fin))
  /\ (forall ds1 d ds2 ts e,
        ds = (ds1 ++ d :: ds2)%list -> traverse construct ds1 = Ok ts ->
        construct d = Raise e ->
        parse_and_yield_query_response response (Some construct)
        = (map Instance ts, Some e)).
Proof.
  unfold parse_and_yield_query_response.
  destruct (type_converter (columns response)) as [convs | e0].
  - apply yield_rows_shape.
  - intros [= Hds <-]. destruct ds; [| discriminate]. split.
    + intros ts Ht. cbn in Ht. by injection Ht as <-.
    + intros ds1 d ds2 ts e Heq. by destruct ds1.
Qed.

Lemma shape_wraps_records_witness :
  @parse_and_yield_query_response Sample.runtime pyval body_response None
  = (map Row [body_record], None)
  /\ @parse_and_yield_query_response Sample.runtime pyval body_response
       (Some number_shape) = (map Instance [PInt 15], None).
Proof.
  assert (Hrun : @parse_and_yield_query_response Sample.runtime pyval
                   body_response None = (map Row [body_record], None))
    by (vm_compute; reflexivity).
  split; [exact Hrun |].
  apply (proj1 (@shape_wraps_records Sample.runtime pyval body_response
                  number_shape [body_record] None Hrun)).
  reflexivity.
Defined.

(** ** The layout of a record *)

(** X4. When the column names are pairwise distinct, the fields of a record
    are in the order of the columns: its keys are the names of the columns,
    up to the number of cells of the row. *)
Theorem record_field_order `{PyRuntime} (cols : list QuestDBColumn)
    (row : list pyval) (d : dict) :
  NoDup (map name cols) ->
  record_of cols row = Ok d ->
  dict_keys d = map name (take (length row) cols).
Proof.
  intros Hnd Hrec. unfold record_of in Hrec.
  destruct (bind_Ok_inv _ _ _ Hrec) as (convs & Hconvs & Hrun).
  assert (Hlen : length convs = length cols).
  { symmetry. eapply Forall2_length, type_converter_Forall2, Hconvs. }
  assert (Hnames : NoDup (map field_name (zip3 cols convs row))).
  { destruct (zip3_names_prefix cols convs row) as [rest Hrest].
    rewrite Hrest in Hnd. by apply NoDup_app in Hnd as (? & _ & _). }
  rewrite converted_row_entries in Hrun by exact Hnames.
  destruct (bind_Ok_inv _ _ _ Hrun) as (es & Hes & Hret).
  cbn [app] in Hret. injection Hret as <-.
  rewrite (traverse_entry_names _ _ Hes). by apply zip3_field_names.
Qed.

Lemma record_field_order_witness :
  NoDup (map name (columns body_response))
  /\ @record_of Sample.runtime (columns body_response)
       [PInt 15; PNone] = Ok [("number", PInt 15); ("value", PNone)]
  /\ dict_keys [("number", PInt 15); ("value", PNone)]
     = map name (take 2 (columns body_response)).
Proof.
  assert (Hnd : NoDup (map name (columns body_response))).
  { apply (bool_decide_unpack _). vm_compute. exact I. }
  assert (Hrec : @record_of Sample.runtime (columns body_response)
                   [PInt 15; PNone] = Ok [("number", PInt 15); ("value", PNone)])
    by (vm_compute; reflexivity).
  split; [exact Hnd |]. split; [exact Hrec |].
  exact (@record_field_order Sample.runtime _ _ _ Hnd Hrec).
Defined.

Lemma zip3_take {A B C : Type} (a : list A) :
  forall (b : list B) (c : list C),
    zip3 a b c = zip3 a b (take (length a) c).
Proof.
  induction a as [| x a IH]; intros b c; [by destruct b, c |].
  destruct b as [| y b]; [reflexivity |].
  destruct c as [| z c]; [reflexivity |].
  cbn [zip3 length take]. f_equal. apply IH.
Qed.

(** X5. The cells of a row beyond the last column are left out without an
    error: the record of a row is the record of its first cells, as many as
    there are columns. *)
Theorem record_ignores_extra_cells `{PyRuntime} (cols : list QuestDBColumn)
    (row : list pyval) :
  record_of cols row = record_of cols (take (length cols) row).
Proof.
  unfold record_of.
  destruct (type_converter cols) as [convs |]; [| reflexivity].
  rsimpl. by rewrite (zip3_take cols convs row).
Qed.

(** ** Failures of the fetch *)

Lemma query_df_after_decode `{Pandas} `{Tokenizer} `{Transport} (self : QuestDB)
    (q : string) :
  snd (query_df self q)
  = (data ← (b ← snd (_query self q); parse_query_response b);
     df0 ← pd_DataFrame (dataset data) (map name (columns data));
     df ← convert_types df0 (columns data);
     match next_timestamp_name (columns data) with
     | Some label =>
         if String.eqb label "" then Ok df
         else df1 ← df_set_index df label; df_sort_index df1 false
     | None => Ok df
     end).
Proof.
  unfold query_df. destruct (_query self q) as [self' fetched]. cbn [snd].
  destruct fetched as [b |]; rsimpl; [| done].
  destruct (parse_query_response b) as [data |]; rsimpl; [| done].
  destruct (pd_DataFrame _ _) as [df0 |]; rsimpl; [| done].
  destruct (convert_types df0 _) as [df |]; rsimpl; [| done].
  destruct (next_timestamp_name (columns data)) as [label |]; [| done].
  cbn [truthy]. by destruct (String.eqb label "").
Qed.

Lemma query_df_sync_after_decode `{Pandas} `{Tokenizer} `{Transport}
    (self : QuestDB) (q : string) :
  query_df_sync self q
  = (data ← (b ← _query_sync self q; parse_query_response b);
     df0 ← pd_DataFrame (dataset data) (map name (columns data));
     df ← convert_types df0 (columns data);
     match next_timestamp_name (columns data) with
     | Some label =>
         if String.eqb label "" then Ok df
         else df1 ← df_set_index df label; df_sort_index df1 false
     | None => Ok df
     end).
Proof.
  unfold query_df_sync.
  destruct (_query_sync self q) as [b |]; rsimpl; [| done].
  destruct (parse_query_response b) as [data |]; rsimpl; [| done].
  destruct (pd_DataFrame _ _) as [df0 |]; rsimpl; [| done].
  destruct (convert_types df0 _) as [df |]; rsimpl; [| done].
  destruct (next_timestamp_name (columns data)) as [label |]; [| done].
  cbn [truthy]. by destruct (String.eqb label "").
Qed.

Lemma query_sync_after_decode `{PyRuntime} `{Tokenizer} `{Transport} {T : Type}
    (self : QuestDB) (q : string) (into_type : shape T) :
  query_sync self q into_type
  = (data ← (b ← _query_sync self q; parse_query_response b);
     Ok (parse_and_yield_query_response data into_type)).
Proof.
  unfold query_sync. by destruct (_query_sync self q).
Qed.

(** X6. When fetching and decoding fail, the exception reaches the caller
    unchanged on all four entry points and nothing is produced: [query]
    ends with it before yielding a row, [query_sync] raises it when called,
    and [query_df] and [query_df_sync] raise it. *)
Theorem fetch_failure_propagates `{PyRuntime} `{Tokenizer} `{Transport}
    `{Pandas} {T : Type} (self : QuestDB) (q : string) (into_type : shape T)
    (e : exn) :
  (b ← snd (_query self q); parse_query_response b) = Raise e ->
  (b ← _query_sync self q; parse_query_response b) = Raise e ->
  snd (query self q into_type) = ([], Some e)
  /\ query_sync self q into_type = Raise e
  /\ snd (query_df self q) = Raise e
  /\ query_df_sync self q = Raise e.
Proof.
  intros Ha Hs. repeat split.
  - rewrite query_runs_generator, Ha. reflexivity.
  - rewrite query_sync_after_decode, Hs. reflexivity.
  - rewrite query_df_after_decode, Ha. reflexivity.
  - rewrite query_df_sync_after_decode, Hs. reflexivity.
Qed.

Lemma fetch_failure_propagates_witness :
  (b ← snd (@_query (Sample.server 200 "not json") db "select 1");
   @parse_query_response Sample.tokenizer b) = Raise DecodeError
  /\ (b ← @_query_sync (Sample.server 200 "not json") db "select 1";
      @parse_query_response Sample.tokenizer b) = Raise DecodeError
  /\ snd (@query Sample.runtime Sample.tokenizer (Sample.server 200 "not json")
            unit db "select 1" None) = ([], Some DecodeError)
  /\ @query_df_sync Sample.pandas Sample.tokenizer
       (Sample.server 200 "not json") db "select 1" = Raise DecodeError.
Proof.
  assert (Ha : (b ← snd (@_query (Sample.server 200 "not json") db "select 1");
                @parse_query_response Sample.tokenizer b) = Raise DecodeError)
    by (vm_compute; reflexivity).
  assert (Hs : (b ← @_query_sync (Sample.server 200 "not json") db "select 1";
                @parse_query_response Sample.tokenizer b) = Raise DecodeError)
    by (vm_compute; reflexivity).
  split; [exact Ha |]. split; [exact Hs |].
  destruct (@fetch_failure_propagates Sample.runtime Sample.tokenizer
              (Sample.server 200 "not json") Sample.pandas unit db "select 1"
              None DecodeError Ha Hs) as (H1 & _ & _ & H4).
  split; [exact H1 | exact H4].
Defined.

(** X7. When the server answers with a status from 400 to 599, both
    clients turn the response into [HTTPError] with that status: no entry
    point produces a row or a table, and the body is not decoded, whatever
    it is. *)
Theorem http_error_status `{PyRuntime} `{Tokenizer} `{Transport} `{Pandas}
    {T : Type} (self : QuestDB) (q : string) (into_type : shape T)
    (response : http_response) :
  aiohttp_get (url self +:+ "/exec") [("query", q)] = Ok response ->
  requests_get (url self +:+ "/exec") [("query", q)] = Ok response ->
  400 <= status_code response < 600 ->
  snd (query self q into_type) = ([], Some (HTTPError (status_code response)))
  /\ query_sync self q into_type = Raise (HTTPError (status_code response))
  /\ snd (query_df self q) = Raise (HTTPError (status_code response))
  /\ query_df_sync self q = Raise (HTTPError (status_code response)).
Proof.
  intros Ha Hs Hst.
  assert (Hurl : url (fst (_query self q)) = url self).
  { unfold _query. by destruct (session self). }
  assert (Hfa : snd (_query self q) = Raise (HTTPError (status_code response))).
  { unfold _query in *. cbn [fst snd] in *. rewrite Hurl, Ha. rsimpl.
    unfold aiohttp_raise_for_status.
    replace (400 <=? status_code response) with true
      by (symmetry; apply Z.leb_le; lia).
    reflexivity. }
  assert (Hfs : _query_sync self q = Raise (HTTPError (status_code response))).
  { unfold _query_sync. rewrite Hs. rsimpl. unfold requests_raise_for_status.
    replace (400 <=? status_code response) with true
      by (symmetry; apply Z.leb_le; lia).
    replace (status_code response <? 600) with true
      by (symmetry; apply Z.ltb_lt; lia).
    reflexivity. }
  repeat split.
  - rewrite query_runs_generator, Hfa. reflexivity.
  - rewrite query_sync_after_decode, Hfs. reflexivity.
  - rewrite query_df_after_decode, Hfa. reflexivity.
  - rewrite query_df_sync_after_decode, Hfs. reflexivity.
Qed.

Lemma http_error_status_witness :
  @aiohttp_get (Sample.server 404 body) (url db +:+ "/exec")
    [("query", "select * from t")] = Ok (mk_http_response 404 body)
  /\ 400 <= 404 < 600
  /\ snd (@query Sample.runtime Sample.tokenizer (Sample.server 404 body)
            unit db "select * from t" None) = ([], Some (HTTPError 404))
  /\ @query_df_sync Sample.pandas Sample.tokenizer (Sample.server 404 body)
       db "select * from t" = Raise (HTTPError 404).
Proof.
  assert (Hst : 400 <= status_code (mk_http_response 404 body) < 600)
    by (cbn; lia).
  split; [reflexivity |]. split; [exact Hst |].
  destruct (@http_error_status Sample.runtime Sample.tokenizer
              (Sample.server 404 body) Sample.pandas unit db "select * from t"
              None (mk_http_response 404 body) eq_refl eq_refl Hst)
    as (H1 & _ & _ & H4).
  split; [exact H1 | exact H4].
Defined.

(** ** The state of the connection *)


(** ** The index of the table, continued *)

(** X9. When the first TIMESTAMP column of the response has a name that is
    not empty, both tabular entry points return the converted frame after
    [set_index] on that name and [sort_index] in descending order; later
    TIMESTAMP columns stay ordinary columns. *)
Theorem table_indexed_by_first_timestamp `{Pandas} `{Tokenizer} `{Transport}
    (self : QuestDB) (q : string) (data : QuestDBResponse)
    (pre : list QuestDBColumn) (col : QuestDBColumn)
    (post : list QuestDBColumn) :
  (b ← _query_sync self q; parse_query_response b) = Ok data ->
  (b ← snd (_query self q); parse_query_response b) = Ok data ->
  columns data = (pre ++ col :: post)%list ->
  Forall (fun c => type c <> "TIMESTAMP") pre ->
  type col = "TIMESTAMP" -> name col <> "" ->
  query_df_sync self q
  = (df0 ← pd_DataFrame (dataset data) (map name (columns data));
     df ← convert_types df0 (columns data);
     df1 ← df_set_index df (name col);
     df_sort_index df1 false)
  /\ snd (query_df self q) = query_df_sync self q.
Proof.
  intros Hs Ha Hcols Hpre Hty Hname.
  assert (Hts : next_timestamp_name (columns data) = Some (name col)).
  { apply next_timestamp_name_first. by exists pre, col, post. }
  assert (Hne : String.eqb (name col) "" = false) by by apply String.eqb_neq.
  split.
  - rewrite query_df_sync_after_decode, Hs. rsimpl. by rewrite Hts, Hne.
  - rewrite query_df_after_decode, query_df_sync_after_decode, Ha, Hs.
    reflexivity.
Qed.

Lemma table_indexed_by_first_timestamp_witness :
  (b ← @_query_sync (Sample.server 200 two_timestamps_body) db "select * from t";
   @parse_query_response Sample.tokenizer b) = Ok two_timestamps_response
  /\ columns two_timestamps_response
     = ([mk_QuestDBColumn "n" "LONG"] ++ mk_QuestDBColumn "opened" "TIMESTAMP"
        :: [mk_QuestDBColumn "closed" "TIMESTAMP"])%list
  /\ @query_df_sync Sample.pandas Sample.tokenizer
       (Sample.server 200 two_timestamps_body) db "select * from t"
     = Ok two_timestamps_table
  /\ snd (@query_df Sample.pandas Sample.tokenizer
            (Sample.server 200 two_timestamps_body) db "select * from t")
     = Ok two_timestamps_table.
Proof.
  assert (Hs : (b ← @_query_sync (Sample.server 200 two_timestamps_body) db
                      "select * from t";
                @parse_query_response Sample.tokenizer b)
               = Ok two_timestamps_response) by (vm_compute; reflexivity).
  assert (Ha : (b ← snd (@_query (Sample.server 200 two_timestamps_body) db
                           "select * from t");
                @parse_query_response Sample.tokenizer b)
               = Ok two_timestamps_response) by (vm_compute; reflexivity).
  split; [exact Hs |]. split; [reflexivity |].
  destruct (@table_indexed_by_first_timestamp Sample.pandas Sample.tokenizer
              (Sample.server 200 two_timestamps_body) db "select * from t"
              two_timestamps_response [mk_QuestDBColumn "n" "LONG"]
              (mk_QuestDBColumn "opened" "TIMESTAMP")
              [mk_QuestDBColumn "closed" "TIMESTAMP"] Hs Ha eq_refl)
    as [Hsync Hasync].
  - repeat constructor. discriminate.
  - reflexivity.
  - discriminate.
  - rewrite Hasync, Hsync. split; vm_compute; reflexivity.
Defined.

(** X10. When no column of the response is declared TIMESTAMP, with the
    exact spelling, both tabular entry points return the frame that
    [convert_types] returned: no index is set and no sort takes place. *)
Theorem table_without_timestamp `{Pandas} `{Tokenizer} `{Transport}
    (self : QuestDB) (q : string) (data : QuestDBResponse) :
  (b ← _query_sync self q; parse_query_response b) = Ok data ->
  (b ← snd (_query self q); parse_query_response b) = Ok data ->
  Forall (fun c => type c <> "TIMESTAMP") (columns data) ->
  query_df_sync self q
  = (df0 ← pd_DataFrame (dataset data) (map name (columns data));
     convert_types df0 (columns data))
  /\ snd (query_df self q) = query_df_sync self q.
Proof.
  intros Hs Ha Hno.
  assert (Hts : next_timestamp_name (columns data) = None)
    by by apply next_timestamp_name_none.
  split.
  - rewrite query_df_sync_after_decode, Hs. rsimpl. rewrite Hts.
    destruct (pd_DataFrame _ _) as [df0 |]; rsimpl; [| done].
    by destruct (convert_types df0 _).
  - rewrite query_df_after_decode, query_df_sync_after_decode, Ha, Hs.
    reflexivity.
Qed.

Lemma table_without_timestamp_witness :
  (b ← @_query_sync (Sample.server 200 lowercase_timestamp_body) db
         "select * from t";
   @parse_query_response Sample.tokenizer b) = Ok lowercase_timestamp_response
  /\ Forall (fun c => type c <> "TIMESTAMP")
       (columns lowercase_timestamp_response)
  /\ @query_df_sync Sample.pandas Sample.tokenizer
       (Sample.server 200 lowercase_timestamp_body) db "select * from t"
     = (df0 ← @pd_DataFrame Sample.pandas
                 (dataset lowercase_timestamp_response)
                 (map name (columns lowercase_timestamp_response));
        @convert_types Sample.pandas df0
          (columns lowercase_timestamp_response)).
Proof.
  assert (Hs : (b ← @_query_sync (Sample.server 200 lowercase_timestamp_body)
                      db "select * from t";
                @parse_query_response Sample.tokenizer b)
               = Ok lowercase_timestamp_response) by (vm_compute; reflexivity).
  assert (Ha : (b ← snd (@_query (Sample.server 200 lowercase_timestamp_body)
                           db "select * from t");
                @parse_query_response Sample.tokenizer b)
               = Ok lowercase_timestamp_response) by (vm_compute; reflexivity).
  assert (Hno : Forall (fun c => type c <> "TIMESTAMP")
                  (columns lowercase_timestamp_response))
    by (repeat constructor; discriminate).
  split; [exact Hs |]. split; [exact Hno |].
  exact (proj1 (@table_without_timestamp Sample.pandas Sample.tokenizer
                  (Sample.server 200 lowercase_timestamp_body) db
                  "select * from t" lowercase_timestamp_response Hs Ha Hno)).
Defined.

(** ** [convert_types], continued *)

Lemma narrowing_converted_types `{Pandas} (declared : string) :
  narrowing declared = None <-> ~ In declared converted_types.
Proof.
  assert (Hin : forall l, type_in declared l = true <-> In declared l).
  { intros l. unfold type_in. rewrite existsb_exists. split.
    - intros (x & Hx & E). apply String.eqb_eq in E. by subst x.
    - intros Hl. exists declared. split; [done | apply String.eqb_refl]. }
  unfold narrowing, converted_types.
  destruct (String.eqb declared "TIMESTAMP") eqn:E1.
  { apply String.eqb_eq in E1. split; [discriminate |].
    intros Hn. destruct Hn. left. done. }
  apply String.eqb_neq in E1.
  destruct (type_in declared ["BOOLEAN"; "BYTE"; "SHORT"; "INT"; "LONG"]) eqn:E2.
  { apply Hin in E2. split; [discriminate |].
    intros Hn. destruct Hn. cbn in E2 |- *. intuition. }
  destruct (type_in declared ["FLOAT"; "DOUBLE"]) eqn:E3.
  { apply Hin in E3. split; [discriminate |].
    intros Hn. destruct Hn. cbn in E3 |- *. intuition. }
  destruct (String.eqb declared "STRING") eqn:E4.
  { apply String.eqb_eq in E4. split; [discriminate |].
    intros Hn. destruct Hn. cbn. intuition. }
  apply String.eqb_neq in E4.
  split; [| done]. intros _ Hn.
  assert (N2 : ~ In declared ["BOOLEAN"; "BYTE"; "SHORT"; "INT"; "LONG"]).
  { intros Hl. apply Hin in Hl. congruence. }
  assert (N3 : ~ In declared ["FLOAT"; "DOUBLE"]).
  { intros Hl. apply Hin in Hl. congruence. }
  cbn in Hn, N2, N3. intuition congruence.
Qed.

(** X11. Columns declared with a type outside TIMESTAMP, BOOLEAN, BYTE,
    SHORT, INT, LONG, FLOAT, DOUBLE and STRING (so SYMBOL and VARCHAR
    columns, and types in another spelling) are passed over by
    [convert_types]: on such columns it returns the frame it was given,
    whatever pandas does. *)
Theorem unconverted_types_pass_through `{Pandas} (df : frame)
    (columns : list QuestDBColumn) :
  Forall (fun col => ~ In (type col) converted_types) columns ->
  convert_types df columns = Ok df.
Proof.
  induction 1 as [| col columns Hcol _ IH]; [reflexivity |].
  cbn [convert_types]. rewrite convert_column_narrowing.
  apply narrowing_converted_types in Hcol. rewrite Hcol. rsimpl. exact IH.
Qed.

Lemma unconverted_types_pass_through_witness :
  Forall (fun col => ~ In (type col) converted_types)
    [mk_QuestDBColumn "sym" "SYMBOL"; mk_QuestDBColumn "label" "VARCHAR";
     mk_QuestDBColumn "n" "long"]
  /\ @convert_types Sample.pandas body_frame
       [mk_QuestDBColumn "sym" "SYMBOL"; mk_QuestDBColumn "label" "VARCHAR";
        mk_QuestDBColumn "n" "long"] = Ok body_frame.
Proof.
  assert (Hf : Forall (fun col => ~ In (type col) converted_types)
                 [mk_QuestDBColumn "sym" "SYMBOL";
                  mk_QuestDBColumn "label" "VARCHAR";
                  mk_QuestDBColumn "n" "long"]).
  { repeat constructor; cbn; intuition discriminate. }
  split; [exact Hf |].
  exact (@unconverted_types_pass_through Sample.pandas body_frame _ Hf).
Defined.

(** X12. Converting the columns of a list is converting those of a prefix
    and then the rest on the frame so obtained; when a column fails, the
    exception is the result and the columns after it are not converted. *)
Theorem convert_types_app `{Pandas} (df : frame)
    (first rest : list QuestDBColumn) :
  convert_types df (first ++ rest)
  = (df' ← convert_types df first; convert_types df' rest)
  /\ (forall e, convert_types df first = Raise e ->
        convert_types df (first ++ rest) = Raise e).
Proof.
  assert (Happ : forall df0, convert_types df0 (first ++ rest)
                   = (df' ← convert_types df0 first; convert_types df' rest)).
  { induction first as [| col first IH]; intros df0; [reflexivity |].
    cbn [app convert_types].
    destruct (convert_column df0 col) as [df1 |]; rsimpl; [apply IH | done]. }
  split; [apply Happ |]. intros e He. by rewrite Happ, He.
Qed.

Lemma convert_column_others `{Pandas} (laws : PandasLaws _)
    (df df' : frame) (col : QuestDBColumn) :
  NoDup (df_columns df) ->
  convert_column df col = Ok df' ->
  df_columns df' = df_columns df
  /\ forall label,
       (name col = label -> narrowing (type col) = None) ->
       df_getitem df' label = df_getitem df label.
Proof.
  intros Hnd. rewrite convert_column_narrowing.
  destruct (narrowing (type col)) as [conv |] eqn:En.
  - intros Hstep.
    destruct (bind_Ok_inv _ _ _ Hstep) as (s & Hget & Hstep').
    destruct (bind_Ok_inv _ _ _ Hstep') as (s' & Hconv & Hset).
    split; [by eapply setitem_columns |].
    intros label Hlabel.
    eapply (getitem_setitem_other laws); try done.
    intros E. symmetry in E. by specialize (Hlabel E).
  - intros [= <-]. done.
Qed.



(** ** Decoding, continued *)

Lemma foldM_app {A S : Type} (f : S -> A -> result S) (a b : list A) :
  forall s, foldM f s (a ++ b) = (s' ← foldM f s a; foldM f s' b).
Proof.
  induction a as [| x a IH]; intros s; [reflexivity |].
  cbn [app foldM]. destruct (f s x) as [s1 |]; rsimpl; [apply IH | done].
Qed.

Lemma response_member_unknown (st : response_slots) (k : string) (v : json) :
  ~ In k response_fields -> response_member st (k, v) = Ok st.
Proof.
  intros Hk. unfold response_member. cbn [fst snd].
  assert (E : forall f, In f response_fields -> String.eqb k f = false).
  { intros f Hf. apply String.eqb_neq. intros ->. done. }
  rewrite !E by (cbn; tauto). reflexivity.
Qed.

Lemma column_member_unknown (st : option string * option string)
    (k : string) (v : json) :
  ~ In k column_fields -> column_member st (k, v) = Ok st.
Proof.
  intros Hk. unfold column_member. cbn [fst snd].
  assert (E : forall f, In f column_fields -> String.eqb k f = false).
  { intros f Hf. apply String.eqb_neq. intros ->. done. }
  rewrite !E by (cbn; tauto). reflexivity.
Qed.

(** X14. A member whose key is not a field of the struct is skipped,
    wherever it stands in the object and whatever its value is: the
    response and the column descriptors decode as they do without it. *)
Theorem unknown_members_ignored (pre post : list (string * json))
    (k : string) (v : json) :
  (~ In k response_fields ->
   decode_QuestDBResponse (JObject (pre ++ (k, v) :: post))
   = decode_QuestDBResponse (JObject (pre ++ post)))
  /\ (~ In k column_fields ->
      decode_QuestDBColumn (JObject (pre ++ (k, v) :: post))
      = decode_QuestDBColumn (JObject (pre ++ post))).
Proof.
  split; intros Hk.
  - unfold decode_QuestDBResponse. rewrite !foldM_app.
    destruct (foldM response_member _ pre) as [st |]; rsimpl; [| done].
    cbn [foldM]. rewrite (response_member_unknown st k v Hk). reflexivity.
  - unfold decode_QuestDBColumn. rewrite !foldM_app.
    destruct (foldM column_member _ pre) as [st |]; rsimpl; [| done].
    cbn [foldM]. rewrite (column_member_unknown st k v Hk). reflexivity.
Qed.

Lemma response_member_seen (st st' : response_slots) (kv : string * json)
    (keys : list string) :
  response_member st kv = Ok st' -> slots_seen st keys ->
  slots_seen st' (keys ++ [fst kv]).
Proof.
  unfold response_member, slots_seen.
  intros Hm (H1 & H2 & H3 & H4 & H5).
  assert (Hin : forall f, In f keys -> In f (keys ++ [fst kv]))
    by (intros f Hf; apply in_or_app; by left).
  assert (Hk : forall f, String.eqb (fst kv) f = true -> In f (keys ++ [fst kv])).
  { intros f E. apply String.eqb_eq in E. subst f. apply in_or_app. right.
    by left. }
  destruct (String.eqb (fst kv) "query") eqn:E1.
  { destruct (decode_str (snd kv)); rsimpl_in Hm; [| done].
    injection Hm as <-. cbn. repeat split; auto. }
  destruct (String.eqb (fst kv) "columns") eqn:E2.
  { destruct (decode_list decode_QuestDBColumn (snd kv)); rsimpl_in Hm; [| done].
    injection Hm as <-. cbn. repeat split; auto. }
  destruct (String.eqb (fst kv) "timestamp") eqn:E3.
  { destruct (decode_int (snd kv)); rsimpl_in Hm; [| done].
    injection Hm as <-. cbn. repeat split; auto. }
  destruct (String.eqb (fst kv) "dataset") eqn:E4.
  { destruct (decode_list decode_tuple (snd kv)); rsimpl_in Hm; [| done].
    injection Hm as <-. cbn. repeat split; auto. }
  destruct (String.eqb (fst kv) "count") eqn:E5.
  { destruct (decode_int (snd kv)); rsimpl_in Hm; [| done].
    injection Hm as <-. cbn. repeat split; auto. }
  injection Hm as <-. repeat split; auto.
Qed.

Lemma foldM_response_seen (ms : list (string * json)) :
  forall st st' keys,
    foldM response_member st ms = Ok st' -> slots_seen st keys ->
    slots_seen st' (keys ++ map fst ms).
Proof.
  induction ms as [| kv ms IH]; intros st st' keys Hf Hs.
  - cbn in Hf. injection Hf as <-. by rewrite app_nil_r.
  - cbn [foldM] in Hf.
    destruct (bind_Ok_inv _ _ _ Hf) as (st1 & Hm & Hrest).
    cbn [map].
    replace (keys ++ fst kv :: map fst ms)%list
      with ((keys ++ [fst kv]) ++ map fst ms)%list
      by (rewrite <- app_assoc; reflexivity).
    eapply IH; [exact Hrest |]. by eapply response_member_seen.
Qed.

(** X15. A document decodes to a response only if it is an object that has
    a member for each of the fields query, columns, timestamp, dataset and
    count: with a field missing, decoding raises. *)
Theorem decoded_response_has_all_fields (j : json) (r : QuestDBResponse) :
  decode_QuestDBResponse j = Ok r ->
  exists ms, j = JObject ms
             /\ forall f, In f response_fields -> In f (map fst ms).
Proof.
  unfold decode_QuestDBResponse.
  destruct j as [| | | | | | ms]; try discriminate.
  intros Hd. exists ms. split; [reflexivity |].
  destruct (bind_Ok_inv _ _ _ Hd) as (st & Hf & Hst).
  assert (Hseen : slots_seen st ([] ++ map fst ms)).
  { eapply foldM_response_seen; [exact Hf |].
    unfold slots_seen. cbn. repeat split; intros [? [=]]. }
  cbn [app] in Hseen. destruct Hseen as (H1 & H2 & H3 & H4 & H5).
  destruct st as [[q |] [cs |] [ts |] [ds |] [n |]]; try discriminate.
  cbn in H1, H2, H3, H4, H5.
  intros f Hf'. cbn in Hf'.
  destruct Hf' as [<- | [<- | [<- | [<- | [<- | []]]]]]; eauto.
Qed.

Lemma decoded_response_has_all_fields_witness :
  decode_QuestDBResponse
    (response_json "select 1" [mk_QuestDBColumn "a" "LONG"] 0 [[JInt 1]] 1)
  = Ok (mk_QuestDBResponse "select 1" [mk_QuestDBColumn "a" "LONG"] 0
          [[PInt 1]] 1)
  /\ exists ms,
       response_json "select 1" [mk_QuestDBColumn "a" "LONG"] 0 [[JInt 1]] 1
       = JObject ms
       /\ forall f, In f response_fields -> In f (map fst ms).
Proof.
  assert (Hd : decode_QuestDBResponse
                 (response_json "select 1" [mk_QuestDBColumn "a" "LONG"] 0
                    [[JInt 1]] 1)
               = Ok (mk_QuestDBResponse "select 1" [mk_QuestDBColumn "a" "LONG"]
                       0 [[PInt 1]] 1)) by reflexivity.
  split; [exact Hd |].
  exact (decoded_response_has_all_fields _ _ Hd).
Defined.

(** ** The write path *)

Section WritePath.
Context `{Ingress.Peer} {M : Type} `{Ingress.QuestMessage M}.

Lemma for_each_app (a b : list M) (body : M -> Ingress.prog unit)
    (h : list Ingress.call) :
  Ingress.for_each (a ++ b) body h
  = (Ingress.for_each a body ;; Ingress.for_each b body) h.
Proof.
  revert h. induction a as [| x a IH]; intros h; [reflexivity |].
  cbn [app Ingress.for_each]. unfold mbind, Ingress.prog_bind in *.
  destruct (body x h) as [h1 [[] | e]]; [apply IH | reflexivity].
Qed.

(** The loop extends the calls made before it by row calls only, at most
    one for each message. *)
Lemma send_rows_calls (messages : list M) :
  forall h, exists rows,
    fst (Ingress.for_each messages send h) = (h ++ rows)%list
    /\ Forall (fun c => is_row c = true) rows
    /\ (length rows <= length messages)%nat.
Proof.
  induction messages as [| msg messages IH]; intros h.
  - exists []. cbn. rewrite app_nil_r. repeat split; [constructor | lia].
  - cbn [Ingress.for_each]. unfold mbind at 1, Ingress.prog_bind at 1.
    unfold send at 1, mbind at 1, Ingress.prog_bind at 1, Ingress.lift,
      Ingress.perform.
    destruct (Ingress.to_quest_db_format msg) as [f | e].
    + destruct (Ingress.raises h (Ingress.client_row f)) as [e |].
      * exists [Ingress.client_row f]. cbn.
        repeat split; [repeat constructor | lia].
      * destruct (IH (h ++ [Ingress.client_row f])%list)
          as (rows & Hrows & Hall & Hlen).
        exists (Ingress.client_row f :: rows). cbn [fst] in *.
        rewrite Hrows, <- app_assoc. cbn.
        repeat split; [by constructor | lia].
    + exists []. cbn. rewrite app_nil_r. repeat split; [constructor | lia].
Qed.

(** With an obliging peer and messages that all convert, the loop makes
    one row call for each message, in order. *)
Lemma send_rows_obliging (messages : list M) :
  obliging ->
  forall fs h,
    traverse Ingress.to_quest_db_format messages = Ok fs ->
    Ingress.for_each messages send h
    = ((h ++ map Ingress.client_row fs)%list, Ok tt).
Proof.
  intros Hob. induction messages as [| msg messages IH]; intros fs h Hfs.
  - cbn in Hfs. injection Hfs as <-. cbn. by rewrite app_nil_r.
  - cbn [traverse] in Hfs.
    destruct (Ingress.to_quest_db_format msg) as [f |] eqn:Ef;
      rsimpl_in Hfs; [| discriminate].
    destruct (traverse _ messages) as [fs0 |]; rsimpl_in Hfs; [| discriminate].
    injection Hfs as <-.
    cbn [Ingress.for_each]. unfold mbind at 1, Ingress.prog_bind at 1.
    unfold send at 1, mbind at 1, Ingress.prog_bind at 1, Ingress.lift,
      Ingress.perform.
    rewrite Ef, Hob. rewrite (IH fs0 _ eq_refl).
    cbn [map]. by rewrite <- app_assoc.
Qed.

End WritePath.

(** X16. With a sender that accepts every call and messages that all
    convert, [write] hands over one row for each message, in the order of
    the messages, and then flushes once, also when there is no message;
    [write_iter] does the same. *)
Theorem write_rows_then_flush `{Ingress.Peer} {M : Type}
    `{Ingress.QuestMessage M} (self : QuestDB) (messages : list M)
    (fs : list Ingress.QuestDBFields) (h : list Ingress.call) :
  obliging ->
  traverse Ingress.to_quest_db_format messages = Ok fs ->
  Ingress.write self messages h
  = ((h ++ map Ingress.client_row fs ++ [Ingress.client_flush])%list, Ok tt)
  /\ Ingress.write_iter self messages h = Ingress.write self messages h.
Proof.
  intros Hob Hfs. split; [| reflexivity].
  unfold Ingress.write. unfold mbind at 1, Ingress.prog_bind at 1.
  change (fun msg : M => _) with (@send _ M _).
  rewrite (send_rows_obliging messages Hob fs h Hfs).
  unfold Ingress.perform. rewrite Hob. by rewrite <- app_assoc.
Qed.

Lemma write_rows_then_flush_witness :
  @obliging quiet_peer
  /\ traverse (@Ingress.to_quest_db_format _ test_message_format) test_messages
     = Ok test_fields
  /\ @Ingress.write quiet_peer _ test_message_format db test_messages []
     = (([] ++ map Ingress.client_row test_fields ++ [Ingress.client_flush])%list,
        Ok tt)
  /\ @Ingress.write_iter quiet_peer _ test_message_format db test_messages []
     = @Ingress.write quiet_peer _ test_message_format db test_messages [].
Proof.
  split; [intros h c; reflexivity |]. split; [reflexivity |].
  exact (@write_rows_then_flush quiet_peer _ test_message_format db
           test_messages test_fields [] (fun _ _ => eq_refl) eq_refl).
Defined.

(** X17. Whatever the sender and the messages do, [buffer_write] and
    [buffer_write_iter] only hand over rows, at most one for each message,
    after the calls made before, and never flush; [write] makes the same
    calls, followed by one flush exactly when none of them raised. *)
Theorem buffer_write_never_flushes `{Ingress.Peer} {M : Type}
    `{Ingress.QuestMessage M} (self : QuestDB) (messages : list M)
    (h : list Ingress.call) :
  exists rows,
    Forall (fun c => is_row c = true) rows
    /\ (length rows <= length messages)%nat
    /\ fst (Ingress.buffer_write self messages h) = (h ++ rows)%list
    /\ Ingress.buffer_write_iter self messages h
       = Ingress.buffer_write self messages h
    /\ fst (Ingress.write self messages h)
       = match snd (Ingress.buffer_write self messages h) with
         | Ok _ => (h ++ rows ++ [Ingress.client_flush])%list
         | Raise _ => (h ++ rows)%list
         end.
Proof.
  destruct (send_rows_calls messages h) as (rows & Hrows & Hall & Hlen).
  exists rows. repeat split; [exact Hall | exact Hlen | exact Hrows |].
  unfold Ingress.write, Ingress.buffer_write.
  unfold mbind at 1, Ingress.prog_bind at 1.
  change (fun msg : M => _) with (@send _ M _) in *.
  destruct (Ingress.for_each messages send h) as [h' [[] | e]]; cbn in *;
    subst h'; [| reflexivity].
  by rewrite <- app_assoc.
Qed.

(** X18. The first message that fails, in its conversion or in the call of
    [row], ends [write] and [buffer_write] with its exception: the messages
    after it are not looked at, and [write] does not flush, so that the rows
    handed over before stay where the sender put them. *)
Theorem first_failure_ends_write `{Ingress.Peer} {M : Type}
    `{Ingress.QuestMessage M} (self : QuestDB) (pre post : list M) (bad : M)
    (h h1 h2 : list Ingress.call) (e : exn) :
  Ingress.buffer_write self pre h = (h1, Ok tt) ->
  send bad h1 = (h2, Raise e) ->
  Ingress.buffer_write self (pre ++ bad :: post) h = (h2, Raise e)
  /\ Ingress.write self (pre ++ bad :: post) h = (h2, Raise e)
  /\ exists rows, h2 = (h ++ rows)%list
                  /\ Forall (fun c => is_row c = true) rows.
Proof.
  intros Hpre Hbad.
  assert (Hloop : Ingress.buffer_write self (pre ++ bad :: post) h
                  = (h2, Raise e)).
  { unfold Ingress.buffer_write in *.
    change (fun msg : M => _) with (@send _ M _) in *.
    rewrite for_each_app. unfold mbind at 1, Ingress.prog_bind at 1.
    rewrite Hpre. cbn [Ingress.for_each].
    unfold mbind at 1, Ingress.prog_bind at 1. by rewrite Hbad. }
  split; [exact Hloop |]. split.
  - unfold Ingress.write. unfold Ingress.buffer_write in Hloop.
    unfold mbind at 1, Ingress.prog_bind at 1. by rewrite Hloop.
  - destruct (send_rows_calls (pre ++ bad :: post) h) as (rows & Hrows & Hall & _).
    unfold Ingress.buffer_write in Hloop.
    change (fun msg : M => _) with (@send _ M _) in Hloop.
    rewrite Hloop in Hrows. exists rows. by split.
Qed.

Lemma first_failure_ends_write_witness :
  @Ingress.buffer_write second_row_refused _ test_message_format db
    (take 1 test_messages) []
  = (map Ingress.client_row (take 1 test_fields), Ok tt)
  /\ @send second_row_refused _ test_message_format second_message
       (map Ingress.client_row (take 1 test_fields))
     = (map Ingress.client_row test_fields, Raise ValueError)
  /\ @Ingress.write second_row_refused _ test_message_format db
       (take 1 test_messages ++ second_message :: test_messages) []
     = (map Ingress.client_row test_fields, Raise ValueError).
Proof.
  split; [reflexivity |]. split; [reflexivity |].
  exact (proj1 (proj2
    (@first_failure_ends_write second_row_refused _ test_message_format db
       (take 1 test_messages) test_messages second_message
       [] _ _ ValueError eq_refl eq_refl))).
Defined.

(** X19. Buffering some messages and then writing others makes the calls of
    writing all of them at once, with the same outcome; so does buffering
    in two parts. *)
Theorem write_after_buffer_write `{Ingress.Peer} {M : Type}
    `{Ingress.QuestMessage M} (self : QuestDB) (a b : list M)
    (h : list Ingress.call) :
  Ingress.write self (a ++ b) h
  = (Ingress.buffer_write self a ;; Ingress.write self b) h
  /\ Ingress.buffer_write self (a ++ b) h
     = (Ingress.buffer_write self a ;; Ingress.buffer_write self b) h.
Proof.
  unfold Ingress.write, Ingress.buffer_write.
  change (fun msg : M => _) with (@send _ M _).
  split; [| apply for_each_app].
  unfold mbind at 1, Ingress.prog_bind at 1. rewrite for_each_app.
  unfold mbind, Ingress.prog_bind.
  destruct (Ingress.for_each a send h) as [h1 [[] | e]]; reflexivity.
Qed.

(** ** The life cycle *)

(** X20. Leaving the context manager of a client that was entered closes
    the session first and the sender after it; when closing the session
    raises, the sender is left open.  Leaving a client that has no session
    calls nothing, so the sender that [__init__] opened stays open. *)
Theorem context_manager_exit `{Ingress.Peer} (self : QuestDB)
    (h : list Ingress.call) :
  Ingress.__aexit__ (Ingress.__aenter__ self) h
  = match Ingress.raises h Ingress.session_close with
    | Some e => ((h ++ [Ingress.session_close])%list, Raise e)
    | None =>
        ((h ++ [Ingress.session_close; Ingress.client_close])%list,
         match Ingress.raises (h ++ [Ingress.session_close])
                 Ingress.client_close with
         | Some e => Raise e
         | None => Ok tt
         end)
    end
  /\ (session self = None -> Ingress.__aexit__ self h = (h, Ok tt)).
Proof.
  split.
  - unfold Ingress.__aexit__, Ingress.__aenter__, Ingress.close.
    destruct (session self) as [s |] eqn:Es; cbn [session]; rewrite ?Es;
      unfold mbind, Ingress.prog_bind, Ingress.perform;
      (destruct (Ingress.raises h Ingress.session_close); [reflexivity |]);
      by rewrite <- app_assoc.
  - intros Es. unfold Ingress.__aexit__. by rewrite Es.
Qed.

(** ** The log handler *)

